(** * Researcher-Tool-AI: the analysis workflow of [App.tsx] and the model
    gateway of [services/geminiService.ts]

    A shallow embedding of the session state of the editor (document,
    selection, active tab, analysis aggregate), of its event handlers
    ([runAnalysis], [verifySelection], [applySuggestion],
    [handleFileUpload]) and of the six gateway operations, followed by the
    properties of the specification that are about them.

    Conventions.
    - A JavaScript string is a [string]: a sequence of code units, here
      restricted to the 8-bit range.  Nothing below depends on the width of
      a code unit.
    - A [number] that the code only compares is a rational ([Q]); array
      indices and clock readings are [nat] and [N].
    - A promise that has settled is an [Outcome]: [Resolved v] or
      [Rejected reason].  An [async] function is the function from its
      environment to the outcome it settles with; where a handler awaits, the
      settled outcome is handed to the rest of the handler.  What the
      handlers and the gateway write to the console is left out.
    - The React state of the component is a [Session]; the handlers run in a
      state monad over a [World], which also keeps the trace of the state
      setters that ran and of the gateway operations that were invoked. *)

From Stdlib Require Import String Ascii QArith DecimalString DecimalN Sorted.
From stdpp Require Import base option list strings gmap.

Local Open Scope string_scope.

Set Warnings "-clear-no-such-hyp".

(** ** The JavaScript built-ins the program uses *)

Module JS.

(** Truthiness of a string: every string but the empty one. *)
Definition truthy (s : string) : bool := negb (String.eqb s "").

(** [a || b] on strings that may be [undefined]. *)
Definition or_else (a : option string) (b : string) : string :=
  match a with
  | Some s => if truthy s then s else b
  | None => b
  end.

(** The code units [String.prototype.trim] strips (WhiteSpace and
    LineTerminator) that fall in the 8-bit range: TAB, LF, VT, FF, CR,
    SPACE and NBSP. *)
Definition isWhiteSpace (c : ascii) : bool :=
  match N_of_ascii c with
  | 9%N | 10%N | 11%N | 12%N | 13%N | 32%N | 160%N => true
  | _ => false
  end.

Fixpoint trimStart (s : string) : string :=
  match s with
  | "" => ""
  | String c s' => if isWhiteSpace c then trimStart s' else s
  end.

Fixpoint trimEnd (s : string) : string :=
  match s with
  | "" => ""
  | String c s' =>
      match trimEnd s' with
      | "" => if isWhiteSpace c then "" else String c ""
      | t => String c t
      end
  end.

(** [s.trim()] *)
Definition trim (s : string) : string := trimEnd (trimStart s).

(** [s.substring(start, end)]: the arguments are swapped when
    [start > end] and clamped to the length of [s]. *)
Definition substring (s : string) (start end_ : nat) : string :=
  let lo := Nat.min start end_ in
  let hi := Nat.max start end_ in
  String.substring lo (hi - lo) s.

(** [s.indexOf(searchString)], with [None] for [-1]. *)
Definition indexOf (s searchString : string) : option nat :=
  String.index 0 searchString s.

(** [s.split(sep)] for a separator of one code unit. *)
Fixpoint split (s : string) (sep : ascii) : list string :=
  match s with
  | "" => [""]
  | String c s' =>
      if Ascii.eqb c sep then "" :: split s' sep
      else
        match split s' sep with
        | p :: ps => String c p :: ps
        | [] => [String c ""]
        end
  end.

(** GetSubstitution of ECMA-262 for a match that has no captures (the
    pattern of [replace] is a string): in the replacement template
    [$$] stands for a dollar sign, [$&] for the matched text, [$`] for
    the text before the match and [$'] for the text after it; every
    other code unit, a [$] before anything else included, stands for
    itself. *)
Fixpoint GetSubstitution (matched before after template : string) : string :=
  match template with
  | "" => ""
  | String c rest =>
      if Ascii.eqb c "$" then
        match rest with
        | String d rest' =>
            if Ascii.eqb d "$" then
              String "$" (GetSubstitution matched before after rest')
            else if Ascii.eqb d "&" then
              matched +:+ GetSubstitution matched before after rest'
            else if Ascii.eqb d "`" then
              before +:+ GetSubstitution matched before after rest'
            else if Ascii.eqb d "'" then
              after +:+ GetSubstitution matched before after rest'
            else String c (GetSubstitution matched before after rest)
        | "" => String c ""
        end
      else String c (GetSubstitution matched before after rest)
  end.

(** [s.replace(searchValue, replaceValue)] with both arguments strings:
    only the first occurrence of [searchValue] is replaced, and the
    replacement is [replaceValue] read as a template. *)
Definition replace (s searchValue replaceValue : string) : string :=
  match indexOf s searchValue with
  | None => s
  | Some position =>
      let before := String.substring 0 position s in
      let tailPos := position + String.length searchValue in
      let after := String.substring tailPos (String.length s - tailPos) s in
      before +:+ GetSubstitution searchValue before after replaceValue +:+ after
  end.

(** The decimal numeral of a natural number, as a template literal
    prints it. *)
Definition Number_toString (n : N) : string :=
  NilEmpty.string_of_uint (N.to_uint n).

End JS.

(** ** types.ts *)

Inductive AnalysisType := GRAMMAR | CLARITY | SOURCES | SUMMARY | AI_CHECK.

Inductive SuggestionType := Grammar | Spelling | Style | Clarity.
Inductive Severity := Critical | Major | Minor.

Module Suggestion.
Record t := mk {
  id : string;
  originalText : string;
  suggestedText : string;
  explanation : string;
  type : SuggestionType;
  severity : Severity
}.
End Suggestion.

Module SourceMatch.
Record t := mk {
  url : string;
  title : string;
  snippet : option string
}.
End SourceMatch.

Inductive VerificationStatus := Verified | Questionable | False' | Unverifiable.

Module VerificationResult.
Record t := mk {
  id : string;
  claim : string;
  status : VerificationStatus;
  explanation : string;
  sources : list SourceMatch.t
}.
End VerificationResult.

Inductive AiLabel := LikelyHuman | MixedSignals | LikelyAIGenerated.

Module AiDetectionResult.
Record t := mk {
  score : Q;
  label : AiLabel;
  explanation : string
}.
End AiDetectionResult.

Module AnalysisState.
Record t := mk {
  isAnalyzing : bool;
  suggestions : list Suggestion.t;
  sources : list SourceMatch.t;
  claimVerification : list VerificationResult.t;
  summary : option string;
  aiDetection : option AiDetectionResult.t;
  error : option string
}.
End AnalysisState.

Module DocumentState.
Record t := mk {
  text : string;
  title : string
}.
End DocumentState.

(** ** Settled promises *)

Inductive Outcome (A : Type) : Type :=
  | Resolved (value : A)
  | Rejected (reason : string).
Arguments Resolved {A} value.
Arguments Rejected {A} reason.

#[global] Instance Outcome_ret : MRet Outcome := λ A, Resolved.
#[global] Instance Outcome_bind : MBind Outcome := λ A B f m,
  match m with
  | Resolved a => f a
  | Rejected e => Rejected e
  end.

Definition isRejected {A} (o : Outcome A) : Prop :=
  match o with
  | Resolved _ => False
  | Rejected _ => True
  end.

(** [Promise.all] of four promises: resolved with the four values when all
    four resolve, rejected when one rejects.  The reason kept here is the
    one of the first rejected promise in the order of the arguments; the
    handler that awaits the four only logs it. *)
Definition Promise_all4 {A B C D}
    (a : Outcome A) (b : Outcome B) (c : Outcome C) (d : Outcome D)
  : Outcome (A * B * C * D) :=
  match a, b, c, d with
  | Resolved x, Resolved y, Resolved z, Resolved u => Resolved (x, y, z, u)
  | Rejected e, _, _, _ => Rejected e
  | _, Rejected e, _, _ => Rejected e
  | _, _, Rejected e, _ => Rejected e
  | _, _, _, Rejected e => Rejected e
  end.

(** ** services/geminiService.ts *)

Module GroundingChunkWeb.
Record t := mk {
  uri : string;
  title : option string
}.
End GroundingChunkWeb.

Module GroundingChunk.
Record t := mk { web : option GroundingChunkWeb.t }.
End GroundingChunk.

(** What the gateway reads of a response of the service: [response.text]
    and [response.candidates?.[0]?.groundingMetadata?.groundingChunks]. *)
Module GenerateContentResponse.
Record t := mk {
  text : option string;
  groundingChunks : option (list GroundingChunk.t)
}.
End GenerateContentResponse.

(** The six requests of the gateway, each with the part of its contents
    that comes from the caller (the fixed wording of the prompts, the model
    name and the response schemas are left out). *)
Inductive Request :=
  | GrammarRequest (contents : string)
  | SourcesRequest (excerpt : string)
  | ClaimsRequest (text : string)
  | SummaryRequest (text : string)
  | AiDetectionRequest (excerpt : string)
  | TranscriptionRequest (data mimeType : string).

(** What the gateway runs on.
    - [API_KEY] is [process.env.API_KEY].
    - [generateContent] is the transport: it settles with a response or
      rejects.
    - [JSON_parse_suggestions] and [JSON_parse_claims] stand for
      [JSON.parse] and the use of its value as an array in [data.map]:
      [None] when [JSON.parse] throws or the value has no [map], both of
      which the same [try] catches.  [JSON_parse_aiDetection] stands for
      [JSON.parse(..) as AiDetectionResult]: [None] when [JSON.parse]
      throws.  The three decoders read a text at the type that the
      [responseSchema] of the request declares.  The program checks no
      schema: what the operations do with a text that is JSON without
      being of the schema is in [Untyped] below, on the values of
      [JSON.parse] as they are.
    - [Date_now i] is the reading of [Date.now()] taken while item [i] of
      a response is given its id. *)
Record Runtime := {
  API_KEY : option string;
  generateContent : Request → Outcome GenerateContentResponse.t;
  JSON_parse_suggestions : string → option (list Suggestion.t);
  JSON_parse_claims : string → option (list VerificationResult.t);
  JSON_parse_aiDetection : string → option AiDetectionResult.t;
  Date_now : nat → N
}.

Definition getAiClient (rt : Runtime) : Outcome unit :=
  match API_KEY rt with
  | Some apiKey =>
      if JS.truthy apiKey then Resolved tt
      else Rejected "API Key not found in environment variables"
  | None => Rejected "API Key not found in environment variables"
  end.

(** [`${prefix}-${index}-${Date.now()}`] *)
Definition generated_id (rt : Runtime) (prefix : string) (index : nat) : string :=
  prefix +:+ "-" +:+ JS.Number_toString (N.of_nat index)
         +:+ "-" +:+ JS.Number_toString (Date_now rt index).

(** [{ ...item, id }] *)
Definition Suggestion_with_id (item : Suggestion.t) (id : string) : Suggestion.t :=
  Suggestion.mk id (Suggestion.originalText item) (Suggestion.suggestedText item)
    (Suggestion.explanation item) (Suggestion.type item) (Suggestion.severity item).

Definition VerificationResult_with_id (item : VerificationResult.t) (id : string)
  : VerificationResult.t :=
  VerificationResult.mk id (VerificationResult.claim item)
    (VerificationResult.status item) (VerificationResult.explanation item)
    (VerificationResult.sources item).

(** The text of a response when it is truthy. *)
Definition response_text (response : GenerateContentResponse.t) : option string :=
  match GenerateContentResponse.text response with
  | Some body => if JS.truthy body then Some body else None
  | None => None
  end.

(** The part of [checkGrammarAndStyle] that follows the [await]. *)
Definition suggestions_of_response (rt : Runtime)
    (response : GenerateContentResponse.t) : Outcome (list Suggestion.t) :=
  match response_text response with
  | Some body =>
      match JSON_parse_suggestions rt body with
      | Some data =>
          Resolved (imap (λ index item,
            Suggestion_with_id item (generated_id rt "suggestion" index)) data)
      | None => Resolved []
      end
  | None => Resolved []
  end.

Definition checkGrammarAndStyle (rt : Runtime) (text : string)
  : Outcome (list Suggestion.t) :=
  _ ← getAiClient rt;
  response ← generateContent rt (GrammarRequest text);
  suggestions_of_response rt response.

(** [groundingChunks.forEach(chunk => { if (chunk.web) sources.push(..) })] *)
Definition collect_sources (groundingChunks : list GroundingChunk.t)
  : list SourceMatch.t :=
  omap (λ chunk,
    web ← GroundingChunk.web chunk;
    Some (SourceMatch.mk (GroundingChunkWeb.uri web)
            (JS.or_else (GroundingChunkWeb.title web) "External Source")
            None)) groundingChunks.

(** [a.findIndex(p)], with [None] for [-1]. *)
Definition findIndex {A} (P : A → Prop) `{∀ x, Decision (P x)} (a : list A)
  : option nat :=
  fst <$> list_find P a.

(** [a.filter((v, i) => p(v, i))], scanning from index [i]. *)
Fixpoint filter_from {A} (p : A → nat → bool) (i : nat) (a : list A) : list A :=
  match a with
  | [] => []
  | v :: a' =>
      if p v i then v :: filter_from p (S i) a' else filter_from p (S i) a'
  end.

(** [sources.filter((v, i, a) => a.findIndex(t => t.url === v.url) === i)] *)
Definition uniqueSources (sources : list SourceMatch.t) : list SourceMatch.t :=
  filter_from
    (λ v i, bool_decide
       (findIndex (λ t, SourceMatch.url t = SourceMatch.url v) sources = Some i))
    0 sources.

(** The part of [verifySources] that follows the [await]. *)
Definition sources_of_response (response : GenerateContentResponse.t)
  : list SourceMatch.t :=
  let sources :=
    match GenerateContentResponse.groundingChunks response with
    | Some groundingChunks => collect_sources groundingChunks
    | None => []
    end in
  uniqueSources sources.

Definition verifySources (rt : Runtime) (text : string)
  : Outcome (list SourceMatch.t) :=
  _ ← getAiClient rt;
  response ← generateContent rt (SourcesRequest (JS.substring text 0 1000));
  Resolved (sources_of_response response).

(** The part of [verifyTextClaims] that follows the [await]. *)
Definition claims_of_response (rt : Runtime)
    (response : GenerateContentResponse.t) : Outcome (list VerificationResult.t) :=
  match response_text response with
  | Some body =>
      match JSON_parse_claims rt body with
      | Some data =>
          Resolved (imap (λ index item,
            VerificationResult_with_id item (generated_id rt "claim" index)) data)
      | None => Resolved []
      end
  | None => Resolved []
  end.

Definition verifyTextClaims (rt : Runtime) (text : string)
  : Outcome (list VerificationResult.t) :=
  _ ← getAiClient rt;
  response ← generateContent rt (ClaimsRequest text);
  claims_of_response rt response.

Definition generateSummary (rt : Runtime) (text : string) : Outcome string :=
  _ ← getAiClient rt;
  response ← generateContent rt (SummaryRequest text);
  Resolved (JS.or_else (GenerateContentResponse.text response)
              "Could not generate summary.").

Definition could_not_analyze : AiDetectionResult.t :=
  AiDetectionResult.mk 0 LikelyHuman "Could not analyze.".

(** The part of [detectAIContent] that follows the [await]. *)
Definition aiDetection_of_response (rt : Runtime)
    (response : GenerateContentResponse.t) : Outcome AiDetectionResult.t :=
  match response_text response with
  | Some body =>
      match JSON_parse_aiDetection rt body with
      | Some result => Resolved result
      | None => Resolved could_not_analyze
      end
  | None => Resolved could_not_analyze
  end.

Definition detectAIContent (rt : Runtime) (text : string)
  : Outcome AiDetectionResult.t :=
  _ ← getAiClient rt;
  response ← generateContent rt (AiDetectionRequest (JS.substring text 0 2000));
  aiDetection_of_response rt response.

Definition extractTextFromFile (rt : Runtime) (fileBase64 mimeType : string)
  : Outcome string :=
  _ ← getAiClient rt;
  response ← generateContent rt (TranscriptionRequest fileBase64 mimeType);
  Resolved (JS.or_else (GenerateContentResponse.text response) "").

(** ** App.tsx: the state of the component *)

Definition DEFAULT_TEXT : string :=
"Research Methodology
The study utilize a qualitative approach to understands the user behavior. We interviewed 20 particiapnts from diverse backgrounds. The results shows that 80% of users prefer simple interfaces over complex ones. This finding aligns with Smith (2019) who argued that cognitive load affect decision making.

However, the sample size were small which limits the generalizability of the findings. Future research should expands the scope to include more demographics. 

AI technology are rapidly evolving. It is imperative that developers considers ethical implications.".

(** The five [useState] cells of [App]. *)
Record Session := {
  doc : DocumentState.t;
  selectedText : string;
  activeTab : AnalysisType;
  analysis : AnalysisState.t;
  isUploading : bool
}.

Definition initialAnalysis : AnalysisState.t :=
  AnalysisState.mk false [] [] [] None None None.

Definition initialSession : Session :=
  {| doc := DocumentState.mk DEFAULT_TEXT "Untitled Document";
     selectedText := "";
     activeTab := GRAMMAR;
     analysis := initialAnalysis;
     isUploading := false |}.

Inductive GatewayCall :=
  | CallCheckGrammarAndStyle (text : string)
  | CallVerifySources (text : string)
  | CallGenerateSummary (text : string)
  | CallDetectAIContent (text : string)
  | CallVerifyTextClaims (text : string)
  | CallExtractTextFromFile (fileBase64 mimeType : string).

(** What a handler does that can be seen from outside: a state setter ran
    (with the session it left), a gateway operation was invoked, the file
    input was cleared. *)
Inductive Event :=
  | StateSet (after : Session)
  | Invoked (call : GatewayCall)
  | FileInputCleared.

Record World := {
  session : Session;
  trace : list Event
}.

(** The handlers: state passing over the world. *)
Definition App (A : Type) : Type := World → A * World.

#[global] Instance App_ret : MRet App := λ A a w, (a, w).
#[global] Instance App_bind : MBind App := λ A B f m w,
  let '(a, w') := m w in f a w'.

Definition getSession : App Session := λ w, (session w, w).

Definition putSession (s : Session) : App unit := λ w,
  (tt, {| session := s; trace := trace w ++ [StateSet s] |}).

Definition emit (e : Event) : App unit := λ w,
  (tt, {| session := session w; trace := trace w ++ [e] |}).

(** The final session of a handler started in session [s], and what it
    did on the way. *)
Definition run (h : App unit) (s : Session) : World :=
  snd (h {| session := s; trace := [] |}).

Definition setDoc (f : DocumentState.t → DocumentState.t) : App unit :=
  s ← getSession;
  putSession {| doc := f (doc s); selectedText := selectedText s;
                activeTab := activeTab s; analysis := analysis s;
                isUploading := isUploading s |}.

Definition setSelectedText (v : string) : App unit :=
  s ← getSession;
  putSession {| doc := doc s; selectedText := v;
                activeTab := activeTab s; analysis := analysis s;
                isUploading := isUploading s |}.

Definition setActiveTab (v : AnalysisType) : App unit :=
  s ← getSession;
  putSession {| doc := doc s; selectedText := selectedText s;
                activeTab := v; analysis := analysis s;
                isUploading := isUploading s |}.

Definition setAnalysis (f : AnalysisState.t → AnalysisState.t) : App unit :=
  s ← getSession;
  putSession {| doc := doc s; selectedText := selectedText s;
                activeTab := activeTab s; analysis := f (analysis s);
                isUploading := isUploading s |}.

Definition setIsUploading (v : bool) : App unit :=
  s ← getSession;
  putSession {| doc := doc s; selectedText := selectedText s;
                activeTab := activeTab s; analysis := analysis s;
                isUploading := v |}.

(** [await op(..)]: the operation is invoked and the handler goes on with
    the outcome it settles with. *)
Definition await {A} (call : GatewayCall) (settled : Outcome A) : App (Outcome A) :=
  emit (Invoked call);; mret settled.

(** [x > y] on numbers. *)
Definition Number_gt (x y : Q) : bool :=
  if Qlt_le_dec y x then true else false.

(** ** App.tsx: the handlers *)

Definition handleTextChange (value : string) : App unit :=
  setDoc (λ prev, DocumentState.mk value (DocumentState.title prev)).

Definition handleSelect (value : string) (selectionStart selectionEnd : nat)
  : App unit :=
  if bool_decide (selectionStart ≠ selectionEnd)
  then setSelectedText (JS.substring value selectionStart selectionEnd)
  else setSelectedText "".

Definition analysis_failed : string :=
  "Failed to complete analysis. Please check your internet connection or API key.".

(** The state updates of [runAnalysis]: at the start, on success, in
    [catch]. *)
Definition scan_started (prev : AnalysisState.t) : AnalysisState.t :=
  AnalysisState.mk true (AnalysisState.suggestions prev)
    (AnalysisState.sources prev) [] (AnalysisState.summary prev)
    (AnalysisState.aiDetection prev) None.

Definition scan_succeeded (suggestions : list Suggestion.t)
    (sources : list SourceMatch.t) (summary : string)
    (aiDetection : AiDetectionResult.t) : AnalysisState.t :=
  AnalysisState.mk false suggestions sources [] (Some summary)
    (Some aiDetection) None.

Definition scan_failed (prev : AnalysisState.t) : AnalysisState.t :=
  AnalysisState.mk false (AnalysisState.suggestions prev)
    (AnalysisState.sources prev) (AnalysisState.claimVerification prev)
    (AnalysisState.summary prev) (AnalysisState.aiDetection prev)
    (Some analysis_failed).

(** The tab shown after a scan that succeeded. *)
Definition route_tab (suggestions : list Suggestion.t)
    (sources : list SourceMatch.t) (aiDetection : AiDetectionResult.t)
  : App unit :=
  if Number_gt (AiDetectionResult.score aiDetection) 80
  then setActiveTab AI_CHECK
  else if bool_decide (0 < length suggestions)
  then setActiveTab GRAMMAR
  else if bool_decide (0 < length sources)
  then setActiveTab SOURCES
  else mret tt.

Definition runAnalysis (rt : Runtime) : App unit :=
  s ← getSession;
  let text := DocumentState.text (doc s) in
  if negb (JS.truthy (JS.trim text)) then mret tt
  else
    setAnalysis scan_started;;
    grammar ← await (CallCheckGrammarAndStyle text) (checkGrammarAndStyle rt text);
    found ← await (CallVerifySources text) (verifySources rt text);
    abstract ← await (CallGenerateSummary text) (generateSummary rt text);
    detection ← await (CallDetectAIContent text) (detectAIContent rt text);
    match Promise_all4 grammar found abstract detection with
    | Resolved (suggestions, sources, summary, aiDetection) =>
        setAnalysis (λ _, scan_succeeded suggestions sources summary aiDetection);;
        route_tab suggestions sources aiDetection
    | Rejected err =>
        setAnalysis scan_failed
    end.

Definition selection_failed : string := "Failed to verify selected text.".

Definition verify_started (prev : AnalysisState.t) : AnalysisState.t :=
  AnalysisState.mk true (AnalysisState.suggestions prev)
    (AnalysisState.sources prev) (AnalysisState.claimVerification prev)
    (AnalysisState.summary prev) (AnalysisState.aiDetection prev) None.

Definition verify_succeeded (claims : list VerificationResult.t)
    (prev : AnalysisState.t) : AnalysisState.t :=
  AnalysisState.mk false (AnalysisState.suggestions prev)
    (AnalysisState.sources prev) claims (AnalysisState.summary prev)
    (AnalysisState.aiDetection prev) (AnalysisState.error prev).

Definition verify_failed (prev : AnalysisState.t) : AnalysisState.t :=
  AnalysisState.mk false (AnalysisState.suggestions prev)
    (AnalysisState.sources prev) (AnalysisState.claimVerification prev)
    (AnalysisState.summary prev) (AnalysisState.aiDetection prev)
    (Some selection_failed).

Definition verifySelection (rt : Runtime) : App unit :=
  s ← getSession;
  let selectedText := selectedText s in
  if negb (JS.truthy selectedText) then mret tt
  else
    setAnalysis verify_started;;
    setActiveTab SOURCES;;
    settled ← await (CallVerifyTextClaims selectedText)
                    (verifyTextClaims rt selectedText);
    match settled with
    | Resolved claims => setAnalysis (verify_succeeded claims)
    | Rejected err => setAnalysis verify_failed
    end.

Definition applySuggestion (suggestion : Suggestion.t) : App unit :=
  setDoc (λ prev,
    let newText := JS.replace (DocumentState.text prev)
                     (Suggestion.originalText suggestion)
                     (Suggestion.suggestedText suggestion) in
    DocumentState.mk newText (DocumentState.title prev));;
  setAnalysis (λ prev,
    AnalysisState.mk (AnalysisState.isAnalyzing prev)
      (filter (λ s, Suggestion.id s ≠ Suggestion.id suggestion)
              (AnalysisState.suggestions prev))
      (AnalysisState.sources prev) (AnalysisState.claimVerification prev)
      (AnalysisState.summary prev) (AnalysisState.aiDetection prev)
      (AnalysisState.error prev)).

(** What [FileReader.readAsDataURL] does with a file: it throws, it loads
    the file and calls [onload] with the data URL, or it never calls
    [onload]. *)
Inductive FileRead :=
  | ReadThrows (reason : string)
  | ReadLoads (result : string)
  | ReadNeverLoads.

Module File.
Record t := mk {
  name : string;
  type : string;
  readAsDataURL : FileRead
}.
End File.

Definition read_failed : string :=
  "Failed to read document text. The format might not be supported.".

Definition upload_failed : string := "Failed to upload file.".

Definition with_error (message : string) (prev : AnalysisState.t)
  : AnalysisState.t :=
  AnalysisState.mk (AnalysisState.isAnalyzing prev)
    (AnalysisState.suggestions prev) (AnalysisState.sources prev)
    (AnalysisState.claimVerification prev) (AnalysisState.summary prev)
    (AnalysisState.aiDetection prev) (Some message).

(** [(e.target?.result as string).split(',')[1]], when it is truthy. *)
Definition base64_of_dataURL (result : string) : option string :=
  match JS.split result "," !! 1 with
  | Some base64String =>
      if JS.truthy base64String then Some base64String else None
  | None => None
  end.

(** The body of [reader.onload]. *)
Definition onload (rt : Runtime) (file : File.t) (result : string) : App unit :=
  match base64_of_dataURL result with
  | Some base64String =>
      settled ← await (CallExtractTextFromFile base64String (File.type file))
                      (extractTextFromFile rt base64String (File.type file));
      match settled with
      | Resolved extractedText =>
          setDoc (λ _, DocumentState.mk extractedText (File.name file));;
          setAnalysis (λ _, initialAnalysis)
      | Rejected err =>
          setAnalysis (with_error read_failed)
      end;;
      setIsUploading false;;
      emit FileInputCleared
  | None => mret tt
  end.

(** [handleFileUpload], given [event.target.files?.[0]]. *)
Definition handleFileUpload (rt : Runtime) (picked : option File.t) : App unit :=
  match picked with
  | None => mret tt
  | Some file =>
      setIsUploading true;;
      match File.readAsDataURL file with
      | ReadLoads result => onload rt file result
      | ReadNeverLoads => mret tt
      | ReadThrows err =>
          setIsUploading false;;
          setAnalysis (with_error upload_failed)
      end
  end.

(** ** What the specification calls literal replacement *)

(** The first occurrence of [originalText] in [text] replaced by
    [suggestedText] taken as it is; [text] itself when [originalText] does
    not occur in it. *)
Definition replaceFirstLiteral (text originalText suggestedText : string) : string :=
  match JS.indexOf text originalText with
  | None => text
  | Some position =>
      let tailPos := position + String.length originalText in
      String.substring 0 position text
        +:+ suggestedText
        +:+ String.substring tailPos (String.length text - tailPos) text
  end.

(** [originalText] occurs in [text] at [position]. *)
Definition occurs_at (position : nat) (originalText text : string) : Prop :=
  String.substring position (String.length originalText) text = originalText.

(** No dollar sign in a replacement text. *)
Fixpoint dollar_free (s : string) : bool :=
  match s with
  | "" => true
  | String c s' => negb (Ascii.eqb c "$") && dollar_free s'
  end.

(** Deduplication by url as the specification words it: the sources in the
    order they come, each kept unless its url was seen before. *)
Fixpoint first_seen (seen : gset string) (sources : list SourceMatch.t)
  : list SourceMatch.t :=
  match sources with
  | [] => []
  | v :: rest =>
      if decide (SourceMatch.url v ∈ seen) then first_seen seen rest
      else v :: first_seen ({[SourceMatch.url v]} ∪ seen) rest
  end.

(** ** Sample runtimes and sessions *)

(** A double quote, for the bodies of sample responses. *)
Definition dq : string := String (ascii_of_nat 34) "".

Definition sample_suggestions : list Suggestion.t :=
  [ Suggestion.mk "" "utilize a qualitative" "utilizes a qualitative"
      "Subject-verb agreement." Grammar Major;
    Suggestion.mk "" "particiapnts" "participants"
      "Misspelled word." Spelling Minor ].

Definition sample_grammar_body : string :=
  "[{" +:+ dq +:+ "originalText" +:+ dq +:+ ":" +:+ dq +:+ "utilize a qualitative"
       +:+ dq +:+ ", ...}, {" +:+ dq +:+ "originalText" +:+ dq +:+ ":" +:+ dq
       +:+ "particiapnts" +:+ dq +:+ ", ...}]".

Definition sample_detection : AiDetectionResult.t :=
  AiDetectionResult.mk 85 LikelyAIGenerated "Uniform sentence structure.".

Definition sample_detection_body : string :=
  "{" +:+ dq +:+ "score" +:+ dq +:+ ": 85, ...}".

Definition sample_chunks : list GroundingChunk.t :=
  [ GroundingChunk.mk (Some (GroundingChunkWeb.mk "https://a.example/x" (Some "First")));
    GroundingChunk.mk None;
    GroundingChunk.mk (Some (GroundingChunkWeb.mk "https://b.example/y" None));
    GroundingChunk.mk (Some (GroundingChunkWeb.mk "https://a.example/x" (Some "Second"))) ].

(** A service that answers every request, with a decoder that knows the
    two sample bodies and rejects every other text. *)
Definition sample_runtime : Runtime :=
  {| API_KEY := Some "key";
     generateContent := λ request,
       Resolved match request with
       | GrammarRequest _ =>
           GenerateContentResponse.mk (Some sample_grammar_body) None
       | SourcesRequest _ =>
           GenerateContentResponse.mk (Some "Found two sources.") (Some sample_chunks)
       | ClaimsRequest _ =>
           GenerateContentResponse.mk (Some "I could not verify this.") None
       | SummaryRequest _ =>
           GenerateContentResponse.mk (Some "A study of user behavior.") None
       | AiDetectionRequest _ =>
           GenerateContentResponse.mk (Some sample_detection_body) None
       | TranscriptionRequest _ _ =>
           GenerateContentResponse.mk (Some "Transcribed text.") None
       end;
     JSON_parse_suggestions := λ body,
       if String.eqb body sample_grammar_body then Some sample_suggestions else None;
     JSON_parse_claims := λ body, None;
     JSON_parse_aiDetection := λ body,
       if String.eqb body sample_detection_body then Some sample_detection else None;
     Date_now := λ _, 1700000000000%N |}.

(** The same service with the summary request failing in transport. *)
Definition flaky_runtime : Runtime :=
  {| API_KEY := API_KEY sample_runtime;
     generateContent := λ request,
       match request with
       | SummaryRequest _ => Rejected "503"
       | _ => generateContent sample_runtime request
       end;
     JSON_parse_suggestions := JSON_parse_suggestions sample_runtime;
     JSON_parse_claims := JSON_parse_claims sample_runtime;
     JSON_parse_aiDetection := JSON_parse_aiDetection sample_runtime;
     Date_now := Date_now sample_runtime |}.

(** A service that answers every request with a page of markup. *)
Definition garbled_runtime : Runtime :=
  {| API_KEY := API_KEY sample_runtime;
     generateContent := λ request,
       Resolved (GenerateContentResponse.mk (Some "<html>Bad gateway</html>") None);
     JSON_parse_suggestions := JSON_parse_suggestions sample_runtime;
     JSON_parse_claims := JSON_parse_claims sample_runtime;
     JSON_parse_aiDetection := JSON_parse_aiDetection sample_runtime;
     Date_now := Date_now sample_runtime |}.

(** No credential configured. *)
Definition keyless_runtime : Runtime :=
  {| API_KEY := None;
     generateContent := generateContent sample_runtime;
     JSON_parse_suggestions := JSON_parse_suggestions sample_runtime;
     JSON_parse_claims := JSON_parse_claims sample_runtime;
     JSON_parse_aiDetection := JSON_parse_aiDetection sample_runtime;
     Date_now := Date_now sample_runtime |}.

(** A session with results of an earlier scan and a selection. *)
Definition busy_session : Session :=
  {| doc := DocumentState.mk DEFAULT_TEXT "Untitled Document";
     selectedText := "Smith (2019)";
     activeTab := SUMMARY;
     analysis :=
       AnalysisState.mk false
         [ Suggestion.mk "suggestion-0-1" "utilize a qualitative"
             "utilizes a qualitative" "Subject-verb agreement." Grammar Major;
           Suggestion.mk "suggestion-1-1" "particiapnts" "participants"
             "Misspelled word." Spelling Minor ]
         [ SourceMatch.mk "https://a.example/x" "First" None ]
         [ VerificationResult.mk "claim-0-1" "80% of users prefer simple interfaces"
             Questionable "No source gives this figure." [] ]
         (Some "An earlier summary.")
         (Some (AiDetectionResult.mk 12 LikelyHuman "Irregular phrasing."))
         None;
     isUploading := false |}.

Definition blank_session : Session :=
  {| doc := DocumentState.mk "  
	 " "Untitled Document";
     selectedText := "";
     activeTab := SOURCES;
     analysis := analysis busy_session;
     isUploading := false |}.

Definition sample_file : File.t :=
  File.mk "notes.txt" "text/plain" (ReadLoads "data:text/plain;base64,SGVsbG8=").

(** A document with display mathematics and the suggestion to correct it. *)
Definition formula_session : Session :=
  {| doc := DocumentState.mk "Recall $$E = mc2$$ here." "Notes";
     selectedText := "";
     activeTab := GRAMMAR;
     analysis :=
       AnalysisState.mk false
         [ Suggestion.mk "suggestion-0-1" "$$E = mc2$$" "$$E = mc^2$$"
             "The exponent is missing." Clarity Major ]
         [] [] None None None;
     isUploading := false |}.

(** ** App.tsx: what is computed while rendering *)

(** [s.split(/\s+/)]: the pieces of [s] between the maximal runs of
    white space.  [inRun] says that the code unit before [s] belongs to a
    run that has been split on already. *)
Fixpoint split_whitespace (inRun : bool) (s : string) : list string :=
  match s with
  | "" => [""]
  | String c s' =>
      if JS.isWhiteSpace c then
        if inRun then split_whitespace true s'
        else "" :: split_whitespace true s'
      else
        match split_whitespace false s' with
        | p :: ps => String c p :: ps
        | [] => [String c ""]
        end
  end.

(** [doc.text.trim().split(/\s+/).filter(w => w.length > 0).length] *)
Definition wordCount (text : string) : nat :=
  length (filter (λ w, 0 < String.length w)
            (split_whitespace false (JS.trim text))).

(** The [disabled] attribute of the Full Scan button. *)
Definition fullScanDisabled (s : Session) : bool :=
  AnalysisState.isAnalyzing (analysis s)
  || negb (JS.truthy (JS.trim (DocumentState.text (doc s))))
  || isUploading s.

(** The Verify Selection button is rendered when [selectedText] is truthy;
    this is its [disabled] attribute. *)
Definition verifySelectionShown (s : Session) : bool := JS.truthy (selectedText s).
Definition verifySelectionDisabled (s : Session) : bool :=
  AnalysisState.isAnalyzing (analysis s).

(** The [disabled] attribute of the Upload Doc button. *)
Definition uploadDisabled (s : Session) : bool :=
  isUploading s || AnalysisState.isAnalyzing (analysis s).

(** ** components/AnalysisSidebar.tsx *)

(** What [renderContent] returns, without the markup: which panel, and
    the data it shows. *)
Inductive View :=
  | Spinner
  | ErrorBox (error : string)
  | NoIssues
  | SuggestionCards (suggestions : list Suggestion.t)
  | AiPrompt
  | AiPanel (aiDetection : AiDetectionResult.t) (scoreColor barColor : string)
  | ClaimCards (claimVerification : list VerificationResult.t)
  | NoSources
  | SourceCards (sources : list SourceMatch.t)
  | SummaryText (summary : string)
  | SummaryPrompt
  | Nothing.

(** [x < y] on numbers. *)
Definition Number_lt (x y : Q) : bool :=
  if Qlt_le_dec x y then true else false.

Definition isHighAI (aiDetection : AiDetectionResult.t) : bool :=
  Number_gt (AiDetectionResult.score aiDetection) 70.

Definition isLowAI (aiDetection : AiDetectionResult.t) : bool :=
  Number_lt (AiDetectionResult.score aiDetection) 30.

Definition scoreColor (aiDetection : AiDetectionResult.t) : string :=
  if isHighAI aiDetection then "text-red-600"
  else if isLowAI aiDetection then "text-green-600"
  else "text-orange-600".

Definition barColor (aiDetection : AiDetectionResult.t) : string :=
  if isHighAI aiDetection then "bg-red-500"
  else if isLowAI aiDetection then "bg-green-500"
  else "bg-orange-500".

(** The [switch (activeTab)] of [renderContent]. *)
Definition renderTab (analysisState : AnalysisState.t) (activeTab : AnalysisType)
  : View :=
  match activeTab with
  | GRAMMAR =>
      if bool_decide (length (AnalysisState.suggestions analysisState) = 0)
      then NoIssues
      else SuggestionCards (AnalysisState.suggestions analysisState)
  | AI_CHECK =>
      match AnalysisState.aiDetection analysisState with
      | None => AiPrompt
      | Some aiDetection =>
          AiPanel aiDetection (scoreColor aiDetection) (barColor aiDetection)
      end
  | SOURCES =>
      if bool_decide (0 < length (AnalysisState.claimVerification analysisState))
      then ClaimCards (AnalysisState.claimVerification analysisState)
      else if bool_decide (length (AnalysisState.sources analysisState) = 0)
      then NoSources
      else SourceCards (AnalysisState.sources analysisState)
  | SUMMARY =>
      match AnalysisState.summary analysisState with
      | Some summary =>
          if JS.truthy summary then SummaryText summary else SummaryPrompt
      | None => SummaryPrompt
      end
  | CLARITY => Nothing
  end.

Definition renderContent (analysisState : AnalysisState.t) (activeTab : AnalysisType)
  : View :=
  if AnalysisState.isAnalyzing analysisState then Spinner
  else
    match AnalysisState.error analysisState with
    | Some error =>
        if JS.truthy error then ErrorBox error
        else renderTab analysisState activeTab
    | None => renderTab analysisState activeTab
    end.

(** The view of a session: [<AnalysisSidebar analysisState={analysis}
    activeTab={activeTab} .. />]. *)
Definition sidebar (s : Session) : View := renderContent (analysis s) (activeTab s).

(** ** The interface as a whole *)

(** What the user can do: edit the text, move the selection in it, press
    Full Scan or Verify Selection, accept the fix of a card, pick a file
    (or none) in the file dialog, press a tab of the sidebar. *)
Inductive Action :=
  | Edit (value : string)
  | SelectRange (selectionStart selectionEnd : nat)
  | ClickFullScan
  | ClickVerifySelection
  | AcceptFix (suggestion : Suggestion.t)
  | PickFile (picked : option File.t)
  | ClickTab (tab : AnalysisType).

(** The handler the markup binds to each action.  The text area is
    controlled ([value={doc.text}]), so the value [handleSelect] reads is
    the text of the document. *)
Definition handle (rt : Runtime) (a : Action) : App unit :=
  match a with
  | Edit value => handleTextChange value
  | SelectRange selectionStart selectionEnd =>
      s ← getSession;
      handleSelect (DocumentState.text (doc s)) selectionStart selectionEnd
  | ClickFullScan => runAnalysis rt
  | ClickVerifySelection => verifySelection rt
  | AcceptFix suggestion => applySuggestion suggestion
  | PickFile picked => handleFileUpload rt picked
  | ClickTab tab => setActiveTab tab
  end.

(** When the markup lets an action through: the buttons that are neither
    disabled nor left out, the four tabs of [renderTabs], the cards shown. *)
Definition enabled (s : Session) (a : Action) : Prop :=
  match a with
  | Edit _ | SelectRange _ _ => True
  | ClickFullScan => fullScanDisabled s = false
  | ClickVerifySelection =>
      verifySelectionShown s = true ∧ verifySelectionDisabled s = false
  | AcceptFix suggestion =>
      ∃ suggestions, sidebar s = SuggestionCards suggestions ∧ suggestion ∈ suggestions
  | PickFile _ => uploadDisabled s = false
  | ClickTab tab => tab ≠ CLARITY
  end.

(** One action that the interface lets through, its handler run to its
    end; the service may answer differently every time.  This is the
    schedule in which nothing else happens before a handler has ended;
    [async_step] below is the event loop without that restriction, where
    a handler returns at each await and other actions come in between. *)
Inductive step (s : Session) : Session → Prop :=
  | step_action (rt : Runtime) (a : Action) :
      enabled s a → step s (session (run (handle rt a) s)).

(** The sessions the interface can be in between two actions when every
    handler has ended before the next action. *)
Definition reachable (s : Session) : Prop := rtc step initialSession s.

(** ** What the properties below are stated with *)

(** Every code unit is white space. *)
Fixpoint all_whitespace (s : string) : bool :=
  match s with
  | "" => true
  | String c s' => JS.isWhiteSpace c && all_whitespace s'
  end.

(** The number of maximal runs of code units that are not white space;
    [inWord] says that the code unit before [s] is not white space. *)
Fixpoint count_words (inWord : bool) (s : string) : nat :=
  match s with
  | "" => 0
  | String c s' =>
      if JS.isWhiteSpace c then count_words false s'
      else (if inWord then 0 else 1) + count_words true s'
  end.

(** No [$$], [$&], [$`] or [$'] in a replacement text. *)
Fixpoint pattern_free (s : string) : bool :=
  match s with
  | "" => true
  | String c rest =>
      match rest with
      | String d _ =>
          negb (Ascii.eqb c "$" &&
                (Ascii.eqb d "$" || Ascii.eqb d "&" || Ascii.eqb d "`" || Ascii.eqb d "'"))
          && pattern_free rest
      | "" => true
      end
  end.

(** No hyphen in a text. *)
Fixpoint hyphen_free (s : string) : bool :=
  match s with
  | "" => true
  | String c s' => negb (Ascii.eqb c "-") && hyphen_free s'
  end.

(** The reason [getAiClient] rejects with. *)
Definition no_key_message : string := "API Key not found in environment variables".

(** The tab [route_tab] leaves, given the tab of before. *)
Definition routed_tab (suggestions : list Suggestion.t)
    (sources : list SourceMatch.t) (aiDetection : AiDetectionResult.t)
    (current : AnalysisType) : AnalysisType :=
  if Number_gt (AiDetectionResult.score aiDetection) 80 then AI_CHECK
  else if bool_decide (0 < length suggestions) then GRAMMAR
  else if bool_decide (0 < length sources) then SOURCES
  else current.

(** The four operations of a full scan, settled. *)
Definition scan_outcome (rt : Runtime) (text : string)
  : Outcome (list Suggestion.t * list SourceMatch.t * string * AiDetectionResult.t) :=
  Promise_all4 (checkGrammarAndStyle rt text) (verifySources rt text)
    (generateSummary rt text) (detectAIContent rt text).

(** The actions whose handler may start a request to the service. *)
Definition starts_request (a : Action) : bool :=
  match a with
  | ClickFullScan | ClickVerifySelection | PickFile _ => true
  | _ => false
  end.

(** What holds of a session between two actions. *)
Record settled (s : Session) : Prop := {
  settled_tab : activeTab s ≠ CLARITY;
  settled_idle : AnalysisState.isAnalyzing (analysis s) = false;
  settled_suggestions :
    NoDup (Suggestion.id <$> AnalysisState.suggestions (analysis s));
  settled_sources :
    NoDup (SourceMatch.url <$> AnalysisState.sources (analysis s));
  settled_titles :
    Forall (λ v, SourceMatch.title v ≠ "") (AnalysisState.sources (analysis s));
  settled_claims :
    NoDup (VerificationResult.id <$> AnalysisState.claimVerification (analysis s));
  settled_summary :
    AnalysisState.summary (analysis s) ≠ Some "";
  settled_error :
    AnalysisState.error (analysis s)
      ∈ [None; Some analysis_failed; Some selection_failed;
         Some read_failed; Some upload_failed]
}.

(** The gateway calls of a trace, in order. *)
Definition calls (events : list Event) : list GatewayCall :=
  omap (λ e, match e with Invoked call => Some call | _ => None end) events.

(** A service that answers every request with a response without text. *)
Definition silent_runtime : Runtime :=
  {| API_KEY := API_KEY sample_runtime;
     generateContent := λ request, Resolved (GenerateContentResponse.mk None None);
     JSON_parse_suggestions := JSON_parse_suggestions sample_runtime;
     JSON_parse_claims := JSON_parse_claims sample_runtime;
     JSON_parse_aiDetection := JSON_parse_aiDetection sample_runtime;
     Date_now := Date_now sample_runtime |}.

(** A file that loads with nothing after the comma of its data URL. *)
Definition empty_file : File.t :=
  File.mk "empty.txt" "text/plain" (ReadLoads "data:text/plain;base64,").

(** A file that the reader refuses. *)
Definition unreadable_file : File.t :=
  File.mk "locked.pdf" "application/pdf" (ReadThrows "NotReadableError").

(** ** Responses of any shape *)

(** The operations above are written at the types the program declares:
    they describe the service as long as it honours the [responseSchema]
    of the request.  The program itself checks nothing: the value of
    [JSON.parse] is used as it comes.  This section gives the three
    operations that parse their response on JSON values of any shape. *)

Set Warnings "-register-all".

(** A value that [JSON.parse] can return. *)
Inductive Json :=
  | JNull
  | JBool (b : bool)
  | JNumber (n : Q)
  | JString (s : string)
  | JArray (items : list Json)
  | JObject (fields : list (string * Json)).

(** [o[key]] for an object given by its own properties. *)
Fixpoint property (fields : list (string * Json)) (key : string) : option Json :=
  match fields with
  | [] => None
  | (k, v) :: rest => if String.eqb k key then Some v else property rest key
  end.

(** [o[key] = v]: the value of the property is replaced where the
    property stands, or the property is added after the others. *)
Fixpoint set_property (fields : list (string * Json)) (key : string) (v : Json)
  : list (string * Json) :=
  match fields with
  | [] => [(key, v)]
  | (k, x) :: rest =>
      if String.eqb k key then (k, v) :: rest
      else (k, x) :: set_property rest key v
  end.

Fixpoint code_units (s : string) : list Json :=
  match s with
  | "" => []
  | String c s' => JString (String c "") :: code_units s'
  end.

(** The own enumerable properties that [{ ...item }] copies: the fields
    of an object, the elements of an array and the code units of a
    string under their indices, nothing for [null], a number or a
    boolean. *)
Definition own_properties (item : Json) : list (string * Json) :=
  match item with
  | JObject fields => fields
  | JArray items => imap (λ i x, (JS.Number_toString (N.of_nat i), x)) items
  | JString s => imap (λ i x, (JS.Number_toString (N.of_nat i), x)) (code_units s)
  | JNull | JBool _ | JNumber _ => []
  end.

(** [{ ...item, id }] *)
Definition with_id (item : Json) (id : string) : Json :=
  JObject (set_property (own_properties item) "id" (JString id)).

(** [{ score: 0, label: "Likely Human", explanation: "Could not analyze." }] *)
Definition could_not_analyze_json : Json :=
  JObject [ ("score", JNumber 0); ("label", JString "Likely Human");
            ("explanation", JString "Could not analyze.") ].

Module Untyped.

(** [data.map((item, index) => ({ ...item, id }))] inside [try]: the value
    of [JSON.parse] has a [map] to call only when it is an array; on
    anything else the call throws, and [catch] returns the empty list, as
    it does when [JSON.parse] throws ([None]). *)
Definition items_with_ids (rt : Runtime) (prefix : string) (parsed : option Json)
  : list Json :=
  match parsed with
  | Some (JArray data) =>
      imap (λ index item, with_id item (generated_id rt prefix index)) data
  | Some _ => []
  | None => []
  end.

Definition suggestions_of_response (rt : Runtime) (JSON_parse : string → option Json)
    (response : GenerateContentResponse.t) : Outcome (list Json) :=
  match response_text response with
  | Some body => Resolved (items_with_ids rt "suggestion" (JSON_parse body))
  | None => Resolved []
  end.

Definition checkGrammarAndStyle (rt : Runtime) (JSON_parse : string → option Json)
    (text : string) : Outcome (list Json) :=
  _ ← getAiClient rt;
  response ← generateContent rt (GrammarRequest text);
  suggestions_of_response rt JSON_parse response.

Definition claims_of_response (rt : Runtime) (JSON_parse : string → option Json)
    (response : GenerateContentResponse.t) : Outcome (list Json) :=
  match response_text response with
  | Some body => Resolved (items_with_ids rt "claim" (JSON_parse body))
  | None => Resolved []
  end.

Definition verifyTextClaims (rt : Runtime) (JSON_parse : string → option Json)
    (text : string) : Outcome (list Json) :=
  _ ← getAiClient rt;
  response ← generateContent rt (ClaimsRequest text);
  claims_of_response rt JSON_parse response.

(** [return JSON.parse(response.text) as AiDetectionResult]: the parsed
    value is returned as it is; the fallback is returned when there is
    no text or [JSON.parse] throws. *)
Definition aiDetection_of_response (JSON_parse : string → option Json)
    (response : GenerateContentResponse.t) : Outcome Json :=
  match response_text response with
  | Some body =>
      match JSON_parse body with
      | Some parsed => Resolved parsed
      | None => Resolved could_not_analyze_json
      end
  | None => Resolved could_not_analyze_json
  end.

Definition detectAIContent (rt : Runtime) (JSON_parse : string → option Json)
    (text : string) : Outcome Json :=
  _ ← getAiClient rt;
  response ← generateContent rt (AiDetectionRequest (JS.substring text 0 2000));
  aiDetection_of_response JSON_parse response.

End Untyped.

(** The values of the three schemas, as JSON. *)
Definition label_text (label : AiLabel) : string :=
  match label with
  | LikelyHuman => "Likely Human"
  | MixedSignals => "Mixed Signals"
  | LikelyAIGenerated => "Likely AI-Generated"
  end.

Definition type_text (type : SuggestionType) : string :=
  match type with
  | Grammar => "Grammar" | Spelling => "Spelling"
  | Style => "Style" | Clarity => "Clarity"
  end.

Definition severity_text (severity : Severity) : string :=
  match severity with
  | Critical => "Critical" | Major => "Major" | Minor => "Minor"
  end.

Definition Json_of_AiDetectionResult (r : AiDetectionResult.t) : Json :=
  JObject [ ("score", JNumber (AiDetectionResult.score r));
            ("label", JString (label_text (AiDetectionResult.label r)));
            ("explanation", JString (AiDetectionResult.explanation r)) ].

(** An item of the grammar schema, which has no id. *)
Definition Json_of_suggestion_item (s : Suggestion.t) : Json :=
  JObject [ ("originalText", JString (Suggestion.originalText s));
            ("suggestedText", JString (Suggestion.suggestedText s));
            ("explanation", JString (Suggestion.explanation s));
            ("type", JString (type_text (Suggestion.type s)));
            ("severity", JString (severity_text (Suggestion.severity s))) ].

(** A suggestion as the program holds it. *)
Definition Json_of_Suggestion (s : Suggestion.t) : Json :=
  JObject [ ("originalText", JString (Suggestion.originalText s));
            ("suggestedText", JString (Suggestion.suggestedText s));
            ("explanation", JString (Suggestion.explanation s));
            ("type", JString (type_text (Suggestion.type s)));
            ("severity", JString (severity_text (Suggestion.severity s)));
            ("id", JString (Suggestion.id s)) ].

(** A value of the schema of [detectAIContent]: an object with a number
    under [score], one of the three labels under [label] and a string
    under [explanation]. *)
Definition is_detection_record (v : Json) : bool :=
  match v with
  | JObject fields =>
      match property fields "score", property fields "label",
            property fields "explanation" with
      | Some (JNumber _), Some (JString label), Some (JString _) =>
          String.eqb label "Likely Human" || String.eqb label "Mixed Signals"
          || String.eqb label "Likely AI-Generated"
      | _, _, _ => false
      end
  | _ => false
  end.

(** A value of the schema of [checkGrammarAndStyle]: an array of objects
    with strings under the five required names. *)
Definition is_suggestion_item (v : Json) : bool :=
  match v with
  | JObject fields =>
      match property fields "originalText", property fields "suggestedText",
            property fields "explanation", property fields "type",
            property fields "severity" with
      | Some (JString _), Some (JString _), Some (JString _),
        Some (JString type), Some (JString severity) =>
          (String.eqb type "Grammar" || String.eqb type "Spelling"
           || String.eqb type "Style" || String.eqb type "Clarity")
          && (String.eqb severity "Critical" || String.eqb severity "Major"
              || String.eqb severity "Minor")
      | _, _, _, _, _ => false
      end
  | _ => false
  end.

Definition is_suggestion_array (v : Json) : bool :=
  match v with
  | JArray items => forallb is_suggestion_item items
  | _ => false
  end.

(** [JSON.parse] on the bodies of the sample responses of this section:
    three texts that are JSON without being of a schema, and a page of
    markup, which [JSON.parse] rejects.  It is applied to no other
    text. *)
Definition sample_JSON_parse (body : string) : option Json :=
  if String.eqb body "null" then Some JNull
  else if String.eqb body "[1]" then Some (JArray [JNumber 1])
  else if String.eqb body "{}" then Some (JObject [])
  else None.

(** A service that answers the grammar request with [[1]], the claims
    request with [{}] and the detection request with [null]. *)
Definition offschema_runtime : Runtime :=
  {| API_KEY := API_KEY sample_runtime;
     generateContent := λ request,
       match request with
       | GrammarRequest _ => Resolved (GenerateContentResponse.mk (Some "[1]") None)
       | ClaimsRequest _ => Resolved (GenerateContentResponse.mk (Some "{}") None)
       | AiDetectionRequest _ =>
           Resolved (GenerateContentResponse.mk (Some "null") None)
       | _ => generateContent sample_runtime request
       end;
     JSON_parse_suggestions := JSON_parse_suggestions sample_runtime;
     JSON_parse_claims := JSON_parse_claims sample_runtime;
     JSON_parse_aiDetection := JSON_parse_aiDetection sample_runtime;
     Date_now := Date_now sample_runtime |}.

(** ** The sources and the chunks they come from *)

(** [{ url: chunk.web.uri, title: chunk.web.title || "External Source" }] *)
Definition source_of_web (web : GroundingChunkWeb.t) : SourceMatch.t :=
  SourceMatch.mk (GroundingChunkWeb.uri web)
    (JS.or_else (GroundingChunkWeb.title web) "External Source") None.

(** Chunk [i] has the web part [web], and no chunk before it has a web
    part with the same uri. *)
Definition first_web_chunk (groundingChunks : list GroundingChunk.t) (i : nat)
    (web : GroundingChunkWeb.t) : Prop :=
  groundingChunks !! i = Some (GroundingChunk.mk (Some web))
  ∧ ∀ j web', j < i →
      groundingChunks !! j = Some (GroundingChunk.mk (Some web')) →
      GroundingChunkWeb.uri web' ≠ GroundingChunkWeb.uri web.

(** ** The handlers between their awaits *)

(** What [runAnalysis] does once [Promise.all] has settled: the body of
    [try] after the [await], and [catch].  The detection may be [null]
    (the value of [JSON.parse] for the body [null]); reading
    [aiDetection.score] then throws, after the results were stored, and
    [catch] runs. *)
Definition scan_settled
    (settled : Outcome (list Suggestion.t * list SourceMatch.t * string
                        * option AiDetectionResult.t)) : App unit :=
  match settled with
  | Resolved (suggestions, sources, summary, aiDetection) =>
      setAnalysis (λ _,
        AnalysisState.mk false suggestions sources [] (Some summary) aiDetection None);;
      match aiDetection with
      | Some detection => route_tab suggestions sources detection
      | None => setAnalysis scan_failed
      end
  | Rejected err => setAnalysis scan_failed
  end.

(** A settled scan whose detection is a record. *)
Definition with_record {A B C D} (settled : Outcome (A * B * C * D))
  : Outcome (A * B * C * option D) :=
  match settled with
  | Resolved (a, b, c, d) => Resolved (a, b, c, Some d)
  | Rejected err => Rejected err
  end.

(** What [verifySelection] does once the verification has settled. *)
Definition verification_settled (settled : Outcome (list VerificationResult.t))
  : App unit :=
  match settled with
  | Resolved claims => setAnalysis (verify_succeeded claims)
  | Rejected err => setAnalysis verify_failed
  end.

(** What [reader.onload] does once the transcription has settled:
    [try], [catch] and [finally]. *)
Definition transcription_settled (file : File.t) (settled : Outcome string)
  : App unit :=
  match settled with
  | Resolved extractedText =>
      setDoc (λ _, DocumentState.mk extractedText (File.name file));;
      setAnalysis (λ _, initialAnalysis)
  | Rejected err => setAnalysis (with_error read_failed)
  end;;
  setIsUploading false;;
  emit FileInputCleared.

(** What a handler has left to do when it returns to the event loop: a
    scan or a verification waits for its responses, the reader has a
    file to load and [onload] to call with the result, [onload] waits
    for the transcription. *)
Inductive Pending :=
  | ScanPending
      (settled : Outcome (list Suggestion.t * list SourceMatch.t * string
                          * option AiDetectionResult.t))
  | VerificationPending (settled : Outcome (list VerificationResult.t))
  | ReadPending (file : File.t) (result : string)
  | TranscriptionPending (file : File.t) (settled : Outcome string).

(** A handler up to the point where it returns to the event loop. *)
Definition begin (rt : Runtime) (a : Action) : App (option Pending) :=
  match a with
  | ClickFullScan =>
      s ← getSession;
      let text := DocumentState.text (doc s) in
      if negb (JS.truthy (JS.trim text)) then mret None
      else
        setAnalysis scan_started;;
        emit (Invoked (CallCheckGrammarAndStyle text));;
        emit (Invoked (CallVerifySources text));;
        emit (Invoked (CallGenerateSummary text));;
        emit (Invoked (CallDetectAIContent text));;
        mret (Some (ScanPending (with_record (scan_outcome rt text))))
  | ClickVerifySelection =>
      s ← getSession;
      let selectedText := selectedText s in
      if negb (JS.truthy selectedText) then mret None
      else
        setAnalysis verify_started;;
        setActiveTab SOURCES;;
        emit (Invoked (CallVerifyTextClaims selectedText));;
        mret (Some (VerificationPending (verifyTextClaims rt selectedText)))
  | PickFile picked =>
      match picked with
      | None => mret None
      | Some file =>
          setIsUploading true;;
          match File.readAsDataURL file with
          | ReadLoads result => mret (Some (ReadPending file result))
          | ReadNeverLoads => mret None
          | ReadThrows err =>
              setIsUploading false;;
              setAnalysis (with_error upload_failed);;
              mret None
          end
      end
  | Edit _ | SelectRange _ _ | AcceptFix _ | ClickTab _ =>
      handle rt a;; mret None
  end.

(** What runs when the event loop comes back to a pending handler. *)
Definition resume (rt : Runtime) (p : Pending) : App (option Pending) :=
  match p with
  | ScanPending settled => scan_settled settled;; mret None
  | VerificationPending settled => verification_settled settled;; mret None
  | ReadPending file result =>
      match base64_of_dataURL result with
      | Some base64String =>
          emit (Invoked (CallExtractTextFromFile base64String (File.type file)));;
          mret (Some (TranscriptionPending file
                        (extractTextFromFile rt base64String (File.type file))))
      | None => mret None
      end
  | TranscriptionPending file settled =>
      transcription_settled file settled;; mret None
  end.

(** The session together with the handlers that have not ended. *)
Record Config := {
  current : Session;
  pending : list Pending
}.

(** The configuration after a piece of a handler has run, [others] being
    the handlers that were pending beside it. *)
Definition after (piece : App (option Pending)) (s : Session)
    (others : list Pending) : Config :=
  let '(p, w) := piece {| session := s; trace := [] |} in
  {| current := session w; pending := others ++ option_list p |}.

(** One turn of the event loop: an action that the interface lets
    through runs its handler up to its first await, or one of the
    pending handlers, whichever, goes on up to its next one. *)
Inductive async_step (c : Config) : Config → Prop :=
  | async_action (rt : Runtime) (a : Action) :
      enabled (current c) a →
      async_step c (after (begin rt a) (current c) (pending c))
  | async_settle (rt : Runtime) (before : list Pending) (p : Pending)
      (behind : list Pending) :
      pending c = (before ++ p :: behind)%list →
      async_step c (after (resume rt p) (current c) (before ++ behind)%list).

(** An upload is in flight. *)
Definition upload_in_flight (p : Pending) : bool :=
  match p with
  | ReadPending _ _ | TranscriptionPending _ _ => true
  | ScanPending _ | VerificationPending _ => false
  end.

(** * Properties *)

(** ** Strings *)

Lemma truthy_spec (s : string) : JS.truthy s = true ↔ s ≠ "".
Proof.
  unfold JS.truthy. rewrite negb_true_iff. apply String.eqb_neq.
Qed.

Lemma truthy_empty : JS.truthy "" = false.
Proof. reflexivity. Qed.

Lemma not_truthy_spec (s : string) : JS.truthy s = false ↔ s = "".
Proof.
  unfold JS.truthy. rewrite negb_false_iff. apply String.eqb_eq.
Qed.

(** ** Running a handler *)

Ltac run_handler :=
  unfold run, mbind, mret, App_bind, App_ret,
    setDoc, setAnalysis, setActiveTab, setSelectedText, setIsUploading,
    await, emit, putSession, getSession;
  cbn [snd fst session trace app doc selectedText activeTab analysis isUploading].

Section FullScan.

Variable rt : Runtime.
Variable s : Session.

Let text := DocumentState.text (doc s).

(** The scan of a document that is not blank, as what it does once the
    four operations have settled. *)
Lemma runAnalysis_settled :
  JS.trim text ≠ "" →
  run (runAnalysis rt) s =
    let started :=
      {| doc := doc s; selectedText := selectedText s; activeTab := activeTab s;
         analysis := scan_started (analysis s); isUploading := isUploading s |} in
    let calls :=
      [ StateSet started;
        Invoked (CallCheckGrammarAndStyle text); Invoked (CallVerifySources text);
        Invoked (CallGenerateSummary text); Invoked (CallDetectAIContent text) ] in
    match Promise_all4 (checkGrammarAndStyle rt text) (verifySources rt text)
            (generateSummary rt text) (detectAIContent rt text) with
    | Resolved (suggestions, sources, summary, aiDetection) =>
        let done :=
          {| doc := doc s; selectedText := selectedText s; activeTab := activeTab s;
             analysis := scan_succeeded suggestions sources summary aiDetection;
             isUploading := isUploading s |} in
        snd (route_tab suggestions sources aiDetection
               {| session := done; trace := calls ++ [StateSet done] |})
    | Rejected _ =>
        let failed :=
          {| doc := doc s; selectedText := selectedText s; activeTab := activeTab s;
             analysis := scan_failed (scan_started (analysis s));
             isUploading := isUploading s |} in
        {| session := failed; trace := calls ++ [StateSet failed] |}
    end.
Proof.
  intros Hdoc. apply truthy_spec in Hdoc.
  unfold runAnalysis. run_handler. fold text. rewrite Hdoc. cbn [negb].
  run_handler.
  destruct (Promise_all4 _ _ _ _) as [[[[suggestions sources] summary] aiDetection]|err];
    reflexivity.
Qed.

End FullScan.

Lemma Promise_all4_rejected {A B C D}
    (a : Outcome A) (b : Outcome B) (c : Outcome C) (d : Outcome D) :
  isRejected a ∨ isRejected b ∨ isRejected c ∨ isRejected d →
  ∃ reason, Promise_all4 a b c d = Rejected reason.
Proof.
  destruct a, b, c, d; cbn; intros [?|[?|[?|?]]]; try done; eauto.
Qed.

Lemma Promise_all4_resolved {A B C D}
    (a : Outcome A) (b : Outcome B) (c : Outcome C) (d : Outcome D) x y z u :
  a = Resolved x → b = Resolved y → c = Resolved z → d = Resolved u →
  Promise_all4 a b c d = Resolved (x, y, z, u).
Proof. by intros -> -> -> ->. Qed.

(** C6: a full scan of a document whose text is empty or only white space
    does nothing: no state setter runs (so [isAnalyzing] never becomes
    true and no field of the analysis or of the document changes) and no
    gateway operation is invoked. *)
Theorem runAnalysis_blank_noop (rt : Runtime) (s : Session) :
  JS.trim (DocumentState.text (doc s)) = "" →
  run (runAnalysis rt) s = {| session := s; trace := [] |}.
Proof.
  intros Hblank. unfold runAnalysis. run_handler.
  rewrite Hblank. reflexivity.
Qed.

Lemma runAnalysis_blank_noop_witness :
  JS.trim (DocumentState.text (doc blank_session)) = "" ∧
  run (runAnalysis keyless_runtime) blank_session
    = {| session := blank_session; trace := [] |}.
Proof.
  split; [reflexivity | apply (runAnalysis_blank_noop keyless_runtime blank_session)].
  reflexivity.
Defined.

(** C2: when one of the four operations of a full scan rejects, the scan
    fails as a whole: the suggestions, sources, summary and AI detection
    of before the scan are kept, [isAnalyzing] is false and [error] is
    the generic failure message. *)
Theorem runAnalysis_failure_keeps_results (rt : Runtime) (s : Session) :
  let text := DocumentState.text (doc s) in
  let after := analysis (session (run (runAnalysis rt) s)) in
  JS.trim text ≠ "" →
  isRejected (checkGrammarAndStyle rt text) ∨ isRejected (verifySources rt text)
    ∨ isRejected (generateSummary rt text) ∨ isRejected (detectAIContent rt text) →
  AnalysisState.suggestions after = AnalysisState.suggestions (analysis s)
  ∧ AnalysisState.sources after = AnalysisState.sources (analysis s)
  ∧ AnalysisState.summary after = AnalysisState.summary (analysis s)
  ∧ AnalysisState.aiDetection after = AnalysisState.aiDetection (analysis s)
  ∧ AnalysisState.isAnalyzing after = false
  ∧ AnalysisState.error after = Some analysis_failed.
Proof.
  intros text after Hdoc Hfail. subst after text.
  rewrite runAnalysis_settled by done. cbv zeta.
  destruct (Promise_all4_rejected _ _ _ _ Hfail) as [reason ->].
  by cbn.
Qed.

Lemma runAnalysis_failure_keeps_results_witness :
  let after := analysis (session (run (runAnalysis flaky_runtime) busy_session)) in
  AnalysisState.suggestions after = AnalysisState.suggestions (analysis busy_session)
  ∧ AnalysisState.sources after = AnalysisState.sources (analysis busy_session)
  ∧ AnalysisState.summary after = AnalysisState.summary (analysis busy_session)
  ∧ AnalysisState.aiDetection after = AnalysisState.aiDetection (analysis busy_session)
  ∧ AnalysisState.isAnalyzing after = false
  ∧ AnalysisState.error after = Some analysis_failed.
Proof.
  apply (runAnalysis_failure_keeps_results flaky_runtime busy_session).
  - vm_compute. discriminate.
  - right. right. left. vm_compute. exact I.
Defined.

(** ** The tab after a scan *)

Lemma Number_gt_spec (x y : Q) : Number_gt x y = true ↔ (y < x)%Q.
Proof.
  unfold Number_gt. destruct (Qlt_le_dec y x) as [Hlt|Hle]; split; try done.
  intros Hlt. by apply Qle_not_lt in Hle.
Qed.

Lemma Number_gt_false (x y : Q) : Number_gt x y = false ↔ (x <= y)%Q.
Proof.
  unfold Number_gt. destruct (Qlt_le_dec y x) as [Hlt|Hle]; split; try done.
  intros Hle. by apply Qle_not_lt in Hle.
Qed.

Lemma route_tab_activeTab suggestions sources aiDetection (w : World) :
  activeTab (session (snd (route_tab suggestions sources aiDetection w))) =
    if Number_gt (AiDetectionResult.score aiDetection) 80 then AI_CHECK
    else if bool_decide (0 < length suggestions) then GRAMMAR
    else if bool_decide (0 < length sources) then SOURCES
    else activeTab (session w).
Proof.
  unfold route_tab.
  destruct (Number_gt _ _); [reflexivity|].
  destruct (bool_decide (0 < length suggestions)); [reflexivity|].
  destruct (bool_decide (0 < length sources)); reflexivity.
Qed.

Lemma length_pos_nonempty {A} (l : list A) : 0 < length l ↔ l ≠ [].
Proof. destruct l; cbn; split; (done || lia). Qed.

(** C3: after a full scan that succeeded the active tab is the AI-check
    tab when the score is above 80; otherwise the grammar tab when there
    are suggestions; otherwise the sources tab when there are sources;
    otherwise the tab of before the scan. *)
Theorem runAnalysis_success_routes_tab (rt : Runtime) (s : Session)
    (suggestions : list Suggestion.t) (sources : list SourceMatch.t)
    (summary : string) (aiDetection : AiDetectionResult.t) :
  let text := DocumentState.text (doc s) in
  let score := AiDetectionResult.score aiDetection in
  let tab := activeTab (session (run (runAnalysis rt) s)) in
  JS.trim text ≠ "" →
  checkGrammarAndStyle rt text = Resolved suggestions →
  verifySources rt text = Resolved sources →
  generateSummary rt text = Resolved summary →
  detectAIContent rt text = Resolved aiDetection →
  ((80 < score)%Q → tab = AI_CHECK)
  ∧ ((score <= 80)%Q → suggestions ≠ [] → tab = GRAMMAR)
  ∧ ((score <= 80)%Q → suggestions = [] → sources ≠ [] → tab = SOURCES)
  ∧ ((score <= 80)%Q → suggestions = [] → sources = [] → tab = activeTab s).
Proof.
  intros text score tab Hdoc Hgrammar Hsources Hsummary Hdetect.
  subst tab text. rewrite runAnalysis_settled by done. cbv zeta.
  rewrite (Promise_all4_resolved _ _ _ _ _ _ _ _ Hgrammar Hsources Hsummary Hdetect).
  rewrite route_tab_activeTab. cbn [session activeTab]. fold score.
  repeat split.
  - intros Hhigh. apply Number_gt_spec in Hhigh. by rewrite Hhigh.
  - intros Hlow Hsome. apply Number_gt_false in Hlow. rewrite Hlow.
    by rewrite bool_decide_eq_true_2 by by apply length_pos_nonempty.
  - intros Hlow -> Hsome. apply Number_gt_false in Hlow. rewrite Hlow.
    cbn [length]. rewrite bool_decide_eq_false_2 by lia.
    by rewrite bool_decide_eq_true_2 by by apply length_pos_nonempty.
  - intros Hlow -> ->. apply Number_gt_false in Hlow. rewrite Hlow.
    cbn [length]. by rewrite !bool_decide_eq_false_2 by lia.
Qed.

Lemma runAnalysis_success_routes_tab_witness :
  JS.trim (DocumentState.text (doc busy_session)) ≠ ""
  ∧ detectAIContent sample_runtime (DocumentState.text (doc busy_session))
      = Resolved sample_detection
  ∧ length (AnalysisState.suggestions
              (analysis (session (run (runAnalysis sample_runtime) busy_session)))) = 2
  ∧ activeTab (session (run (runAnalysis sample_runtime) busy_session)) = AI_CHECK.
Proof.
  split; [vm_compute; discriminate|].
  split; [reflexivity|].
  split; [reflexivity|].
  refine (proj1 (runAnalysis_success_routes_tab sample_runtime busy_session
                   _ _ _ sample_detection _ eq_refl eq_refl eq_refl eq_refl) _).
  - vm_compute. discriminate.
  - reflexivity.
Defined.

(** The tab of the example of the specification with score 50 and three
    suggestions. *)
Example route_tab_score_50 (w : World) (a b c : Suggestion.t) :
  activeTab (session (snd (route_tab [a; b; c] []
    (AiDetectionResult.mk 50 MixedSignals "") w))) = GRAMMAR.
Proof. reflexivity. Qed.

(** ** Verification of the selection *)

(** C7: with an empty selection [verifySelection] does nothing (no state
    setter runs, no gateway operation is invoked).  With a selection it
    first sets [isAnalyzing], clears [error] and shows the Sources tab,
    then invokes the verification of the selected text; when that
    resolves only [claimVerification] is replaced and [isAnalyzing]
    cleared, when it rejects [error] is the message about the selection
    and [isAnalyzing] is cleared; suggestions, sources, summary and AI
    detection are those of before in both cases. *)
Theorem verifySelection_frame (rt : Runtime) (s : Session) :
  let selection := selectedText s in
  let before := analysis s in
  let w := run (verifySelection rt) s in
  (selection = "" → w = {| session := s; trace := [] |})
  ∧ (selection ≠ "" →
     ∃ marked busy,
       trace w = [ StateSet marked; StateSet busy;
                   Invoked (CallVerifyTextClaims selection);
                   StateSet (session w) ]
       ∧ analysis busy = AnalysisState.mk true
           (AnalysisState.suggestions before) (AnalysisState.sources before)
           (AnalysisState.claimVerification before) (AnalysisState.summary before)
           (AnalysisState.aiDetection before) None
       ∧ activeTab busy = SOURCES
       ∧ activeTab (session w) = SOURCES
       ∧ doc (session w) = doc s
       ∧ match verifyTextClaims rt selection with
         | Resolved claims =>
             analysis (session w) = AnalysisState.mk false
               (AnalysisState.suggestions before) (AnalysisState.sources before)
               claims (AnalysisState.summary before)
               (AnalysisState.aiDetection before) None
         | Rejected _ =>
             analysis (session w) = AnalysisState.mk false
               (AnalysisState.suggestions before) (AnalysisState.sources before)
               (AnalysisState.claimVerification before) (AnalysisState.summary before)
               (AnalysisState.aiDetection before) (Some selection_failed)
         end).
Proof.
  intros selection before w. subst w selection before. split.
  - intros Hnone. unfold verifySelection. run_handler. by rewrite Hnone.
  - intros Hsome. apply truthy_spec in Hsome.
    unfold verifySelection. run_handler. rewrite Hsome. cbn [negb]. run_handler.
    destruct (verifyTextClaims rt (selectedText s)) as [claims|reason];
      run_handler; eexists _, _; repeat split.
Qed.

Lemma verifySelection_frame_witness :
  selectedText blank_session = ""
  ∧ run (verifySelection sample_runtime) blank_session
      = {| session := blank_session; trace := [] |}
  ∧ selectedText busy_session ≠ ""
  ∧ AnalysisState.error
      (analysis (session (run (verifySelection keyless_runtime) busy_session)))
      = Some selection_failed
  ∧ AnalysisState.claimVerification
      (analysis (session (run (verifySelection sample_runtime) busy_session))) = [].
Proof.
  split; [reflexivity|].
  split; [exact (proj1 (verifySelection_frame sample_runtime blank_session) eq_refl)|].
  assert (Hsel : selectedText busy_session ≠ "") by (vm_compute; discriminate).
  split; [exact Hsel|].
  split.
  - destruct (proj2 (verifySelection_frame keyless_runtime busy_session) Hsel)
      as (marked & busy & _ & _ & _ & _ & _ & Hfinal).
    cbn in Hfinal. by rewrite Hfinal.
  - destruct (proj2 (verifySelection_frame sample_runtime busy_session) Hsel)
      as (marked & busy & _ & _ & _ & _ & _ & Hfinal).
    cbn in Hfinal. by rewrite Hfinal.
Defined.

(** ** Uploading a file *)

Section Upload.

Variable rt : Runtime.
Variable s : Session.
Variable file : File.t.
Variables result base64String : string.

Hypothesis Hread : File.readAsDataURL file = ReadLoads result.
Hypothesis Hdata : base64_of_dataURL result = Some base64String.

(** An upload whose file loads with a payload, as what it does once the
    transcription has settled. *)
Lemma handleFileUpload_settled :
  session (run (handleFileUpload rt (Some file)) s) =
    match extractTextFromFile rt base64String (File.type file) with
    | Resolved extractedText =>
        {| doc := DocumentState.mk extractedText (File.name file);
           selectedText := selectedText s; activeTab := activeTab s;
           analysis := initialAnalysis; isUploading := false |}
    | Rejected _ =>
        {| doc := doc s; selectedText := selectedText s; activeTab := activeTab s;
           analysis := with_error read_failed (analysis s); isUploading := false |}
    end.
Proof.
  unfold handleFileUpload. rewrite Hread. unfold onload. rewrite Hdata.
  run_handler.
  destruct (extractTextFromFile rt base64String (File.type file)); reflexivity.
Qed.

End Upload.

(** C8: an upload that succeeds replaces the text of the document by the
    transcription and its title by the name of the file, and leaves the
    analysis with no suggestions, no sources, no claims, no summary, no AI
    detection, no error, and [isAnalyzing] false. *)
Theorem handleFileUpload_success_resets (rt : Runtime) (s : Session)
    (file : File.t) (result base64String extractedText : string) :
  let after := session (run (handleFileUpload rt (Some file)) s) in
  File.readAsDataURL file = ReadLoads result →
  base64_of_dataURL result = Some base64String →
  extractTextFromFile rt base64String (File.type file) = Resolved extractedText →
  doc after = DocumentState.mk extractedText (File.name file)
  ∧ analysis after = AnalysisState.mk false [] [] [] None None None.
Proof.
  intros after Hread Hdata Hok. subst after.
  rewrite (handleFileUpload_settled rt s file result base64String Hread Hdata), Hok.
  done.
Qed.

Lemma handleFileUpload_success_resets_witness :
  let after := session (run (handleFileUpload sample_runtime (Some sample_file))
                          busy_session) in
  doc after = DocumentState.mk "Transcribed text." "notes.txt"
  ∧ analysis after = AnalysisState.mk false [] [] [] None None None.
Proof.
  apply (handleFileUpload_success_resets sample_runtime busy_session sample_file
           "data:text/plain;base64,SGVsbG8=" "SGVsbG8=" "Transcribed text.");
    reflexivity.
Defined.

(** C9: when the transcription of an uploaded file rejects, [error] is
    set to the message about reading the document, which is neither of
    the two messages of the analyses; the document, the suggestions, the
    sources, the claims, the summary, the AI detection and [isAnalyzing]
    are those of before. *)
Theorem handleFileUpload_transcription_failure (rt : Runtime) (s : Session)
    (file : File.t) (result base64String reason : string) :
  let after := session (run (handleFileUpload rt (Some file)) s) in
  File.readAsDataURL file = ReadLoads result →
  base64_of_dataURL result = Some base64String →
  extractTextFromFile rt base64String (File.type file) = Rejected reason →
  AnalysisState.error (analysis after) = Some read_failed
  ∧ read_failed ≠ analysis_failed
  ∧ read_failed ≠ selection_failed
  ∧ doc after = doc s
  ∧ AnalysisState.suggestions (analysis after) = AnalysisState.suggestions (analysis s)
  ∧ AnalysisState.sources (analysis after) = AnalysisState.sources (analysis s)
  ∧ AnalysisState.claimVerification (analysis after)
      = AnalysisState.claimVerification (analysis s)
  ∧ AnalysisState.summary (analysis after) = AnalysisState.summary (analysis s)
  ∧ AnalysisState.aiDetection (analysis after) = AnalysisState.aiDetection (analysis s)
  ∧ AnalysisState.isAnalyzing (analysis after) = AnalysisState.isAnalyzing (analysis s).
Proof.
  intros after Hread Hdata Hko. subst after.
  rewrite (handleFileUpload_settled rt s file result base64String Hread Hdata), Hko.
  cbn. by repeat split.
Qed.

Lemma handleFileUpload_transcription_failure_witness :
  let after := session (run (handleFileUpload keyless_runtime (Some sample_file))
                          busy_session) in
  AnalysisState.error (analysis after) = Some read_failed
  ∧ read_failed ≠ analysis_failed
  ∧ read_failed ≠ selection_failed
  ∧ doc after = doc busy_session
  ∧ AnalysisState.suggestions (analysis after)
      = AnalysisState.suggestions (analysis busy_session)
  ∧ AnalysisState.sources (analysis after) = AnalysisState.sources (analysis busy_session)
  ∧ AnalysisState.claimVerification (analysis after)
      = AnalysisState.claimVerification (analysis busy_session)
  ∧ AnalysisState.summary (analysis after) = AnalysisState.summary (analysis busy_session)
  ∧ AnalysisState.aiDetection (analysis after)
      = AnalysisState.aiDetection (analysis busy_session)
  ∧ AnalysisState.isAnalyzing (analysis after)
      = AnalysisState.isAnalyzing (analysis busy_session).
Proof.
  apply (handleFileUpload_transcription_failure keyless_runtime busy_session sample_file
           "data:text/plain;base64,SGVsbG8=" "SGVsbG8="
           "API Key not found in environment variables");
    reflexivity.
Defined.

(** ** Applying a suggestion *)

Lemma applySuggestion_run (suggestion : Suggestion.t) (s : Session) :
  session (run (applySuggestion suggestion) s) =
    {| doc := DocumentState.mk
                (JS.replace (DocumentState.text (doc s))
                   (Suggestion.originalText suggestion)
                   (Suggestion.suggestedText suggestion))
                (DocumentState.title (doc s));
       selectedText := selectedText s;
       activeTab := activeTab s;
       analysis :=
         AnalysisState.mk (AnalysisState.isAnalyzing (analysis s))
           (filter (λ x, Suggestion.id x ≠ Suggestion.id suggestion)
                   (AnalysisState.suggestions (analysis s)))
           (AnalysisState.sources (analysis s))
           (AnalysisState.claimVerification (analysis s))
           (AnalysisState.summary (analysis s))
           (AnalysisState.aiDetection (analysis s))
           (AnalysisState.error (analysis s));
       isUploading := isUploading s |}.
Proof. reflexivity. Qed.

(** C10: applying a suggestion leaves the title of the document, the
    selected text, the active tab, the upload flag and, in the analysis,
    the sources, the claims, the summary, the AI detection, the error and
    [isAnalyzing] as they were. *)
Theorem applySuggestion_frame (suggestion : Suggestion.t) (s : Session) :
  let after := session (run (applySuggestion suggestion) s) in
  DocumentState.title (doc after) = DocumentState.title (doc s)
  ∧ selectedText after = selectedText s
  ∧ activeTab after = activeTab s
  ∧ AnalysisState.sources (analysis after) = AnalysisState.sources (analysis s)
  ∧ AnalysisState.claimVerification (analysis after)
      = AnalysisState.claimVerification (analysis s)
  ∧ AnalysisState.summary (analysis after) = AnalysisState.summary (analysis s)
  ∧ AnalysisState.aiDetection (analysis after) = AnalysisState.aiDetection (analysis s)
  ∧ AnalysisState.error (analysis after) = AnalysisState.error (analysis s)
  ∧ AnalysisState.isAnalyzing (analysis after) = AnalysisState.isAnalyzing (analysis s)
  ∧ isUploading after = isUploading s.
Proof.
  intros after. subst after. rewrite applySuggestion_run. cbn. by repeat split.
Qed.

(** *** Occurrences of a text in another *)

Lemma append_String (c : ascii) (a b : string) :
  String c a +:+ b = String c (a +:+ b).
Proof. reflexivity. Qed.

Lemma append_empty (b : string) : "" +:+ b = b.
Proof. reflexivity. Qed.

Lemma prefix_app (s1 s2 : string) :
  String.prefix s1 s2 = true → ∃ rest, s2 = s1 +:+ rest.
Proof.
  revert s2. induction s1 as [|c s1 IH]; intros s2 Hpre.
  - by exists s2.
  - destruct s2 as [|d s2]; [done|]. cbn in Hpre.
    destruct (ascii_dec c d) as [->|]; [|done].
    destruct (IH _ Hpre) as [rest ->]. by exists rest.
Qed.

Lemma index_app (s1 s2 : string) (p : nat) :
  String.index 0 s1 s2 = Some p →
  ∃ before after, s2 = before +:+ s1 +:+ after ∧ String.length before = p.
Proof.
  revert p. induction s2 as [|d s2 IH]; intros p Hidx.
  - cbn in Hidx. destruct s1; [|done]. injection Hidx as <-. by exists "", "".
  - cbn [String.index] in Hidx.
    destruct (String.prefix s1 (String d s2)) eqn:Hpre.
    + injection Hidx as <-. destruct (prefix_app _ _ Hpre) as [rest ->].
      by exists "", rest.
    + destruct (String.index 0 s1 s2) as [q|]; [|done]. injection Hidx as <-.
      destruct (IH q eq_refl) as (before & after & -> & <-).
      by exists (String d before), after.
Qed.

Lemma substring_app_prefix (b r : string) :
  String.substring 0 (String.length b) (b +:+ r) = b.
Proof.
  induction b as [|c b IH].
  - rewrite append_empty. by destruct r.
  - rewrite append_String. cbn. by rewrite IH.
Qed.

Lemma substring_app_skip (b r : string) (k m : nat) :
  String.substring (String.length b + k) m (b +:+ r) = String.substring k m r.
Proof.
  induction b as [|c b IH]; [done|]. by rewrite append_String.
Qed.

Lemma substring_whole (s : string) :
  String.substring 0 (String.length s) s = s.
Proof. induction s as [|c s IH]; cbn; [done|by rewrite IH]. Qed.

Lemma String_length_app (a b : string) :
  String.length (a +:+ b) = String.length a + String.length b.
Proof.
  induction a as [|c a IH]; [done|]. rewrite append_String. cbn. by rewrite IH.
Qed.

(** Where [indexOf] finds [searchString], the text splits around it, and
    the two pieces are the ones [replace] takes. *)
Lemma indexOf_split (text searchString : string) (position : nat) :
  JS.indexOf text searchString = Some position →
  let tailPos := position + String.length searchString in
  let before := String.substring 0 position text in
  let after := String.substring tailPos (String.length text - tailPos) text in
  text = before +:+ searchString +:+ after ∧ String.length before = position.
Proof.
  intros Hidx. destruct (index_app _ _ _ Hidx) as (b & a & -> & <-). cbn zeta.
  rewrite substring_app_prefix.
  rewrite substring_app_skip.
  replace (String.length searchString) with (String.length searchString + 0) at 1 by lia.
  rewrite substring_app_skip.
  rewrite !String_length_app.
  replace (_ - _) with (String.length a) by lia.
  by rewrite substring_whole.
Qed.

Lemma indexOf_first (text searchString : string) (position : nat) :
  JS.indexOf text searchString = Some position →
  ∀ q, q < position → ¬ occurs_at q searchString text.
Proof.
  intros Hidx q Hq. apply (String.index_correct2 _ _ _ _ Hidx); lia.
Qed.

Lemma indexOf_None (text searchString : string) :
  (∀ q, ¬ occurs_at q searchString text) → JS.indexOf text searchString = None.
Proof.
  intros Habsent. destruct (JS.indexOf text searchString) as [p|] eqn:Hidx; [|done].
  destruct (Habsent p). by apply (String.index_correct1 0).
Qed.

Lemma GetSubstitution_dollar_free (matched before after template : string) :
  dollar_free template = true →
  JS.GetSubstitution matched before after template = template.
Proof.
  induction template as [|c rest IH]; [done|]. cbn [dollar_free JS.GetSubstitution].
  intros [Hc Hrest]%andb_true_iff. apply negb_true_iff in Hc. rewrite Hc.
  by rewrite IH.
Qed.

(** *** What [applySuggestion] does to the text and to the list *)

(** C1, at a suggestion whose replacement holds dollar signs: the
    document and the suggestion of [formula_session].  The text that
    [applySuggestion] leaves is not the text with the first occurrence of
    [originalText] replaced by [suggestedText] as it is written: [replace]
    reads [$$] in its second argument as one dollar sign. *)
Theorem applySuggestion_dollar_template :
  let suggestion :=
    Suggestion.mk "suggestion-0-1" "$$E = mc2$$" "$$E = mc^2$$"
      "The exponent is missing." Clarity Major in
  let after := session (run (applySuggestion suggestion) formula_session) in
  DocumentState.text (doc formula_session) = "Recall $$E = mc2$$ here."
  ∧ DocumentState.text (doc after) = "Recall $E = mc^2$ here."
  ∧ replaceFirstLiteral (DocumentState.text (doc formula_session))
      (Suggestion.originalText suggestion) (Suggestion.suggestedText suggestion)
    = "Recall $$E = mc^2$$ here."
  ∧ AnalysisState.suggestions (analysis after) = [].
Proof. by vm_compute. Qed.

(** When the replacement holds no dollar sign and [originalText] occurs
    in the text, [applySuggestion] replaces its first occurrence, and that
    one only, by [suggestedText] as it is written. *)
Theorem applySuggestion_replaces_first_literal (suggestion : Suggestion.t)
    (s : Session) (position : nat) :
  let text := DocumentState.text (doc s) in
  let originalText := Suggestion.originalText suggestion in
  let suggestedText := Suggestion.suggestedText suggestion in
  let after := session (run (applySuggestion suggestion) s) in
  dollar_free suggestedText = true →
  JS.indexOf text originalText = Some position →
  ∃ before rest,
    text = before +:+ originalText +:+ rest
    ∧ String.length before = position
    ∧ (∀ q, q < position → ¬ occurs_at q originalText text)
    ∧ DocumentState.text (doc after) = before +:+ suggestedText +:+ rest
    ∧ DocumentState.text (doc after) = replaceFirstLiteral text originalText suggestedText.
Proof.
  intros text originalText suggestedText after Hfree Hidx. subst after.
  rewrite applySuggestion_run. cbn [doc DocumentState.text].
  fold text originalText suggestedText.
  unfold JS.replace, replaceFirstLiteral. rewrite Hidx.
  rewrite GetSubstitution_dollar_free by done.
  destruct (indexOf_split _ _ _ Hidx) as [Hsplit Hlen].
  eexists _, _. split; [exact Hsplit|]. split; [exact Hlen|].
  split; [by apply indexOf_first|]. done.
Qed.

Lemma applySuggestion_replaces_first_literal_witness :
  let suggestion :=
    Suggestion.mk "suggestion-0-1" "utilize a qualitative" "utilizes a qualitative"
      "Subject-verb agreement." Grammar Major in
  ∃ before rest,
    DEFAULT_TEXT = before +:+ "utilize a qualitative" +:+ rest
    ∧ String.length before = 31
    ∧ (∀ q, q < 31 → ¬ occurs_at q "utilize a qualitative" DEFAULT_TEXT)
    ∧ DocumentState.text (doc (session (run (applySuggestion suggestion) busy_session)))
      = before +:+ "utilizes a qualitative" +:+ rest
    ∧ DocumentState.text (doc (session (run (applySuggestion suggestion) busy_session)))
      = replaceFirstLiteral DEFAULT_TEXT "utilize a qualitative" "utilizes a qualitative".
Proof.
  apply (applySuggestion_replaces_first_literal
           (Suggestion.mk "suggestion-0-1" "utilize a qualitative"
              "utilizes a qualitative" "Subject-verb agreement." Grammar Major)
           busy_session 31); reflexivity.
Defined.

(** When [originalText] occurs nowhere in the text, [applySuggestion]
    leaves the text as it is. *)
Theorem applySuggestion_absent_unchanged (suggestion : Suggestion.t) (s : Session) :
  let text := DocumentState.text (doc s) in
  let after := session (run (applySuggestion suggestion) s) in
  (∀ q, ¬ occurs_at q (Suggestion.originalText suggestion) text) →
  doc after = doc s.
Proof.
  intros text after Habsent. subst after text.
  rewrite applySuggestion_run. cbn [doc DocumentState.text].
  unfold JS.replace. rewrite (indexOf_None _ _ Habsent). by destruct (doc s).
Qed.

Lemma applySuggestion_absent_unchanged_witness :
  let suggestion :=
    Suggestion.mk "suggestion-1-1" "participents" "participants"
      "Misspelled word." Spelling Minor in
  doc (session (run (applySuggestion suggestion) busy_session)) = doc busy_session.
Proof.
  apply (applySuggestion_absent_unchanged
           (Suggestion.mk "suggestion-1-1" "participents" "participants"
              "Misspelled word." Spelling Minor) busy_session).
  intros q. apply (String.index_correct3 0); [reflexivity|discriminate|lia].
Defined.

(** Whatever happens to the text, [applySuggestion] takes out of the
    pending list the suggestions that have the id of the applied one, and
    keeps the others in their order. *)
Theorem applySuggestion_retires_by_id (suggestion : Suggestion.t) (s : Session) :
  let pending := AnalysisState.suggestions (analysis s) in
  let after := AnalysisState.suggestions
                 (analysis (session (run (applySuggestion suggestion) s))) in
  (∀ x, x ∈ after ↔ x ∈ pending ∧ Suggestion.id x ≠ Suggestion.id suggestion)
  ∧ (suggestion ∉ after)
  ∧ (after `sublist_of` pending).
Proof.
  intros pending after. subst after. rewrite applySuggestion_run.
  cbn [analysis AnalysisState.suggestions]. fold pending.
  split; [|split].
  - intros x. rewrite list_elem_of_filter. tauto.
  - rewrite list_elem_of_filter. tauto.
  - apply sublist_filter.
Qed.

(** ** The gateway *)

(** C5, as the claim states it, fails on a body that is JSON without
    being of the schema: [detectAIContent] resolves with the value of
    [JSON.parse] for the body [null], which is [null] and not the
    fallback, and [checkGrammarAndStyle] resolves with one entry for the
    body [[1]], not with the empty list. *)
Lemma parse_failure_counterexample :
  sample_JSON_parse "null" = Some JNull
  ∧ is_detection_record JNull = false
  ∧ Untyped.detectAIContent offschema_runtime sample_JSON_parse DEFAULT_TEXT
    = Resolved JNull
  ∧ Untyped.detectAIContent offschema_runtime sample_JSON_parse DEFAULT_TEXT
    ≠ Resolved could_not_analyze_json
  ∧ sample_JSON_parse "[1]" = Some (JArray [JNumber 1])
  ∧ is_suggestion_array (JArray [JNumber 1]) = false
  ∧ Untyped.checkGrammarAndStyle offschema_runtime sample_JSON_parse DEFAULT_TEXT
    = Resolved [JObject [("id", JString "suggestion-0-1700000000000")]]
  ∧ Untyped.checkGrammarAndStyle offschema_runtime sample_JSON_parse DEFAULT_TEXT
    ≠ Resolved [].
Proof. repeat split; (reflexivity || discriminate). Qed.

(** C5, amended: when [JSON.parse] throws on the text of a response,
    [checkGrammarAndStyle] and [verifyTextClaims] resolve with the empty
    list, which they also do when the parsed value is not an array, and
    [detectAIContent] resolves with score 0, label Likely Human and the
    explanation that it could not analyze; none of the three rejects.  A
    text that [JSON.parse] accepts is not checked against the schema:
    [detectAIContent] resolves with the parsed value whatever it is, and
    the two list operations resolve with one entry for each element of
    a parsed array, whatever the element is: its own properties and the
    generated id. *)
Theorem parse_failure_is_swallowed (rt : Runtime) (JSON_parse : string → option Json)
    (text body : string) (response : GenerateContentResponse.t) :
  let not_an_array :=
    JSON_parse body = None
    ∨ ∃ parsed, JSON_parse body = Some parsed ∧ ∀ items, parsed ≠ JArray items in
  getAiClient rt = Resolved tt →
  GenerateContentResponse.text response = Some body →
  (generateContent rt (GrammarRequest text) = Resolved response →
   not_an_array →
   Untyped.checkGrammarAndStyle rt JSON_parse text = Resolved [])
  ∧ (generateContent rt (ClaimsRequest text) = Resolved response →
     not_an_array →
     Untyped.verifyTextClaims rt JSON_parse text = Resolved [])
  ∧ (generateContent rt (AiDetectionRequest (JS.substring text 0 2000))
       = Resolved response →
     JSON_parse body = None →
     Untyped.detectAIContent rt JSON_parse text
       = Resolved (JObject [ ("score", JNumber 0); ("label", JString "Likely Human");
                             ("explanation", JString "Could not analyze.") ]))
  ∧ (generateContent rt (AiDetectionRequest (JS.substring text 0 2000))
       = Resolved response →
     body ≠ "" →
     ∀ parsed, JSON_parse body = Some parsed →
       Untyped.detectAIContent rt JSON_parse text = Resolved parsed)
  ∧ (generateContent rt (GrammarRequest text) = Resolved response →
     body ≠ "" →
     ∀ data, JSON_parse body = Some (JArray data) →
       Untyped.checkGrammarAndStyle rt JSON_parse text
         = Resolved (imap (λ index item,
                             with_id item (generated_id rt "suggestion" index)) data))
  ∧ (generateContent rt (ClaimsRequest text) = Resolved response →
     body ≠ "" →
     ∀ data, JSON_parse body = Some (JArray data) →
       Untyped.verifyTextClaims rt JSON_parse text
         = Resolved (imap (λ index item,
                             with_id item (generated_id rt "claim" index)) data)).
Proof.
  intros not_an_array Hclient Hbody. subst not_an_array.
  assert (∀ prefix,
            (JSON_parse body = None
             ∨ ∃ parsed, JSON_parse body = Some parsed ∧ ∀ items, parsed ≠ JArray items) →
            Untyped.items_with_ids rt prefix (JSON_parse body) = []) as Hitems.
  { intros prefix [-> | (parsed & -> & Hshape)]; [done|].
    destruct parsed; try done. by destruct (Hshape items). }
  split; [|split; [|split; [|split; [|split]]]].
  - intros Hresponse Hshape.
    unfold Untyped.checkGrammarAndStyle, mbind, Outcome_bind.
    rewrite Hclient, Hresponse.
    unfold Untyped.suggestions_of_response, response_text. rewrite Hbody.
    destruct (JS.truthy body); [by rewrite Hitems|done].
  - intros Hresponse Hshape.
    unfold Untyped.verifyTextClaims, mbind, Outcome_bind.
    rewrite Hclient, Hresponse.
    unfold Untyped.claims_of_response, response_text. rewrite Hbody.
    destruct (JS.truthy body); [by rewrite Hitems|done].
  - intros Hresponse Hparse.
    unfold Untyped.detectAIContent, mbind, Outcome_bind.
    rewrite Hclient, Hresponse.
    unfold Untyped.aiDetection_of_response, response_text. rewrite Hbody.
    destruct (JS.truthy body); [by rewrite Hparse|done].
  - intros Hresponse Hsome%truthy_spec parsed Hparse.
    unfold Untyped.detectAIContent, mbind, Outcome_bind.
    rewrite Hclient, Hresponse.
    unfold Untyped.aiDetection_of_response, response_text.
    by rewrite Hbody, Hsome, Hparse.
  - intros Hresponse Hsome%truthy_spec data Hparse.
    unfold Untyped.checkGrammarAndStyle, mbind, Outcome_bind.
    rewrite Hclient, Hresponse.
    unfold Untyped.suggestions_of_response, response_text.
    by rewrite Hbody, Hsome, Hparse.
  - intros Hresponse Hsome%truthy_spec data Hparse.
    unfold Untyped.verifyTextClaims, mbind, Outcome_bind.
    rewrite Hclient, Hresponse.
    unfold Untyped.claims_of_response, response_text.
    by rewrite Hbody, Hsome, Hparse.
Qed.

Lemma parse_failure_is_swallowed_witness :
  sample_JSON_parse "<html>Bad gateway</html>" = None
  ∧ Untyped.checkGrammarAndStyle garbled_runtime sample_JSON_parse DEFAULT_TEXT
    = Resolved []
  ∧ Untyped.verifyTextClaims garbled_runtime sample_JSON_parse DEFAULT_TEXT
    = Resolved []
  ∧ Untyped.detectAIContent garbled_runtime sample_JSON_parse DEFAULT_TEXT
    = Resolved (JObject [ ("score", JNumber 0); ("label", JString "Likely Human");
                          ("explanation", JString "Could not analyze.") ])
  ∧ Untyped.verifyTextClaims offschema_runtime sample_JSON_parse DEFAULT_TEXT
    = Resolved [].
Proof.
  destruct (parse_failure_is_swallowed garbled_runtime sample_JSON_parse DEFAULT_TEXT
              "<html>Bad gateway</html>"
              (GenerateContentResponse.mk (Some "<html>Bad gateway</html>") None)
              eq_refl eq_refl) as (Hgrammar & Hclaims & Hdetect & _).
  destruct (parse_failure_is_swallowed offschema_runtime sample_JSON_parse DEFAULT_TEXT
              "{}" (GenerateContentResponse.mk (Some "{}") None)
              eq_refl eq_refl) as (_ & Hobject & _).
  split; [reflexivity|].
  split; [exact (Hgrammar eq_refl (or_introl eq_refl))|].
  split; [exact (Hclaims eq_refl (or_introl eq_refl))|].
  split; [exact (Hdetect eq_refl eq_refl)|].
  apply (Hobject eq_refl). right. exists (JObject []). split; [reflexivity|discriminate].
Defined.

(** On a body of the schema, and on a body that [JSON.parse] rejects,
    the operations at the declared types and the operations on JSON
    values agree: what the second resolves with is what the first
    resolves with, written as JSON. *)
Lemma detection_typed_untyped (rt : Runtime) (JSON_parse : string → option Json)
    (response : GenerateContentResponse.t) :
  (∀ body, GenerateContentResponse.text response = Some body →
     (JSON_parse body = None ∧ JSON_parse_aiDetection rt body = None)
     ∨ ∃ r, JSON_parse body = Some (Json_of_AiDetectionResult r)
            ∧ JSON_parse_aiDetection rt body = Some r) →
  ∃ r, aiDetection_of_response rt response = Resolved r
       ∧ Untyped.aiDetection_of_response JSON_parse response
         = Resolved (Json_of_AiDetectionResult r).
Proof.
  intros Hagree. unfold aiDetection_of_response, Untyped.aiDetection_of_response,
    response_text.
  destruct (GenerateContentResponse.text response) as [body|];
    [|by exists could_not_analyze].
  destruct (JS.truthy body); [|by exists could_not_analyze].
  destruct (Hagree body eq_refl) as [[-> ->]|(r & -> & ->)];
    [by exists could_not_analyze|by exists r].
Qed.

Lemma with_id_suggestion (item : Suggestion.t) (id : string) :
  with_id (Json_of_suggestion_item item) id
    = Json_of_Suggestion (Suggestion_with_id item id).
Proof. reflexivity. Qed.

Lemma suggestions_typed_untyped (rt : Runtime) (JSON_parse : string → option Json)
    (response : GenerateContentResponse.t) :
  (∀ body, GenerateContentResponse.text response = Some body →
     (JSON_parse body = None ∧ JSON_parse_suggestions rt body = None)
     ∨ ∃ data, JSON_parse body = Some (JArray (Json_of_suggestion_item <$> data))
               ∧ JSON_parse_suggestions rt body = Some data) →
  ∃ suggestions,
    suggestions_of_response rt response = Resolved suggestions
    ∧ Untyped.suggestions_of_response rt JSON_parse response
      = Resolved (Json_of_Suggestion <$> suggestions).
Proof.
  intros Hagree. unfold suggestions_of_response, Untyped.suggestions_of_response,
    response_text.
  destruct (GenerateContentResponse.text response) as [body|]; [|by exists []].
  destruct (JS.truthy body); [|by exists []].
  destruct (Hagree body eq_refl) as [[-> ->]|(data & -> & ->)]; [by exists []|].
  eexists. split; [reflexivity|]. cbn [Untyped.items_with_ids]. f_equal.
  rewrite imap_fmap, fmap_imap. by apply imap_ext.
Qed.

(** *** Deduplication of the sources *)

Lemma findIndex_first (pre suf : list SourceMatch.t) (v : SourceMatch.t) :
  findIndex (λ t, SourceMatch.url t = SourceMatch.url v) (pre ++ v :: suf)
    = Some (length pre)
  ↔ SourceMatch.url v ∉ (SourceMatch.url <$> pre).
Proof.
  unfold findIndex. split.
  - intros Hfind Hseen.
    destruct (list_find _ _) as [[i x]|] eqn:Hlf; [|done].
    cbn in Hfind. injection Hfind as ->.
    apply list_find_Some in Hlf as (_ & _ & Hmin).
    apply list_elem_of_fmap in Hseen as (y & Hurl & Hy).
    apply list_elem_of_lookup in Hy as [j Hj].
    apply (Hmin j y); [|by eapply lookup_lt_Some|done].
    by apply lookup_app_l_Some.
  - intros Hfresh.
    assert (list_find (λ t, SourceMatch.url t = SourceMatch.url v) (pre ++ v :: suf)
            = Some (length pre, v)) as ->; [|done].
    apply list_find_Some. split; [by apply list_lookup_middle|].
    split; [done|]. intros j y Hj Hlt Hurl. apply Hfresh.
    rewrite lookup_app_l in Hj by done.
    apply list_elem_of_fmap. exists y. split; [done|].
    by eapply list_elem_of_lookup_2.
Qed.

(** The filter of [uniqueSources], started after the sources [pre], is the
    deduplication of the specification with the urls of [pre] seen. *)
Lemma filter_from_first_seen (pre suf : list SourceMatch.t) :
  filter_from
    (λ v i, bool_decide
       (findIndex (λ t, SourceMatch.url t = SourceMatch.url v) (pre ++ suf) = Some i))
    (length pre) suf
  = first_seen (list_to_set (SourceMatch.url <$> pre)) suf.
Proof.
  revert pre. induction suf as [|v suf IH]; intros pre; [done|].
  cbn [filter_from first_seen].
  specialize (IH (pre ++ [v])%list).
  rewrite <- app_assoc, length_app, Nat.add_1_r in IH. cbn [app] in IH.
  rewrite IH, fmap_app, list_to_set_app_L. cbn [fmap list_fmap list_to_set].
  destruct (decide (SourceMatch.url v ∈ _)) as [Hseen|Hfresh].
  - rewrite bool_decide_eq_false_2.
    + f_equal. set_solver.
    + rewrite findIndex_first. set_solver.
  - rewrite bool_decide_eq_true_2.
    + do 2 f_equal. set_solver.
    + rewrite findIndex_first. set_solver.
Qed.

Lemma uniqueSources_first_seen (sources : list SourceMatch.t) :
  uniqueSources sources = first_seen ∅ sources.
Proof. exact (filter_from_first_seen [] sources). Qed.

Lemma first_seen_urls (seen : gset string) (sources : list SourceMatch.t) (u : string) :
  u ∈ (SourceMatch.url <$> first_seen seen sources)
  ↔ u ∈ (SourceMatch.url <$> sources) ∧ u ∉ seen.
Proof.
  revert seen. induction sources as [|v rest IH]; intros seen; cbn [first_seen].
  - set_solver.
  - destruct (decide (SourceMatch.url v ∈ seen)).
    + rewrite IH. set_solver.
    + rewrite !fmap_cons, !elem_of_cons, IH.
      destruct (decide (u = SourceMatch.url v)); set_solver.
Qed.

Lemma first_seen_NoDup (seen : gset string) (sources : list SourceMatch.t) :
  NoDup (SourceMatch.url <$> first_seen seen sources).
Proof.
  revert seen. induction sources as [|v rest IH]; intros seen; cbn [first_seen].
  - constructor.
  - destruct (decide (SourceMatch.url v ∈ seen)); [apply IH|].
    rewrite fmap_cons. constructor; [|apply IH].
    rewrite first_seen_urls. set_solver.
Qed.

Lemma first_seen_sublist (seen : gset string) (sources : list SourceMatch.t) :
  first_seen seen sources `sublist_of` sources.
Proof.
  revert seen. induction sources as [|v rest IH]; intros seen; cbn [first_seen].
  - constructor.
  - destruct (decide (SourceMatch.url v ∈ seen)).
    + by apply sublist_cons.
    + by apply sublist_skip.
Qed.

Lemma first_seen_first (seen : gset string) (sources : list SourceMatch.t)
    (v : SourceMatch.t) :
  v ∈ first_seen seen sources →
  ∃ i, list_find (λ t, SourceMatch.url t = SourceMatch.url v) sources = Some (i, v).
Proof.
  revert seen. induction sources as [|w rest IH]; intros seen; cbn [first_seen].
  - by intros ?%elem_of_nil.
  - destruct (decide (SourceMatch.url w ∈ seen)) as [Hseen|Hfresh].
    + intros Hv. destruct (IH _ Hv) as [i Hi]. exists (S i).
      cbn [list_find]. rewrite decide_False.
      * by rewrite Hi.
      * intros Hurl. apply (first_seen_urls seen rest (SourceMatch.url v)).
        -- apply list_elem_of_fmap. by exists v.
        -- by rewrite <- Hurl.
    + intros [->|Hv]%elem_of_cons.
      * exists 0. cbn [list_find]. by rewrite decide_True.
      * destruct (IH _ Hv) as [i Hi]. exists (S i).
        cbn [list_find]. rewrite decide_False.
        -- by rewrite Hi.
        -- intros Hurl.
           assert (SourceMatch.url v ∉ ({[SourceMatch.url w]} ∪ seen : gset string))
             as Hnot; [|set_solver].
           apply (first_seen_urls _ rest). apply list_elem_of_fmap. by exists v.
Qed.

Lemma verifySources_resolved (rt : Runtime) (text : string)
    (result : list SourceMatch.t) :
  verifySources rt text = Resolved result
  ↔ getAiClient rt = Resolved tt
    ∧ ∃ response,
        generateContent rt (SourcesRequest (JS.substring text 0 1000)) = Resolved response
        ∧ result = sources_of_response response.
Proof.
  unfold verifySources, mbind, Outcome_bind. split.
  - destruct (getAiClient rt) as [[]|]; [|done].
    destruct (generateContent rt _) as [response|]; [|done].
    intros [= <-]. eauto.
  - intros (-> & response & -> & ->). done.
Qed.

Lemma collect_sources_cons (chunk : GroundingChunk.t)
    (groundingChunks : list GroundingChunk.t) :
  collect_sources (chunk :: groundingChunks) =
    match GroundingChunk.web chunk with
    | Some web => source_of_web web :: collect_sources groundingChunks
    | None => collect_sources groundingChunks
    end.
Proof. unfold collect_sources. cbn. by destruct (GroundingChunk.web chunk). Qed.

(** The sources kept after the chunks [pre], whose uris are [seen], are
    those of the chunks that come first with their uri, in the order of
    the chunks. *)
Lemma first_seen_positions (rest pre : list GroundingChunk.t) (seen : gset string) :
  (∀ u, u ∈ seen ↔
        ∃ j web, pre !! j = Some (GroundingChunk.mk (Some web))
                 ∧ GroundingChunkWeb.uri web = u) →
  ∃ positions,
    StronglySorted lt positions
    ∧ Forall (λ i, (length pre ≤ i)%nat) positions
    ∧ Forall2 (λ i v, ∃ web, first_web_chunk (pre ++ rest) i web ∧ v = source_of_web web)
        positions (first_seen seen (collect_sources rest)).
Proof.
  revert pre seen. induction rest as [|chunk rest IH]; intros pre seen Hseen.
  - exists []. split; [constructor|]. split; constructor.
  - rewrite collect_sources_cons.
    assert (∀ seen',
              (∀ u, u ∈ seen' ↔
                    ∃ j web, (pre ++ [chunk])%list !! j = Some (GroundingChunk.mk (Some web))
                             ∧ GroundingChunkWeb.uri web = u) →
              ∃ positions,
                StronglySorted lt positions
                ∧ Forall (λ i, (S (length pre) ≤ i)%nat) positions
                ∧ Forall2 (λ i v, ∃ web, first_web_chunk (pre ++ chunk :: rest) i web
                                         ∧ v = source_of_web web)
                    positions (first_seen seen' (collect_sources rest))) as Hnext.
    { intros seen' Hseen'. destruct (IH (pre ++ [chunk])%list seen' Hseen')
        as (positions & Hsorted & Hfrom & Hall).
      rewrite <- app_assoc in Hall. rewrite length_app in Hfrom. cbn in Hfrom.
      exists positions. split; [done|]. split; [|done].
      eapply Forall_impl; [exact Hfrom|]. cbn. lia. }
    assert (∀ j web, (pre ++ [chunk])%list !! j = Some (GroundingChunk.mk (Some web)) →
                     pre !! j = Some (GroundingChunk.mk (Some web))
                     ∨ (j = length pre ∧ chunk = GroundingChunk.mk (Some web)))
      as Hsnoc.
    { intros j web Hj. apply lookup_app_Some in Hj as [Hj|[Hle Hj]]; [by left|].
      right. apply list_lookup_singleton_Some in Hj as [Hj <-]. split; [lia|done]. }
    destruct chunk as [[web|]]; cbn [GroundingChunk.web].
    + cbn [first_seen].
      change (SourceMatch.url (source_of_web web)) with (GroundingChunkWeb.uri web).
      destruct (decide (GroundingChunkWeb.uri web ∈ seen)) as [Hin|Hfresh].
      * destruct (Hnext seen) as (positions & Hsorted & Hfrom & Hall).
        { intros u. rewrite Hseen. split.
          - intros (j & web' & Hj & Hu). exists j, web'. split; [|done].
            by apply lookup_app_l_Some.
          - intros (j & web' & Hj & Hu). apply Hsnoc in Hj as [Hj|[-> [= <-]]].
            + by exists j, web'.
            + apply Hseen. by rewrite <- Hu. }
        exists positions. split; [done|]. split; [|done].
        eapply Forall_impl; [exact Hfrom|]. cbn. lia.
      * destruct (Hnext ({[GroundingChunkWeb.uri web]} ∪ seen))
          as (positions & Hsorted & Hfrom & Hall).
        { intros u. rewrite elem_of_union, elem_of_singleton, Hseen. split.
          - intros [->|(j & web' & Hj & Hu)].
            + exists (length pre), web. split; [|done]. by apply list_lookup_middle.
            + exists j, web'. split; [|done]. by apply lookup_app_l_Some.
          - intros (j & web' & Hj & Hu). apply Hsnoc in Hj as [Hj|[-> [= <-]]].
            + right. by exists j, web'.
            + by left. }
        exists (length pre :: positions). split; [|split].
        -- constructor; [done|]. eapply Forall_impl; [exact Hfrom|]. cbn. lia.
        -- constructor; [done|]. eapply Forall_impl; [exact Hfrom|]. cbn. lia.
        -- constructor; [|done]. exists web. split; [|done]. split.
           ++ by apply list_lookup_middle.
           ++ intros j web' Hlt Hj Huri. apply Hfresh, Hseen.
              exists j, web'. split; [|done].
              by rewrite lookup_app_l in Hj.
    + destruct (Hnext seen) as (positions & Hsorted & Hfrom & Hall).
      { intros u. rewrite Hseen. split.
        - intros (j & web' & Hj & Hu). exists j, web'. split; [|done].
          by apply lookup_app_l_Some.
        - intros (j & web' & Hj & Hu). apply Hsnoc in Hj as [Hj|[-> [=]]].
          by exists j, web'. }
      exists positions. split; [done|]. split; [|done].
      eapply Forall_impl; [exact Hfrom|]. cbn. lia.
Qed.

(** C4: when the service answers the request of [verifySources] with
    grounding chunks, the list that [verifySources] resolves with holds
    every uri of a chunk that has a web part, and holds it once; its
    entries are, in the order of the chunks, the sources of the chunks
    that come first with their uri, so that the title kept for a uri is
    the one of its first chunk; two chunks with one uri give one
    source, with the title of the first.  The list is the
    deduplication, as the specification words it, of the sources of the
    chunks. *)
Theorem verifySources_dedup (rt : Runtime) (text : string) (body : option string)
    (groundingChunks : list GroundingChunk.t) :
  getAiClient rt = Resolved tt →
  generateContent rt (SourcesRequest (JS.substring text 0 1000))
    = Resolved (GenerateContentResponse.mk body (Some groundingChunks)) →
  ∃ result,
    verifySources rt text = Resolved result
    ∧ NoDup (SourceMatch.url <$> result)
    ∧ (∀ u, u ∈ (SourceMatch.url <$> result)
            ↔ ∃ web, GroundingChunk.mk (Some web) ∈ groundingChunks
                     ∧ GroundingChunkWeb.uri web = u)
    ∧ (∃ positions,
         StronglySorted lt positions
         ∧ Forall2 (λ i v, ∃ web, first_web_chunk groundingChunks i web
                                  ∧ v = source_of_web web)
             positions result)
    ∧ (∀ uri title1 title2,
         groundingChunks
           = [ GroundingChunk.mk (Some (GroundingChunkWeb.mk uri title1));
               GroundingChunk.mk (Some (GroundingChunkWeb.mk uri title2)) ] →
         result = [ SourceMatch.mk uri (JS.or_else title1 "External Source") None ])
    ∧ (let sources := collect_sources groundingChunks in
       (∀ u, u ∈ (SourceMatch.url <$> result) ↔ u ∈ (SourceMatch.url <$> sources))
       ∧ result = first_seen ∅ sources
       ∧ (result `sublist_of` sources)
       ∧ (∀ v, v ∈ result →
            ∃ i, list_find (λ t, SourceMatch.url t = SourceMatch.url v) sources
                   = Some (i, v))).
Proof.
  intros Hclient Hresponse.
  exists (uniqueSources (collect_sources groundingChunks)).
  split.
  { unfold verifySources, mbind, Outcome_bind. by rewrite Hclient, Hresponse. }
  rewrite uniqueSources_first_seen.
  split; [apply first_seen_NoDup|].
  split; [|split; [|split]].
  - intros u. rewrite first_seen_urls. unfold collect_sources.
    rewrite list_elem_of_fmap. split.
    + intros [(v & -> & Hv) _]. apply list_elem_of_omap in Hv as ([web] & Hin & Hv).
      destruct web as [web|]; [|done]. injection Hv as <-. by exists web.
    + intros (web & Hin & <-). split; [|set_solver].
      exists (source_of_web web). split; [done|].
      apply list_elem_of_omap. by exists (GroundingChunk.mk (Some web)).
  - destruct (first_seen_positions groundingChunks [] ∅)
      as (positions & Hsorted & _ & Hall).
    { intros u. split; [set_solver|]. by intros (j & web & Hj & _). }
    by exists positions.
  - intros uri title1 title2 ->.
    cbn [collect_sources omap list_omap mbind option_bind GroundingChunk.web
         GroundingChunkWeb.uri GroundingChunkWeb.title first_seen SourceMatch.url].
    rewrite decide_False by set_solver. by rewrite decide_True by set_solver.
  - cbv zeta. split; [intros u; rewrite first_seen_urls; set_solver|].
    split; [done|]. split; [apply first_seen_sublist|].
    intros v. apply first_seen_first.
Qed.

Lemma verifySources_dedup_witness :
  ∃ result,
    verifySources sample_runtime DEFAULT_TEXT = Resolved result
    ∧ result = [ SourceMatch.mk "https://a.example/x" "First" None;
                 SourceMatch.mk "https://b.example/y" "External Source" None ]
    ∧ NoDup (SourceMatch.url <$> result)
    ∧ ∃ positions,
        StronglySorted lt positions
        ∧ Forall2 (λ i v, ∃ web, first_web_chunk sample_chunks i web
                                 ∧ v = source_of_web web)
            positions result.
Proof.
  destruct (verifySources_dedup sample_runtime DEFAULT_TEXT (Some "Found two sources.")
              sample_chunks eq_refl eq_refl)
    as (result & Hresult & Hnodup & _ & Hpositions & _).
  exists result. split; [exact Hresult|].
  split; [|by split].
  assert (Resolved result
          = Resolved [ SourceMatch.mk "https://a.example/x" "First" None;
                       SourceMatch.mk "https://b.example/y" "External Source" None ])
    as Heq by (rewrite <- Hresult; reflexivity).
  by injection Heq.
Defined.

(** The sources of the sample chunks: the second chunk has no web part,
    the fourth repeats the url of the first under another title. *)
Example verifySources_sample :
  verifySources sample_runtime DEFAULT_TEXT =
    Resolved [ SourceMatch.mk "https://a.example/x" "First" None;
               SourceMatch.mk "https://b.example/y" "External Source" None ].
Proof. reflexivity. Qed.

(** * Further properties of the gateway *)

(** ** Credential and transport *)

Lemma getAiClient_cases (rt : Runtime) :
  getAiClient rt = Resolved tt ∨ getAiClient rt = Rejected no_key_message.
Proof.
  unfold getAiClient. destruct (API_KEY rt) as [apiKey|]; [|by right].
  destruct (JS.truthy apiKey); [by left|by right].
Qed.

Lemma getAiClient_without_key (rt : Runtime) :
  API_KEY rt = None ∨ API_KEY rt = Some "" →
  getAiClient rt = Rejected no_key_message.
Proof. unfold getAiClient. by intros [->| ->]. Qed.

(** Without a key in the environment, or with an empty one, each of the
    six operations rejects with the message about the key, whatever the
    transport would have answered. *)
Theorem gateway_rejects_without_key (rt : Runtime) (text mimeType : string) :
  API_KEY rt = None ∨ API_KEY rt = Some "" →
  checkGrammarAndStyle rt text = Rejected no_key_message
  ∧ verifySources rt text = Rejected no_key_message
  ∧ verifyTextClaims rt text = Rejected no_key_message
  ∧ generateSummary rt text = Rejected no_key_message
  ∧ detectAIContent rt text = Rejected no_key_message
  ∧ extractTextFromFile rt text mimeType = Rejected no_key_message.
Proof.
  intros Hkey%getAiClient_without_key.
  unfold checkGrammarAndStyle, verifySources, verifyTextClaims, generateSummary,
    detectAIContent, extractTextFromFile, mbind, Outcome_bind.
  by rewrite Hkey.
Qed.

Lemma gateway_rejects_without_key_witness :
  checkGrammarAndStyle keyless_runtime DEFAULT_TEXT = Rejected no_key_message
  ∧ verifySources keyless_runtime DEFAULT_TEXT = Rejected no_key_message
  ∧ verifyTextClaims keyless_runtime DEFAULT_TEXT = Rejected no_key_message
  ∧ generateSummary keyless_runtime DEFAULT_TEXT = Rejected no_key_message
  ∧ detectAIContent keyless_runtime DEFAULT_TEXT = Rejected no_key_message
  ∧ extractTextFromFile keyless_runtime DEFAULT_TEXT "text/plain"
      = Rejected no_key_message.
Proof.
  apply (gateway_rejects_without_key keyless_runtime DEFAULT_TEXT "text/plain").
  by left.
Defined.

Lemma suggestions_of_response_resolves rt response :
  ¬ isRejected (suggestions_of_response rt response).
Proof.
  unfold suggestions_of_response.
  destruct (response_text response) as [body|]; [|cbn; tauto].
  destruct (JSON_parse_suggestions rt body); cbn; tauto.
Qed.

Lemma claims_of_response_resolves rt response :
  ¬ isRejected (claims_of_response rt response).
Proof.
  unfold claims_of_response.
  destruct (response_text response) as [body|]; [|cbn; tauto].
  destruct (JSON_parse_claims rt body); cbn; tauto.
Qed.

Lemma aiDetection_of_response_resolves rt response :
  ¬ isRejected (aiDetection_of_response rt response).
Proof.
  unfold aiDetection_of_response.
  destruct (response_text response) as [body|]; [|cbn; tauto].
  destruct (JSON_parse_aiDetection rt body); cbn; tauto.
Qed.

(** An operation is [getAiClient], a request, and a reading [k] of the
    response that resolves. *)
Lemma request_rejects_iff {A} (rt : Runtime) (request : Request)
    (k : GenerateContentResponse.t → Outcome A) :
  (∀ response, ¬ isRejected (k response)) →
  isRejected (_ ← getAiClient rt; response ← generateContent rt request; k response)
  → isRejected (getAiClient rt) ∨ isRejected (generateContent rt request).
Proof.
  intros Hk. unfold mbind, Outcome_bind.
  destruct (getAiClient rt) as [[]|]; [|by left].
  destruct (generateContent rt request) as [response|]; [|by right].
  intros Hrej. by apply Hk in Hrej.
Qed.

Lemma request_rejected_if {A} (rt : Runtime) (request : Request)
    (k : GenerateContentResponse.t → Outcome A) :
  isRejected (getAiClient rt) ∨ isRejected (generateContent rt request) →
  isRejected (_ ← getAiClient rt; response ← generateContent rt request; k response).
Proof.
  unfold mbind, Outcome_bind.
  destruct (getAiClient rt) as [[]|]; [|done].
  destruct (generateContent rt request) as [response|]; [|done].
  by intros [[]|[]].
Qed.

(** An operation of the gateway rejects in two cases only: the client
    cannot be made for want of a key, or the transport rejects the
    request of the operation.  Whatever the response holds, text that
    does not parse included, the operation resolves. *)
Theorem gateway_rejects_iff (rt : Runtime) (text mimeType : string) :
  let no_client := isRejected (getAiClient rt) in
  (isRejected (checkGrammarAndStyle rt text)
   ↔ no_client ∨ isRejected (generateContent rt (GrammarRequest text)))
  ∧ (isRejected (verifySources rt text)
     ↔ no_client
       ∨ isRejected (generateContent rt (SourcesRequest (JS.substring text 0 1000))))
  ∧ (isRejected (verifyTextClaims rt text)
     ↔ no_client ∨ isRejected (generateContent rt (ClaimsRequest text)))
  ∧ (isRejected (generateSummary rt text)
     ↔ no_client ∨ isRejected (generateContent rt (SummaryRequest text)))
  ∧ (isRejected (detectAIContent rt text)
     ↔ no_client
       ∨ isRejected (generateContent rt (AiDetectionRequest (JS.substring text 0 2000))))
  ∧ (isRejected (extractTextFromFile rt text mimeType)
     ↔ no_client
       ∨ isRejected (generateContent rt (TranscriptionRequest text mimeType))).
Proof.
  intros no_client. subst no_client.
  repeat split; intros H; revert H;
    (apply request_rejects_iff || apply request_rejected_if);
    auto using suggestions_of_response_resolves, claims_of_response_resolves,
      aiDetection_of_response_resolves.
Qed.

(** ** The ids given to suggestions and claims *)

Lemma string_of_uint_hyphen_free (d : Decimal.uint) :
  hyphen_free (NilEmpty.string_of_uint d) = true.
Proof. induction d; cbn; done. Qed.

Lemma Number_toString_inj (n m : N) :
  JS.Number_toString n = JS.Number_toString m → n = m.
Proof.
  unfold JS.Number_toString. intros Heq.
  apply (f_equal NilEmpty.uint_of_string) in Heq.
  rewrite !NilEmpty.usu in Heq. injection Heq as Heq.
  apply (f_equal N.of_uint) in Heq. by rewrite !DecimalN.Unsigned.of_to in Heq.
Qed.

Lemma append_inj_r (a x y : string) : a +:+ x = a +:+ y → x = y.
Proof.
  induction a as [|c a IH]; [done|]. rewrite !append_String. intros [=]. auto.
Qed.

(** Two texts that agree up to their first hyphen. *)
Lemma hyphen_split (a a' b b' : string) :
  hyphen_free a = true → hyphen_free a' = true →
  a +:+ String "-" b = a' +:+ String "-" b' → a = a'.
Proof.
  revert a'. induction a as [|c a IH]; intros [|c' a'];
    rewrite ?append_String, ?append_empty; cbn [hyphen_free].
  - done.
  - intros _ [Hc _]%andb_true_iff [= <-]. done.
  - intros [Hc _]%andb_true_iff _ [= ->]. done.
  - intros [_ Ha]%andb_true_iff [_ Ha']%andb_true_iff [= -> Heq].
    f_equal. by apply IH.
Qed.

Lemma generated_id_inj (rt : Runtime) (prefix : string) (i j : nat) :
  generated_id rt prefix i = generated_id rt prefix j → i = j.
Proof.
  unfold generated_id. intros Heq.
  apply append_inj_r in Heq. cbn in Heq. injection Heq as Heq.
  apply hyphen_split in Heq; try apply string_of_uint_hyphen_free.
  apply Number_toString_inj in Heq. lia.
Qed.

Lemma NoDup_imap_inj {A B} (f : nat → A → B) (l : list A) :
  (∀ i j x y, f i x = f j y → i = j) → NoDup (imap f l).
Proof.
  intros Hinj. apply NoDup_alt. intros i j b.
  rewrite !list_lookup_imap_Some. intros (x & _ & ->) (y & _ & Heq). eauto.
Qed.

Lemma suggestions_of_response_ids (rt : Runtime) (response : GenerateContentResponse.t)
    (result : list Suggestion.t) :
  suggestions_of_response rt response = Resolved result →
  NoDup (Suggestion.id <$> result).
Proof.
  unfold suggestions_of_response.
  destruct (response_text response) as [body|]; [|intros [= <-]; constructor].
  destruct (JSON_parse_suggestions rt body) as [data|]; intros [= <-]; [|constructor].
  rewrite fmap_imap. apply NoDup_imap_inj. intros i j x y. cbn.
  apply generated_id_inj.
Qed.

Lemma claims_of_response_ids (rt : Runtime) (response : GenerateContentResponse.t)
    (result : list VerificationResult.t) :
  claims_of_response rt response = Resolved result →
  NoDup (VerificationResult.id <$> result).
Proof.
  unfold claims_of_response.
  destruct (response_text response) as [body|]; [|intros [= <-]; constructor].
  destruct (JSON_parse_claims rt body) as [data|]; intros [= <-]; [|constructor].
  rewrite fmap_imap. apply NoDup_imap_inj. intros i j x y. cbn.
  apply generated_id_inj.
Qed.

Lemma checkGrammarAndStyle_ids (rt : Runtime) (text : string)
    (result : list Suggestion.t) :
  checkGrammarAndStyle rt text = Resolved result → NoDup (Suggestion.id <$> result).
Proof.
  unfold checkGrammarAndStyle, mbind, Outcome_bind.
  destruct (getAiClient rt) as [[]|]; [|done].
  destruct (generateContent rt _) as [response|]; [|done].
  apply suggestions_of_response_ids.
Qed.

(** The suggestions that [checkGrammarAndStyle] resolves with have ids
    that differ from one another, and so have the claims that
    [verifyTextClaims] resolves with, whatever the clock reads and
    whatever ids the service sent. *)
Theorem generated_ids_distinct (rt : Runtime) (text : string) :
  (∀ suggestions, checkGrammarAndStyle rt text = Resolved suggestions →
     NoDup (Suggestion.id <$> suggestions))
  ∧ (∀ claims, verifyTextClaims rt text = Resolved claims →
       NoDup (VerificationResult.id <$> claims)).
Proof.
  split.
  - apply checkGrammarAndStyle_ids.
  - intros claims. unfold verifyTextClaims, mbind, Outcome_bind.
    destruct (getAiClient rt) as [[]|]; [|done].
    destruct (generateContent rt _) as [response|]; [|done].
    apply claims_of_response_ids.
Qed.

Lemma generated_ids_distinct_witness :
  ∃ suggestions,
    checkGrammarAndStyle sample_runtime DEFAULT_TEXT = Resolved suggestions
    ∧ Suggestion.id <$> suggestions
        = ["suggestion-0-1700000000000"; "suggestion-1-1700000000000"]
    ∧ NoDup (Suggestion.id <$> suggestions).
Proof.
  eexists. split; [reflexivity|]. split; [reflexivity|].
  exact (proj1 (generated_ids_distinct sample_runtime DEFAULT_TEXT) _ eq_refl).
Defined.

(** ** The excerpts sent for the sources and for the AI detection *)

Lemma JS_substring_0 (s : string) (n : nat) :
  JS.substring s 0 n = String.substring 0 n s.
Proof. unfold JS.substring. cbn. by rewrite Nat.sub_0_r. Qed.

Lemma substring_0_prefix (s : string) (n : nat) :
  (∃ rest, s = String.substring 0 n s +:+ rest)
  ∧ String.length (String.substring 0 n s) = n `min` String.length s.
Proof.
  revert n. induction s as [|c s IH]; intros [|n]; cbn.
  - split; [by exists ""|done].
  - split; [by exists ""|done].
  - split; [by eexists|done].
  - destruct (IH n) as [[rest Hrest] Hlen]. split; [|by rewrite Hlen].
    exists rest. by rewrite append_String, <- Hrest.
Qed.

Lemma substring_0_idemp (s : string) (n : nat) :
  String.substring 0 n (String.substring 0 n s) = String.substring 0 n s.
Proof.
  revert n. induction s as [|c s IH]; intros [|n]; cbn; try done.
  by rewrite IH.
Qed.

(** [verifySources] reads the first 1000 code units of the text and
    [detectAIContent] the first 2000: the excerpt is the text cut at
    that length (the whole text when it is shorter), and each operation
    settles on the text as it settles on the excerpt. *)
Theorem gateway_reads_excerpt (rt : Runtime) (text : string) :
  let excerpt n := JS.substring text 0 n in
  (∀ n, (∃ rest, text = excerpt n +:+ rest)
        ∧ String.length (excerpt n) = n `min` String.length text)
  ∧ verifySources rt text = verifySources rt (excerpt 1000)
  ∧ detectAIContent rt text = detectAIContent rt (excerpt 2000).
Proof.
  intros excerpt. subst excerpt. cbv beta. split; [|split].
  - intros n. rewrite JS_substring_0. apply substring_0_prefix.
  - unfold verifySources. by rewrite !JS_substring_0, substring_0_idemp.
  - unfold detectAIContent. by rewrite !JS_substring_0, substring_0_idemp.
Qed.

(** ** The sources of a response *)

Lemma uniqueSources_sublist (sources : list SourceMatch.t) :
  uniqueSources sources `sublist_of` sources.
Proof. rewrite uniqueSources_first_seen. apply first_seen_sublist. Qed.

Lemma or_else_truthy (a : option string) (b : string) :
  b ≠ "" → JS.or_else a b ≠ "".
Proof.
  intros Hb. unfold JS.or_else. destruct a as [s|]; [|done].
  destruct (JS.truthy s) eqn:Hs; [by apply truthy_spec|done].
Qed.

(** Every source that [verifySources] makes of a response comes from a
    chunk of its grounding metadata that has a web part: it has the uri
    of the chunk, a title that is not empty (the title of the chunk, or
    External Source when the chunk has none or an empty one) and no
    snippet.  A response without grounding chunks gives no source. *)
Theorem sources_of_response_from_chunks (response : GenerateContentResponse.t) :
  (GenerateContentResponse.groundingChunks response = None →
   sources_of_response response = [])
  ∧ ∀ v, v ∈ sources_of_response response →
      SourceMatch.title v ≠ ""
      ∧ SourceMatch.snippet v = None
      ∧ ∃ groundingChunks web,
          GenerateContentResponse.groundingChunks response = Some groundingChunks
          ∧ GroundingChunk.mk (Some web) ∈ groundingChunks
          ∧ SourceMatch.url v = GroundingChunkWeb.uri web
          ∧ SourceMatch.title v
              = JS.or_else (GroundingChunkWeb.title web) "External Source".
Proof.
  unfold sources_of_response. split; [by intros ->|].
  intros v Hv. eapply elem_of_sublist in Hv; [|apply uniqueSources_sublist].
  destruct (GenerateContentResponse.groundingChunks response) as [chunks|];
    [|by apply elem_of_nil in Hv].
  unfold collect_sources in Hv. apply list_elem_of_omap in Hv as ([web] & Hin & Hv).
  destruct web as [web|]; [|done]. cbn in Hv. injection Hv as <-. cbn.
  split; [by apply or_else_truthy|]. split; [done|]. by exists chunks, web.
Qed.

Lemma first_seen_stable (seen : gset string) (sources : list SourceMatch.t) :
  NoDup (SourceMatch.url <$> sources) →
  (∀ u, u ∈ (SourceMatch.url <$> sources) → u ∉ seen) →
  first_seen seen sources = sources.
Proof.
  revert seen. induction sources as [|v rest IH]; intros seen; [done|].
  rewrite fmap_cons. intros [Hv Hrest]%NoDup_cons Hseen. cbn [first_seen].
  rewrite decide_False by (apply Hseen; left).
  f_equal. apply IH; [done|]. intros u Hu.
  assert (u ≠ SourceMatch.url v) by (by intros ->).
  assert (u ∉ seen) by (apply Hseen; by right). set_solver.
Qed.

(** [uniqueSources] changes nothing in a list whose urls differ from one
    another, and so nothing in a list it has been through. *)
Theorem uniqueSources_stable (sources : list SourceMatch.t) :
  (NoDup (SourceMatch.url <$> sources) → uniqueSources sources = sources)
  ∧ uniqueSources (uniqueSources sources) = uniqueSources sources.
Proof.
  assert (∀ l, NoDup (SourceMatch.url <$> l) → uniqueSources l = l) as Hstable.
  { intros l Hl. rewrite uniqueSources_first_seen. apply first_seen_stable; [done|].
    set_solver. }
  split; [apply Hstable|]. apply Hstable.
  rewrite uniqueSources_first_seen. apply first_seen_NoDup.
Qed.

Lemma uniqueSources_stable_witness :
  uniqueSources (uniqueSources (collect_sources sample_chunks))
    = uniqueSources (collect_sources sample_chunks)
  ∧ uniqueSources [ SourceMatch.mk "https://a.example/x" "First" None;
                    SourceMatch.mk "https://b.example/y" "External Source" None ]
    = [ SourceMatch.mk "https://a.example/x" "First" None;
        SourceMatch.mk "https://b.example/y" "External Source" None ].
Proof.
  split; [exact (proj2 (uniqueSources_stable (collect_sources sample_chunks)))|].
  apply (proj1 (uniqueSources_stable _)).
  apply NoDup_cons. split; [by intros [= ]%list_elem_of_singleton|].
  apply NoDup_singleton.
Defined.

(** * Further properties of the editor *)

(** ** Blank texts and the word count *)

Lemma trimStart_empty (s : string) :
  JS.trimStart s = "" ↔ all_whitespace s = true.
Proof.
  induction s as [|c s IH]; cbn; [done|].
  destruct (JS.isWhiteSpace c); cbn; [done|]. split; [done|by intros [=]].
Qed.

Lemma trimEnd_empty (s : string) :
  JS.trimEnd s = "" ↔ all_whitespace s = true.
Proof.
  induction s as [|c s IH]; cbn; [done|].
  destruct (JS.trimEnd s) as [|d t].
  - rewrite (proj1 IH eq_refl), andb_true_r.
    destruct (JS.isWhiteSpace c); split; done.
  - split; [done|]. intros [_ Hs]%andb_true_iff. by apply IH in Hs.
Qed.

Lemma trimStart_head (s : string) :
  JS.trimStart s = ""
  ∨ ∃ c t, JS.trimStart s = String c t ∧ JS.isWhiteSpace c = false.
Proof.
  induction s as [|c s IH]; cbn; [by left|].
  destruct (JS.isWhiteSpace c) eqn:Hc; [done|]. right. by exists c, s.
Qed.

Lemma trim_empty (s : string) : JS.trim s = "" ↔ all_whitespace s = true.
Proof.
  unfold JS.trim. rewrite trimEnd_empty. split.
  - intros Hall. apply trimStart_empty.
    destruct (trimStart_head s) as [|(c & t & Heq & Hc)]; [done|].
    rewrite Heq in Hall. cbn in Hall. by rewrite Hc in Hall.
  - intros Hall%trimStart_empty. by rewrite Hall.
Qed.

Lemma count_words_whitespace (inWord : bool) (s : string) :
  all_whitespace s = true → count_words inWord s = 0.
Proof.
  revert inWord. induction s as [|c s IH]; intros inWord; cbn; [done|].
  intros [-> Hs]%andb_true_iff. by apply IH.
Qed.

Lemma count_words_zero (s : string) :
  count_words false s = 0 ↔ all_whitespace s = true.
Proof.
  induction s as [|c s IH]; cbn; [done|].
  destruct (JS.isWhiteSpace c); cbn; [done|]. split; [lia|done].
Qed.

Lemma count_words_trimStart (s : string) :
  count_words false (JS.trimStart s) = count_words false s.
Proof.
  induction s as [|c s IH]; cbn; [done|].
  destruct (JS.isWhiteSpace c) eqn:Hc; [done|]. cbn. by rewrite Hc.
Qed.

Lemma count_words_trimEnd (inWord : bool) (s : string) :
  count_words inWord (JS.trimEnd s) = count_words inWord s.
Proof.
  revert inWord. induction s as [|c s IH]; intros inWord; cbn [JS.trimEnd]; [done|].
  destruct (JS.trimEnd s) as [|d t] eqn:Ht.
  - apply trimEnd_empty in Ht.
    destruct (JS.isWhiteSpace c) eqn:Hc; cbn; rewrite Hc.
    + by rewrite count_words_whitespace.
    + by rewrite count_words_whitespace.
  - cbn [count_words]. destruct (JS.isWhiteSpace c); by rewrite <- IH.
Qed.

(** The pieces of [split_whitespace] that are not empty, counted. *)
Lemma split_whitespace_count (s : string) :
  (∀ inRun, length (filter (λ w, 0 < String.length w) (split_whitespace inRun s))
            = count_words false s)
  ∧ length (filter (λ w, 0 < String.length w) (tail (split_whitespace false s)))
    = count_words true s
  ∧ split_whitespace false s ≠ [].
Proof.
  induction s as [|c s (IHrun & IHtail & IHne)]; [done|].
  cbn [split_whitespace count_words].
  destruct (JS.isWhiteSpace c).
  - split; [|split; [|done]].
    + intros [|]; [apply IHrun|].
      rewrite filter_cons_False by (cbn; lia). apply IHrun.
    + cbn [tail]. apply IHrun.
  - destruct (split_whitespace false s) as [|p ps]; [done|]. cbn [tail] in IHtail.
    split; [|split; [|done]].
    + intros _. rewrite filter_cons_True by (cbn; lia). cbn [length]. by rewrite IHtail.
    + cbn [tail]. by rewrite IHtail.
Qed.

(** The number of words shown in the toolbar is the number of maximal
    runs of code units of the text that are not white space. *)
Theorem wordCount_counts_words (text : string) :
  wordCount text = count_words false text.
Proof.
  unfold wordCount. rewrite (proj1 (split_whitespace_count _)).
  unfold JS.trim. by rewrite count_words_trimEnd, count_words_trimStart.
Qed.

(** The toolbar shows 0 words exactly when the text is blank, which is
    when [runAnalysis] returns at once: with no analysis running and no
    upload pending, Full Scan is disabled exactly for the texts that
    count 0 words. *)
Theorem wordCount_zero_iff_blank (s : Session) :
  let text := DocumentState.text (doc s) in
  (wordCount text = 0 ↔ JS.trim text = "")
  ∧ (wordCount text = 0 ↔ all_whitespace text = true)
  ∧ (fullScanDisabled s = true
     ↔ AnalysisState.isAnalyzing (analysis s) = true
       ∨ wordCount text = 0
       ∨ isUploading s = true).
Proof.
  intros text.
  assert (wordCount text = 0 ↔ JS.trim text = "") as Hzero.
  { unfold wordCount. rewrite (proj1 (split_whitespace_count _)).
    unfold JS.trim at 1. rewrite count_words_trimEnd, count_words_trimStart.
    rewrite count_words_zero. symmetry. apply trim_empty. }
  split; [done|]. split; [by rewrite Hzero, trim_empty|].
  unfold fullScanDisabled. fold text.
  rewrite !orb_true_iff, negb_true_iff, not_truthy_spec, Hzero. tauto.
Qed.

(** ** The handlers, case by case *)

Lemma route_tab_world suggestions sources aiDetection (w : World) :
  ∃ more,
    snd (route_tab suggestions sources aiDetection w) =
      {| session :=
           {| doc := doc (session w); selectedText := selectedText (session w);
              activeTab := routed_tab suggestions sources aiDetection
                             (activeTab (session w));
              analysis := analysis (session w);
              isUploading := isUploading (session w) |};
         trace := trace w ++ more |}
    ∧ calls more = [].
Proof.
  unfold route_tab, routed_tab.
  destruct (Number_gt _ _); [by eexists [_]|].
  destruct (bool_decide (0 < length suggestions)); [by eexists [_]|].
  destruct (bool_decide (0 < length sources)); [by eexists [_]|].
  exists []. rewrite app_nil_r. by destruct w as [[]].
Qed.

Lemma calls_app (l k : list Event) : calls (l ++ k) = (calls l ++ calls k)%list.
Proof. unfold calls. apply omap_app. Qed.

Lemma runAnalysis_session (rt : Runtime) (s : Session) :
  let text := DocumentState.text (doc s) in
  session (run (runAnalysis rt) s) =
    if all_whitespace text then s
    else
      match scan_outcome rt text with
      | Resolved (suggestions, sources, summary, aiDetection) =>
          {| doc := doc s; selectedText := selectedText s;
             activeTab := routed_tab suggestions sources aiDetection (activeTab s);
             analysis := scan_succeeded suggestions sources summary aiDetection;
             isUploading := isUploading s |}
      | Rejected _ =>
          {| doc := doc s; selectedText := selectedText s; activeTab := activeTab s;
             analysis := scan_failed (scan_started (analysis s));
             isUploading := isUploading s |}
      end.
Proof.
  intros text. destruct (all_whitespace text) eqn:Hblank.
  - apply trim_empty in Hblank. unfold runAnalysis. run_handler.
    fold text. by rewrite Hblank.
  - rewrite runAnalysis_settled
      by (fold text; rewrite trim_empty; by rewrite Hblank).
    cbv zeta. fold text. unfold scan_outcome.
    destruct (Promise_all4 _ _ _ _)
      as [[[[suggestions sources] summary] aiDetection]|]; [|done].
    match goal with
    | |- context [route_tab ?a ?b ?c ?w] =>
        destruct (route_tab_world a b c w) as (more & -> & _)
    end.
    done.
Qed.

Lemma runAnalysis_trace_calls (rt : Runtime) (s : Session) :
  let text := DocumentState.text (doc s) in
  calls (trace (run (runAnalysis rt) s)) =
    if all_whitespace text then []
    else [ CallCheckGrammarAndStyle text; CallVerifySources text;
           CallGenerateSummary text; CallDetectAIContent text ].
Proof.
  intros text. destruct (all_whitespace text) eqn:Hblank.
  - apply trim_empty in Hblank. unfold runAnalysis. run_handler.
    fold text. by rewrite Hblank.
  - rewrite runAnalysis_settled
      by (fold text; rewrite trim_empty; by rewrite Hblank).
    cbv zeta. fold text.
    destruct (Promise_all4 _ _ _ _)
      as [[[[suggestions sources] summary] aiDetection]|]; [|done].
    match goal with
    | |- context [route_tab ?a ?b ?c ?w] =>
        destruct (route_tab_world a b c w) as (more & -> & Hmore)
    end.
    cbn [trace]. by rewrite calls_app, Hmore.
Qed.

Lemma verifySelection_session (rt : Runtime) (s : Session) :
  session (run (verifySelection rt) s) =
    if JS.truthy (selectedText s) then
      {| doc := doc s; selectedText := selectedText s; activeTab := SOURCES;
         analysis :=
           match verifyTextClaims rt (selectedText s) with
           | Resolved claims => verify_succeeded claims (verify_started (analysis s))
           | Rejected _ => verify_failed (verify_started (analysis s))
           end;
         isUploading := isUploading s |}
    else s.
Proof.
  unfold verifySelection. run_handler.
  destruct (JS.truthy (selectedText s)); [|done]. cbn [negb]. run_handler.
  by destruct (verifyTextClaims rt (selectedText s)).
Qed.

Lemma handleFileUpload_world (rt : Runtime) (picked : option File.t) (s : Session) :
  let uploading b :=
    {| doc := doc s; selectedText := selectedText s; activeTab := activeTab s;
       analysis := analysis s; isUploading := b |} in
  ∃ events,
    trace (run (handleFileUpload rt picked) s) = events
    ∧ match picked with
      | None => session (run (handleFileUpload rt picked) s) = s ∧ events = []
      | Some file =>
          match File.readAsDataURL file with
          | ReadThrows _ =>
              session (run (handleFileUpload rt picked) s) =
                {| doc := doc s; selectedText := selectedText s;
                   activeTab := activeTab s;
                   analysis := with_error upload_failed (analysis s);
                   isUploading := false |}
              ∧ calls events = []
          | ReadNeverLoads =>
              session (run (handleFileUpload rt picked) s) = uploading true
              ∧ events = [StateSet (uploading true)]
          | ReadLoads result =>
              match base64_of_dataURL result with
              | None =>
                  session (run (handleFileUpload rt picked) s) = uploading true
                  ∧ events = [StateSet (uploading true)]
              | Some base64String =>
                  session (run (handleFileUpload rt picked) s) =
                    match extractTextFromFile rt base64String (File.type file) with
                    | Resolved extractedText =>
                        {| doc := DocumentState.mk extractedText (File.name file);
                           selectedText := selectedText s; activeTab := activeTab s;
                           analysis := initialAnalysis; isUploading := false |}
                    | Rejected _ =>
                        {| doc := doc s; selectedText := selectedText s;
                           activeTab := activeTab s;
                           analysis := with_error read_failed (analysis s);
                           isUploading := false |}
                    end
                  ∧ calls events
                    = [CallExtractTextFromFile base64String (File.type file)]
                  ∧ last events = Some FileInputCleared
              end
          end
      end.
Proof.
  intros uploading. subst uploading. eexists. split; [reflexivity|].
  destruct picked as [file|]; [|done].
  unfold handleFileUpload.
  destruct (File.readAsDataURL file) as [reason|result|]; [done| |done].
  unfold onload. destruct (base64_of_dataURL result) as [base64String|]; [|done].
  run_handler.
  by destruct (extractTextFromFile rt base64String (File.type file)).
Qed.

Lemma not_blank (text : string) :
  JS.trim text ≠ "" ↔ all_whitespace text = false.
Proof. rewrite trim_empty. by destruct (all_whitespace text). Qed.

(** ** The full scan *)

(** A full scan either does nothing at all, which it does exactly for the
    texts that are blank, or invokes the four operations, in the order
    grammar, sources, summary, AI detection, each on the whole text:
    none is skipped because another one rejects. *)
Theorem runAnalysis_all_or_nothing (rt : Runtime) (s : Session) :
  let text := DocumentState.text (doc s) in
  let w := run (runAnalysis rt) s in
  (w = {| session := s; trace := [] |} ↔ all_whitespace text = true)
  ∧ calls (trace w) =
      if all_whitespace text then []
      else [ CallCheckGrammarAndStyle text; CallVerifySources text;
             CallGenerateSummary text; CallDetectAIContent text ].
Proof.
  intros text w. subst w. split; [|apply runAnalysis_trace_calls].
  pose proof (runAnalysis_trace_calls rt s) as Hcalls. cbv zeta in Hcalls.
  fold text in Hcalls. destruct (all_whitespace text) eqn:Hblank.
  - split; [done|]. intros _. apply trim_empty in Hblank.
    unfold runAnalysis. run_handler. fold text. by rewrite Hblank.
  - split; [|done]. intros Hnoop. by rewrite Hnoop in Hcalls.
Qed.

(** A scan of a text that is not blank is its first update followed,
    for a detection that is a record, by [scan_settled]. *)
Lemma runAnalysis_scan_settled (rt : Runtime) (s : Session) :
  let text := DocumentState.text (doc s) in
  let started :=
    {| doc := doc s; selectedText := selectedText s; activeTab := activeTab s;
       analysis := scan_started (analysis s); isUploading := isUploading s |} in
  JS.trim text ≠ "" →
  session (run (runAnalysis rt) s)
    = session (run (scan_settled (with_record (scan_outcome rt text))) started).
Proof.
  intros text started Hdoc%not_blank. subst started.
  rewrite runAnalysis_session. cbv zeta. fold text. rewrite Hdoc.
  destruct (scan_outcome rt text)
    as [[[[suggestions sources] summary] aiDetection]|]; [|done].
  cbn [with_record scan_settled]. do 2 run_handler. cbn -[route_tab].
  match goal with
  | |- context [route_tab ?a ?b ?c ?w] =>
      destruct (route_tab_world a b c w) as (more & -> & _)
  end.
  done.
Qed.

(** Once the four operations of a full scan have resolved, the
    suggestions, the sources, the summary and the detection are stored,
    the claims are emptied and [isAnalyzing] is cleared; the document,
    the selection and the upload flag are those of before.  When the
    detection is a record, [error] is cleared and the tab routed.  When
    it is [null], which is what [detectAIContent] resolves with for the
    body [null], reading its score throws after the results were stored
    and the scan ends in [catch]: [error] is the message of the failed
    analysis and the tab is the one of before.  A scan of a text that is
    not blank whose operations resolve at their declared types is the
    first case. *)
Theorem runAnalysis_success_replaces_results (rt : Runtime) (s : Session)
    (suggestions : list Suggestion.t) (sources : list SourceMatch.t)
    (summary : string) (aiDetection : option AiDetectionResult.t) :
  let text := DocumentState.text (doc s) in
  let started :=
    {| doc := doc s; selectedText := selectedText s; activeTab := activeTab s;
       analysis := scan_started (analysis s); isUploading := isUploading s |} in
  let after :=
    session (run (scan_settled (Resolved (suggestions, sources, summary, aiDetection)))
               started) in
  AnalysisState.suggestions (analysis after) = suggestions
  ∧ AnalysisState.sources (analysis after) = sources
  ∧ AnalysisState.summary (analysis after) = Some summary
  ∧ AnalysisState.aiDetection (analysis after) = aiDetection
  ∧ AnalysisState.claimVerification (analysis after) = []
  ∧ AnalysisState.isAnalyzing (analysis after) = false
  ∧ doc after = doc s
  ∧ selectedText after = selectedText s
  ∧ isUploading after = isUploading s
  ∧ match aiDetection with
    | Some record =>
        AnalysisState.error (analysis after) = None
        ∧ activeTab after = routed_tab suggestions sources record (activeTab s)
    | None =>
        AnalysisState.error (analysis after) = Some analysis_failed
        ∧ activeTab after = activeTab s
    end
  ∧ ∀ record,
      aiDetection = Some record →
      JS.trim text ≠ "" →
      checkGrammarAndStyle rt text = Resolved suggestions →
      verifySources rt text = Resolved sources →
      generateSummary rt text = Resolved summary →
      detectAIContent rt text = Resolved record →
      session (run (runAnalysis rt) s) = after.
Proof.
  intros text started after.
  assert (∀ record,
            aiDetection = Some record →
            JS.trim text ≠ "" →
            checkGrammarAndStyle rt text = Resolved suggestions →
            verifySources rt text = Resolved sources →
            generateSummary rt text = Resolved summary →
            detectAIContent rt text = Resolved record →
            session (run (runAnalysis rt) s) = after) as Hscan.
  { intros record -> Hdoc Hgrammar Hsources Hsummary Hdetect. subst after started.
    rewrite runAnalysis_scan_settled by done. fold text. unfold scan_outcome.
    by rewrite (Promise_all4_resolved _ _ _ _ _ _ _ _ Hgrammar Hsources Hsummary Hdetect). }
  revert Hscan. subst after started. destruct aiDetection as [record|].
  - cbn [scan_settled]. do 2 run_handler. cbn -[route_tab].
    match goal with
    | |- context [route_tab ?a ?b ?c ?w] =>
        destruct (route_tab_world a b c w) as (more & -> & _)
    end.
    cbn. intros Hscan. split_and!; first [done | exact Hscan].
  - intros _. cbn [scan_settled]. do 2 run_handler. cbn.
    split_and!; first [done | by intros ? [=]].
Qed.

Lemma runAnalysis_success_replaces_results_witness :
  let scanned := session (run (runAnalysis sample_runtime) busy_session) in
  let started :=
    {| doc := doc busy_session; selectedText := selectedText busy_session;
       activeTab := activeTab busy_session;
       analysis := scan_started (analysis busy_session);
       isUploading := isUploading busy_session |} in
  let without_record :=
    session (run (scan_settled (Resolved ([], [], "A study of user behavior.", None)))
               started) in
  detectAIContent sample_runtime (DocumentState.text (doc busy_session))
    = Resolved sample_detection
  ∧ length (AnalysisState.suggestions (analysis scanned)) = 2
  ∧ length (AnalysisState.sources (analysis scanned)) = 2
  ∧ AnalysisState.claimVerification (analysis scanned) = []
  ∧ AnalysisState.aiDetection (analysis scanned) = Some sample_detection
  ∧ AnalysisState.error (analysis scanned) = None
  ∧ AnalysisState.summary (analysis without_record)
    = Some "A study of user behavior."
  ∧ AnalysisState.aiDetection (analysis without_record) = None
  ∧ AnalysisState.error (analysis without_record) = Some analysis_failed
  ∧ activeTab without_record = activeTab busy_session.
Proof.
  split; [reflexivity|].
  destruct (runAnalysis_success_replaces_results sample_runtime busy_session
              (AnalysisState.suggestions
                 (analysis (session (run (runAnalysis sample_runtime) busy_session))))
              (AnalysisState.sources
                 (analysis (session (run (runAnalysis sample_runtime) busy_session))))
              "A study of user behavior." (Some sample_detection))
    as (_ & _ & _ & Hdetection & Hclaims & _ & _ & _ & _ & [Herror _] & Hscan).
  destruct (runAnalysis_success_replaces_results sample_runtime busy_session
              [] [] "A study of user behavior." None)
    as (_ & _ & Hsummary & Hnull & _ & _ & _ & _ & _ & [Hfailed Htab] & _).
  rewrite (Hscan sample_detection eq_refl); [|vm_compute; discriminate|reflexivity..].
  split; [reflexivity|]. split; [reflexivity|]. split; [exact Hclaims|].
  split; [exact Hdetection|]. split; [exact Herror|].
  split; [exact Hsummary|]. split; [exact Hnull|]. split; [exact Hfailed|exact Htab].
Defined.

(** A full scan that fails keeps the suggestions, the sources, the
    summary and the AI detection, but not the claims of an earlier
    verification of a selection: they were emptied when the scan
    started, and [catch] restores nothing. *)
Theorem runAnalysis_failure_loses_claims (rt : Runtime) (s : Session) :
  let text := DocumentState.text (doc s) in
  let after := session (run (runAnalysis rt) s) in
  JS.trim text ≠ "" →
  isRejected (checkGrammarAndStyle rt text) ∨ isRejected (verifySources rt text)
    ∨ isRejected (generateSummary rt text) ∨ isRejected (detectAIContent rt text) →
  AnalysisState.claimVerification (analysis after) = []
  ∧ doc after = doc s
  ∧ selectedText after = selectedText s
  ∧ activeTab after = activeTab s
  ∧ isUploading after = isUploading s.
Proof.
  intros text after Hdoc%not_blank Hfail. subst after.
  rewrite runAnalysis_session. cbv zeta. fold text. rewrite Hdoc.
  unfold scan_outcome.
  by destruct (Promise_all4_rejected _ _ _ _ Hfail) as [reason ->].
Qed.

Lemma runAnalysis_failure_loses_claims_witness :
  let after := session (run (runAnalysis flaky_runtime) busy_session) in
  length (AnalysisState.claimVerification (analysis busy_session)) = 1
  ∧ AnalysisState.claimVerification (analysis after) = []
  ∧ doc after = doc busy_session
  ∧ selectedText after = selectedText busy_session
  ∧ activeTab after = activeTab busy_session
  ∧ isUploading after = isUploading busy_session.
Proof.
  split; [reflexivity|].
  apply (runAnalysis_failure_loses_claims flaky_runtime busy_session).
  - vm_compute. discriminate.
  - right. right. left. vm_compute. exact I.
Defined.

(** With no key in the environment the three actions that reach the
    service end with their own fixed message and nothing else: a full
    scan of a text that is not blank with the message of the analysis, a
    verification of a selection with the message of the selection, the
    upload of a file that has a payload with the message about reading
    the document. *)
Theorem missing_key_messages (rt : Runtime) (s : Session) (file : File.t)
    (result base64String : string) :
  API_KEY rt = None ∨ API_KEY rt = Some "" →
  (JS.trim (DocumentState.text (doc s)) ≠ "" →
   AnalysisState.error (analysis (session (run (runAnalysis rt) s)))
     = Some analysis_failed)
  ∧ (selectedText s ≠ "" →
     AnalysisState.error (analysis (session (run (verifySelection rt) s)))
       = Some selection_failed)
  ∧ (File.readAsDataURL file = ReadLoads result →
     base64_of_dataURL result = Some base64String →
     AnalysisState.error
       (analysis (session (run (handleFileUpload rt (Some file)) s)))
       = Some read_failed).
Proof.
  intros Hkey%getAiClient_without_key. split; [|split].
  - intros Hdoc%not_blank. rewrite runAnalysis_session. cbv zeta. rewrite Hdoc.
    unfold scan_outcome, checkGrammarAndStyle, mbind, Outcome_bind at 1.
    by rewrite Hkey.
  - intros Hsel%truthy_spec. rewrite verifySelection_session, Hsel.
    unfold verifyTextClaims, mbind, Outcome_bind. by rewrite Hkey.
  - intros Hread Hdata.
    destruct (handleFileUpload_world rt (Some file) s) as (events & _ & Hcases).
    rewrite Hread, Hdata in Hcases. destruct Hcases as (-> & _).
    unfold extractTextFromFile, mbind, Outcome_bind. by rewrite Hkey.
Qed.

Lemma missing_key_messages_witness :
  AnalysisState.error (analysis (session (run (runAnalysis keyless_runtime) busy_session)))
    = Some analysis_failed
  ∧ AnalysisState.error
      (analysis (session (run (verifySelection keyless_runtime) busy_session)))
    = Some selection_failed
  ∧ AnalysisState.error
      (analysis (session (run (handleFileUpload keyless_runtime (Some sample_file))
                            busy_session)))
    = Some read_failed.
Proof.
  destruct (missing_key_messages keyless_runtime busy_session sample_file
              "data:text/plain;base64,SGVsbG8=" "SGVsbG8=" (or_introl eq_refl))
    as (Hscan & Hverify & Hupload).
  split; [apply Hscan; vm_compute; discriminate|].
  split; [apply Hverify; vm_compute; discriminate|].
  by apply Hupload.
Defined.

(** ** Uploads *)

(** When the reader throws, the upload ends with the message about the
    upload in [error] and [isUploading] false; no operation of the
    gateway is invoked, and the document and the results are those of
    before. *)
Theorem handleFileUpload_read_throws (rt : Runtime) (s : Session) (file : File.t)
    (reason : string) :
  let w := run (handleFileUpload rt (Some file)) s in
  File.readAsDataURL file = ReadThrows reason →
  session w
    = {| doc := doc s; selectedText := selectedText s; activeTab := activeTab s;
         analysis :=
           AnalysisState.mk (AnalysisState.isAnalyzing (analysis s))
             (AnalysisState.suggestions (analysis s))
             (AnalysisState.sources (analysis s))
             (AnalysisState.claimVerification (analysis s))
             (AnalysisState.summary (analysis s))
             (AnalysisState.aiDetection (analysis s))
             (Some upload_failed);
         isUploading := false |}
  ∧ calls (trace w) = [].
Proof.
  intros w Hread. subst w.
  destruct (handleFileUpload_world rt (Some file) s) as (events & -> & Hcases).
  by rewrite Hread in Hcases.
Qed.

Lemma handleFileUpload_read_throws_witness :
  let w := run (handleFileUpload sample_runtime (Some unreadable_file)) busy_session in
  AnalysisState.error (analysis (session w)) = Some "Failed to upload file."
  ∧ isUploading (session w) = false
  ∧ calls (trace w) = [].
Proof.
  destruct (handleFileUpload_read_throws sample_runtime busy_session unreadable_file
              "NotReadableError" eq_refl) as [Hsession Hcalls].
  cbv zeta. by rewrite Hsession, Hcalls.
Defined.

(** When the file loads but its data URL holds nothing after the first
    comma (or no comma), and when the reader never calls [onload], the
    upload sets [isUploading] and does nothing more: no operation of the
    gateway is invoked, the file input is not cleared and [isUploading]
    is left true. *)
Theorem handleFileUpload_without_payload (rt : Runtime) (s : Session) (file : File.t) :
  let w := run (handleFileUpload rt (Some file)) s in
  let uploading :=
    {| doc := doc s; selectedText := selectedText s; activeTab := activeTab s;
       analysis := analysis s; isUploading := true |} in
  File.readAsDataURL file = ReadNeverLoads
  ∨ (∃ result, File.readAsDataURL file = ReadLoads result
               ∧ base64_of_dataURL result = None) →
  w = {| session := uploading; trace := [StateSet uploading] |}.
Proof.
  intros w uploading Hfile. subst w uploading.
  destruct (handleFileUpload_world rt (Some file) s) as (events & Htrace & Hcases).
  destruct (run (handleFileUpload rt (Some file)) s) as [after events'].
  cbn [session trace] in *. subst events'.
  destruct Hfile as [Hread|(result & Hread & Hdata)]; rewrite Hread in Hcases.
  - by destruct Hcases as [-> ->].
  - rewrite Hdata in Hcases. by destruct Hcases as [-> ->].
Qed.

Lemma handleFileUpload_without_payload_witness :
  base64_of_dataURL "data:text/plain;base64," = None
  ∧ isUploading (session (run (handleFileUpload sample_runtime (Some empty_file))
                            initialSession)) = true
  ∧ length (trace (run (handleFileUpload sample_runtime (Some empty_file))
                     initialSession)) = 1.
Proof.
  split; [reflexivity|].
  rewrite (handleFileUpload_without_payload sample_runtime initialSession empty_file).
  - by split.
  - right. by exists "data:text/plain;base64,".
Defined.

(** When the file loads with a payload, the upload invokes the
    transcription once, on that payload and the type of the file, and
    whatever the transcription settles with it ends with [isUploading]
    false and the file input cleared. *)
Theorem handleFileUpload_finally (rt : Runtime) (s : Session) (file : File.t)
    (result base64String : string) :
  let w := run (handleFileUpload rt (Some file)) s in
  File.readAsDataURL file = ReadLoads result →
  base64_of_dataURL result = Some base64String →
  calls (trace w) = [CallExtractTextFromFile base64String (File.type file)]
  ∧ last (trace w) = Some FileInputCleared
  ∧ isUploading (session w) = false.
Proof.
  intros w Hread Hdata. subst w.
  destruct (handleFileUpload_world rt (Some file) s) as (events & -> & Hcases).
  rewrite Hread, Hdata in Hcases. destruct Hcases as (-> & Hcalls & Hlast).
  split; [done|]. split; [done|].
  by destruct (extractTextFromFile rt base64String (File.type file)).
Qed.

Lemma handleFileUpload_finally_witness :
  let w := run (handleFileUpload keyless_runtime (Some sample_file)) busy_session in
  calls (trace w) = [CallExtractTextFromFile "SGVsbG8=" "text/plain"]
  ∧ last (trace w) = Some FileInputCleared
  ∧ isUploading (session w) = false.
Proof.
  apply (handleFileUpload_finally keyless_runtime busy_session sample_file
           "data:text/plain;base64,SGVsbG8=" "SGVsbG8="); reflexivity.
Defined.

(** When the service answers the transcription with no text, the upload
    still counts as a success: the document becomes the empty text under
    the name of the file, no error is set, and Full Scan is disabled. *)
Theorem handleFileUpload_empty_transcription (rt : Runtime) (s : Session)
    (file : File.t) (result base64String : string)
    (response : GenerateContentResponse.t) :
  let after := session (run (handleFileUpload rt (Some file)) s) in
  File.readAsDataURL file = ReadLoads result →
  base64_of_dataURL result = Some base64String →
  getAiClient rt = Resolved tt →
  generateContent rt (TranscriptionRequest base64String (File.type file))
    = Resolved response →
  GenerateContentResponse.text response = None
  ∨ GenerateContentResponse.text response = Some "" →
  doc after = DocumentState.mk "" (File.name file)
  ∧ AnalysisState.error (analysis after) = None
  ∧ wordCount (DocumentState.text (doc after)) = 0
  ∧ fullScanDisabled after = true.
Proof.
  intros after Hread Hdata Hclient Hresponse Htext. subst after.
  destruct (handleFileUpload_world rt (Some file) s) as (events & _ & Hcases).
  rewrite Hread, Hdata in Hcases. destruct Hcases as (-> & _).
  unfold extractTextFromFile, mbind, Outcome_bind. rewrite Hclient, Hresponse.
  assert (JS.or_else (GenerateContentResponse.text response) "" = "") as ->
    by (by destruct Htext as [-> | ->]).
  by repeat split.
Qed.

Lemma handleFileUpload_empty_transcription_witness :
  let after := session (run (handleFileUpload silent_runtime (Some sample_file))
                          busy_session) in
  doc after = DocumentState.mk "" "notes.txt"
  ∧ AnalysisState.error (analysis after) = None
  ∧ wordCount (DocumentState.text (doc after)) = 0
  ∧ fullScanDisabled after = true.
Proof.
  apply (handleFileUpload_empty_transcription silent_runtime busy_session sample_file
           "data:text/plain;base64,SGVsbG8=" "SGVsbG8="
           (GenerateContentResponse.mk None None)); try reflexivity.
  by left.
Defined.

(** ** One action *)

Lemma Promise_all4_inv {A B C D}
    (a : Outcome A) (b : Outcome B) (c : Outcome C) (d : Outcome D) x y z u :
  Promise_all4 a b c d = Resolved (x, y, z, u) →
  a = Resolved x ∧ b = Resolved y ∧ c = Resolved z ∧ d = Resolved u.
Proof. destruct a, b, c, d; cbn; intros [=]; by subst. Qed.

Lemma verifySources_distinct (rt : Runtime) (text : string)
    (sources : list SourceMatch.t) :
  verifySources rt text = Resolved sources →
  NoDup (SourceMatch.url <$> sources)
  ∧ Forall (λ v, SourceMatch.title v ≠ "") sources.
Proof.
  intros (_ & response & _ & ->)%verifySources_resolved.
  unfold sources_of_response. rewrite uniqueSources_first_seen.
  split; [apply first_seen_NoDup|].
  apply Forall_forall. intros v Hv.
  eapply elem_of_sublist in Hv; [|apply first_seen_sublist].
  destruct (GenerateContentResponse.groundingChunks response) as [chunks|];
    [|by apply elem_of_nil in Hv].
  unfold collect_sources in Hv. apply list_elem_of_omap in Hv as ([web] & _ & Hv).
  destruct web as [web|]; [|done]. cbn in Hv. injection Hv as <-. cbn.
  by apply or_else_truthy.
Qed.

Lemma verifyTextClaims_ids (rt : Runtime) (text : string)
    (claims : list VerificationResult.t) :
  verifyTextClaims rt text = Resolved claims →
  NoDup (VerificationResult.id <$> claims).
Proof.
  unfold verifyTextClaims, mbind, Outcome_bind.
  destruct (getAiClient rt) as [[]|]; [|done].
  destruct (generateContent rt _) as [response|]; [|done].
  apply claims_of_response_ids.
Qed.

Lemma generateSummary_nonempty (rt : Runtime) (text summary : string) :
  generateSummary rt text = Resolved summary → summary ≠ "".
Proof.
  unfold generateSummary, mbind, Outcome_bind.
  destruct (getAiClient rt) as [[]|]; [|done].
  destruct (generateContent rt _) as [response|]; [|done].
  intros [= <-]. by apply or_else_truthy.
Qed.

Lemma handle_Edit (rt : Runtime) (value : string) (s : Session) :
  session (run (handle rt (Edit value)) s) =
    {| doc := DocumentState.mk value (DocumentState.title (doc s));
       selectedText := selectedText s; activeTab := activeTab s;
       analysis := analysis s; isUploading := isUploading s |}.
Proof. reflexivity. Qed.

Lemma handle_SelectRange (rt : Runtime) (i j : nat) (s : Session) :
  session (run (handle rt (SelectRange i j)) s) =
    {| doc := doc s;
       selectedText :=
         if bool_decide (i ≠ j) then JS.substring (DocumentState.text (doc s)) i j
         else "";
       activeTab := activeTab s; analysis := analysis s;
       isUploading := isUploading s |}.
Proof.
  unfold handle, handleSelect. run_handler.
  by destruct (bool_decide (i ≠ j)).
Qed.

Lemma handle_ClickTab (rt : Runtime) (tab : AnalysisType) (s : Session) :
  session (run (handle rt (ClickTab tab)) s) =
    {| doc := doc s; selectedText := selectedText s; activeTab := tab;
       analysis := analysis s; isUploading := isUploading s |}.
Proof. reflexivity. Qed.

Lemma NoDup_ids_filter (P : Suggestion.t → Prop) `{∀ x, Decision (P x)}
    (l : list Suggestion.t) :
  NoDup (Suggestion.id <$> l) → NoDup (Suggestion.id <$> filter P l).
Proof.
  intros Hl. eapply sublist_NoDup; [exact Hl|].
  apply fmap_sublist, sublist_filter.
Qed.

Ltac settle :=
  split; cbn; first [done | by constructor | set_solver | idtac].

Lemma settled_initial : settled initialSession.
Proof. settle. Qed.

Lemma settled_step (s s' : Session) : settled s → step s s' → settled s'.
Proof.
  intros [Htab Hidle Hsug Hsrc Htitle Hclaims Hsum Herr] [rt a Hen].
  destruct a as [value|i j| | |suggestion|picked|tab].
  - rewrite handle_Edit. settle.
  - rewrite handle_SelectRange. settle.
  - cbn [handle]. rewrite runAnalysis_session. cbv zeta.
    destruct (all_whitespace _); [settle|].
    destruct (scan_outcome rt _)
      as [[[[suggestions sources] summary] aiDetection]|] eqn:Hscan; [|settle].
    apply Promise_all4_inv in Hscan as (Hg & Hv & Hs & Hd).
    destruct (verifySources_distinct _ _ _ Hv).
    settle.
    + unfold routed_tab. by repeat case_match.
    + by eapply checkGrammarAndStyle_ids.
    + intros [= ->]. by apply generateSummary_nonempty in Hs.
  - cbn [handle]. rewrite verifySelection_session.
    destruct (JS.truthy (selectedText s)); [|settle].
    destruct (verifyTextClaims rt (selectedText s)) as [claims|] eqn:Hclaims';
      settle.
    by eapply verifyTextClaims_ids.
  - cbn [handle]. rewrite applySuggestion_run. settle.
    by apply NoDup_ids_filter.
  - cbn [handle].
    destruct (handleFileUpload_world rt picked s) as (events & _ & Hcases).
    destruct picked as [file|]; [|destruct Hcases as [-> _]; settle].
    destruct (File.readAsDataURL file) as [reason|result|].
    + destruct Hcases as [-> _]. settle.
    + destruct (base64_of_dataURL result) as [base64String|].
      * destruct Hcases as (-> & _).
        destruct (extractTextFromFile rt base64String (File.type file)); settle.
      * destruct Hcases as [-> _]. settle.
    + destruct Hcases as [-> _]. settle.
  - rewrite handle_ClickTab. settle.
Qed.

Lemma reachable_settled (s : Session) : reachable s → settled s.
Proof.
  unfold reachable. intros Hreach.
  eapply (rtc_ind_r (R:=step) settled); [apply settled_initial| |exact Hreach].
  intros y z _ Hstep Hy. by eapply settled_step.
Qed.

(** ** What holds between two actions *)

(** In every session the interface can reach, the pending suggestions
    have ids that differ from one another, the sources have urls that
    differ from one another and titles that are not empty, and the claims
    have ids that differ from one another. *)
Theorem reachable_lists_distinct (s : Session) :
  reachable s →
  NoDup (Suggestion.id <$> AnalysisState.suggestions (analysis s))
  ∧ NoDup (SourceMatch.url <$> AnalysisState.sources (analysis s))
  ∧ Forall (λ v, SourceMatch.title v ≠ "") (AnalysisState.sources (analysis s))
  ∧ NoDup (VerificationResult.id <$> AnalysisState.claimVerification (analysis s)).
Proof. intros [Htab Hidle Hsug Hsrc Htitle Hclaims Hsum Herr]%reachable_settled. done. Qed.

Lemma reachable_lists_distinct_witness :
  let s := session (run (handle sample_runtime ClickFullScan) initialSession) in
  length (AnalysisState.suggestions (analysis s)) = 2
  ∧ length (AnalysisState.sources (analysis s)) = 2
  ∧ NoDup (Suggestion.id <$> AnalysisState.suggestions (analysis s))
  ∧ NoDup (SourceMatch.url <$> AnalysisState.sources (analysis s))
  ∧ Forall (λ v, SourceMatch.title v ≠ "") (AnalysisState.sources (analysis s))
  ∧ NoDup (VerificationResult.id <$> AnalysisState.claimVerification (analysis s)).
Proof.
  split; [reflexivity|]. split; [reflexivity|].
  apply (reachable_lists_distinct
           (session (run (handle sample_runtime ClickFullScan) initialSession))).
  apply rtc_once. apply (step_action _ sample_runtime ClickFullScan). reflexivity.
Defined.

(** In every session the interface can reach, [error] is empty or one of
    the four messages of the handlers, so that nothing the service or the
    reader said is shown; and the summary, when there is one, is not the
    empty text. *)
Theorem reachable_error_messages (s : Session) :
  reachable s →
  AnalysisState.error (analysis s)
    ∈ [ None;
        Some "Failed to complete analysis. Please check your internet connection or API key.";
        Some "Failed to verify selected text.";
        Some "Failed to read document text. The format might not be supported.";
        Some "Failed to upload file." ]
  ∧ AnalysisState.summary (analysis s) ≠ Some "".
Proof. intros [Htab Hidle Hsug Hsrc Htitle Hclaims Hsum Herr]%reachable_settled. done. Qed.

Lemma reachable_error_messages_witness :
  let s := session (run (handle keyless_runtime ClickFullScan) initialSession) in
  AnalysisState.error (analysis s) = Some analysis_failed
  ∧ AnalysisState.error (analysis s)
      ∈ [ None;
          Some "Failed to complete analysis. Please check your internet connection or API key.";
          Some "Failed to verify selected text.";
          Some "Failed to read document text. The format might not be supported.";
          Some "Failed to upload file." ]
  ∧ AnalysisState.summary (analysis s) ≠ Some "".
Proof.
  split; [reflexivity|].
  apply (reachable_error_messages
           (session (run (handle keyless_runtime ClickFullScan) initialSession))).
  apply rtc_once. apply (step_action _ keyless_runtime ClickFullScan). reflexivity.
Defined.

Lemma renderTab_cases (analysisState : AnalysisState.t) (tab : AnalysisType) :
  (∀ e, renderTab analysisState tab ≠ ErrorBox e)
  ∧ renderTab analysisState tab ≠ Spinner
  ∧ (tab ≠ CLARITY → renderTab analysisState tab ≠ Nothing).
Proof.
  unfold renderTab. destruct tab; repeat split; try done; intros;
    repeat case_match; done.
Qed.

(** In every session the interface can reach, the active tab is one of
    the four tabs of the sidebar, and the sidebar shows a panel:
    [renderContent] does not return [null]. *)
Theorem sidebar_never_blank (s : Session) :
  reachable s → activeTab s ≠ CLARITY ∧ sidebar s ≠ Nothing.
Proof.
  intros [Htab Hidle Hsug Hsrc Htitle Hclaims Hsum Herr]%reachable_settled.
  split; [done|]. unfold sidebar, renderContent. rewrite Hidle.
  destruct (renderTab_cases (analysis s) (activeTab s)) as (_ & _ & Hshown).
  destruct (AnalysisState.error (analysis s)) as [e|]; [|by apply Hshown].
  destruct (JS.truthy e); [done|by apply Hshown].
Qed.

Lemma sidebar_never_blank_witness :
  let s := session (run (handle sample_runtime (ClickTab SUMMARY)) initialSession) in
  activeTab s ≠ CLARITY ∧ sidebar s ≠ Nothing.
Proof.
  apply (sidebar_never_blank
           (session (run (handle sample_runtime (ClickTab SUMMARY)) initialSession))).
  apply rtc_once. apply (step_action _ sample_runtime (ClickTab SUMMARY)).
  discriminate.
Defined.

(** ** Accepting a fix *)

Lemma filter_all {A} (P : A → Prop) `{∀ x, Decision (P x)} (l : list A) :
  (∀ x, x ∈ l → P x) → filter P l = l.
Proof.
  induction l as [|x l IH]; intros Hall; [done|].
  rewrite filter_cons_True by (apply Hall; left).
  f_equal. apply IH. intros y Hy. apply Hall. by right.
Qed.

Lemma filter_out_id (l1 l2 : list Suggestion.t) (x : Suggestion.t) :
  NoDup (Suggestion.id <$> (l1 ++ x :: l2)%list) →
  filter (λ y, Suggestion.id y ≠ Suggestion.id x) (l1 ++ x :: l2)%list
    = (l1 ++ l2)%list.
Proof.
  rewrite fmap_app, fmap_cons.
  intros (_ & Hl1 & [Hl2 _]%NoDup_cons)%NoDup_app.
  rewrite filter_app, filter_cons_False by (intros Hne; by apply Hne).
  rewrite !filter_all; [done| |].
  - intros y Hy Heq. apply Hl2. rewrite <- Heq. apply list_elem_of_fmap. eauto.
  - intros y Hy Heq. apply (Hl1 (Suggestion.id y)).
    + apply list_elem_of_fmap. eauto.
    + rewrite Heq. left.
Qed.

Lemma sidebar_SuggestionCards (s : Session) (suggestions : list Suggestion.t) :
  sidebar s = SuggestionCards suggestions →
  suggestions = AnalysisState.suggestions (analysis s)
  ∧ AnalysisState.isAnalyzing (analysis s) = false
  ∧ activeTab s = GRAMMAR.
Proof.
  unfold sidebar, renderContent, renderTab.
  destruct (AnalysisState.isAnalyzing (analysis s)); [done|].
  intros Hview.
  assert (match activeTab s with
          | GRAMMAR =>
              if bool_decide (length (AnalysisState.suggestions (analysis s)) = 0)
              then NoIssues
              else SuggestionCards (AnalysisState.suggestions (analysis s))
          | _ => Nothing
          end = SuggestionCards suggestions) as Htab.
  { destruct (AnalysisState.error (analysis s)) as [e|];
      [destruct (JS.truthy e); [done|]|];
      destruct (activeTab s); try done; repeat case_match; done. }
  destruct (activeTab s); try done.
  destruct (bool_decide _); [done|]. by injection Htab as <-.
Qed.

(** In a session the interface can reach, accepting the fix of a card
    takes that suggestion out of the pending list and no other: the
    list of after is the list of before without that one entry. *)
Theorem AcceptFix_removes_one (rt : Runtime) (s : Session) (suggestion : Suggestion.t) :
  reachable s → enabled s (AcceptFix suggestion) →
  ∃ l1 l2,
    AnalysisState.suggestions (analysis s) = (l1 ++ suggestion :: l2)%list
    ∧ AnalysisState.suggestions
        (analysis (session (run (handle rt (AcceptFix suggestion)) s)))
      = (l1 ++ l2)%list.
Proof.
  intros [_ _ Hids _ _ _ _ _]%reachable_settled (suggestions & Hview & Hin).
  apply sidebar_SuggestionCards in Hview as (-> & _ & _).
  apply list_elem_of_split in Hin as (l1 & l2 & Hsplit).
  exists l1, l2. split; [done|].
  cbn [handle]. rewrite applySuggestion_run. cbn [analysis AnalysisState.suggestions].
  rewrite Hsplit in Hids |- *. by apply filter_out_id.
Qed.

Lemma AcceptFix_removes_one_witness :
  let shown :=
    session (run (handle sample_runtime (ClickTab GRAMMAR))
               (session (run (handle sample_runtime ClickFullScan) initialSession))) in
  let first :=
    Suggestion.mk "suggestion-0-1700000000000" "utilize a qualitative"
      "utilizes a qualitative" "Subject-verb agreement." Grammar Major in
  ∃ l1 l2,
    AnalysisState.suggestions (analysis shown) = (l1 ++ first :: l2)%list
    ∧ AnalysisState.suggestions
        (analysis (session (run (handle sample_runtime (AcceptFix first)) shown)))
      = (l1 ++ l2)%list.
Proof.
  apply (AcceptFix_removes_one sample_runtime).
  - eapply rtc_l; [apply (step_action _ sample_runtime ClickFullScan); reflexivity|].
    apply rtc_once. apply (step_action _ sample_runtime (ClickTab GRAMMAR)).
    discriminate.
  - eexists. split; [reflexivity|]. left.
Defined.

(** ** An upload that has not ended *)

Lemma after_eq (piece : App (option Pending)) (s : Session) (others : list Pending) :
  after piece s others =
    {| current := session (piece {| session := s; trace := [] |}).2;
       pending := (others ++ option_list (piece {| session := s; trace := [] |}).1)%list |}.
Proof. unfold after. by destruct (piece _). Qed.

Lemma then_ret {A} (m : App unit) (x : A) (w : World) :
  (m;; mret x) w = (x, (m w).2).
Proof. unfold mbind, App_bind, mret, App_ret. by destruct (m w) as [[] w']. Qed.

Lemma handle_run (rt : Runtime) (a : Action) (s : Session) :
  (handle rt a {| session := s; trace := [] |}).2 = run (handle rt a) s.
Proof. reflexivity. Qed.

(** What [scan_settled] and [verification_settled] leave of the session:
    neither writes [isUploading]. *)
Lemma scan_settled_isUploading settled (w : World) :
  isUploading (session (scan_settled settled w).2) = isUploading (session w).
Proof.
  destruct settled as [[[[suggestions sources] summary] [record|]]|];
    cbn [scan_settled]; do 2 run_handler; [|done..].
  cbn -[route_tab].
  match goal with
  | |- context [route_tab ?a ?b ?c ?w] =>
      destruct (route_tab_world a b c w) as (more & -> & _)
  end.
  done.
Qed.

Lemma verification_settled_isUploading settled (w : World) :
  isUploading (session (verification_settled settled w).2) = isUploading (session w).
Proof. by destruct settled. Qed.

(** One turn of the event loop keeps "the flag is set and no upload is in
    flight". *)
Lemma async_step_stuck (c c' : Config) :
  isUploading (current c) = true →
  Forall (λ p, upload_in_flight p = false) (pending c) →
  async_step c c' →
  isUploading (current c') = true
  ∧ Forall (λ p, upload_in_flight p = false) (pending c').
Proof.
  intros Hup Hpending [rt a Hen|rt before p behind Hsplit]; rewrite after_eq;
    cbn [current pending].
  - destruct a as [value|i j| | |suggestion|picked|tab]; cbn [begin];
      rewrite ?then_ret, ?handle_run; cbn [fst snd option_list];
      rewrite ?app_nil_r.
    + by rewrite handle_Edit.
    + by rewrite handle_SelectRange.
    + cbn in Hen. unfold fullScanDisabled in Hen.
      rewrite Hup, orb_true_r in Hen. done.
    + run_handler.
      destruct (JS.truthy (selectedText (current c))); cbn.
      * split; [done|]. apply Forall_app. split; [done|]. by constructor.
      * by rewrite app_nil_r.
    + cbn [handle]. by rewrite applySuggestion_run.
    + cbn in Hen. unfold uploadDisabled in Hen. by rewrite Hup in Hen.
    + by rewrite handle_ClickTab.
  - rewrite Hsplit in Hpending. apply Forall_app in Hpending as [Hbefore Hrest].
    apply Forall_cons in Hrest as [Hp Hbehind].
    assert (Forall (λ p, upload_in_flight p = false) (before ++ behind)) as Hothers
      by (by apply Forall_app).
    destruct p as [settled|settled|file result|file settled]; try discriminate;
      cbn [resume]; rewrite then_ret; cbn [fst snd option_list];
      rewrite app_nil_r; (split; [|done]).
    + by rewrite scan_settled_isUploading.
    + by rewrite verification_settled_isUploading.
Qed.

(** The schedule in which every handler runs to its end before the next
    action is one of the schedules of the event loop. *)
Lemma step_async_step (s s' : Session) :
  step s s' →
  rtc async_step {| current := s; pending := [] |} {| current := s'; pending := [] |}.
Proof.
  intros [rt a Hen].
  eapply rtc_l; [apply (async_action {| current := s; pending := [] |} rt a Hen)|].
  rewrite after_eq. cbn [current pending app].
  destruct a as [value|i j| | |suggestion|picked|tab]; cbn [begin];
    rewrite ?then_ret, ?handle_run; cbn [fst snd option_list];
    try apply rtc_refl.
  - cbn [handle]. destruct (all_whitespace (DocumentState.text (doc s))) eqn:Hblank.
    + rewrite runAnalysis_session. cbv zeta. rewrite Hblank.
      run_handler. apply trim_empty in Hblank. rewrite Hblank.
      apply rtc_refl.
    + assert (JS.trim (DocumentState.text (doc s)) ≠ "") as Hdoc
        by (rewrite trim_empty; by rewrite Hblank).
      rewrite runAnalysis_scan_settled by done. cbv zeta.
      run_handler.
      apply truthy_spec in Hdoc. rewrite Hdoc. cbn [negb]. run_handler.
      cbn [option_list].
      eapply rtc_l;
        [eapply (async_settle _ rt [] _ []); reflexivity|].
      rewrite after_eq. cbn [current pending app resume].
      rewrite then_ret. apply rtc_refl.
  - cbn [handle]. rewrite verifySelection_session. run_handler.
    destruct (JS.truthy (selectedText s)); cbn [negb]; run_handler; [|apply rtc_refl].
    cbn [option_list].
    eapply rtc_l; [eapply (async_settle _ rt [] _ []); reflexivity|].
    rewrite after_eq. cbn [current pending app resume]. run_handler.
    destruct (verifyTextClaims rt (selectedText s)); apply rtc_refl.
  - cbn [handle]. destruct picked as [file|]; [|apply rtc_refl].
    unfold handleFileUpload.
    destruct (File.readAsDataURL file) as [reason|result|];
      [apply rtc_refl| |apply rtc_refl].
    run_handler. cbn [option_list].
    eapply rtc_l; [eapply (async_settle _ rt [] _ []); reflexivity|].
    rewrite after_eq. cbn [current pending app resume]. unfold onload.
    destruct (base64_of_dataURL result) as [base64String|]; [|apply rtc_refl].
    run_handler. cbn [option_list].
    eapply rtc_l; [eapply (async_settle _ rt [] _ []); reflexivity|].
    rewrite after_eq. cbn [current pending app resume]. unfold transcription_settled.
    destruct (extractTextFromFile rt base64String (File.type file)); apply rtc_refl.
Qed.

(** When [isUploading] is true and no upload is in flight (the reader
    called [onload] with a data URL that has no payload, or never called
    it), nothing makes the flag false again: whatever the user does that
    the interface lets through and in whatever order the scans and the
    verifications that are pending settle, Full Scan and Upload Doc stay
    disabled. *)
Theorem upload_flag_stuck (c c' : Config) :
  isUploading (current c) = true →
  Forall (λ p, upload_in_flight p = false) (pending c) →
  rtc async_step c c' →
  isUploading (current c') = true
  ∧ fullScanDisabled (current c') = true
  ∧ uploadDisabled (current c') = true.
Proof.
  intros Hup Hpending Hsteps.
  assert (isUploading (current c') = true
          ∧ Forall (λ p, upload_in_flight p = false) (pending c')) as [Hup' _].
  { induction Hsteps as [c|c c1 c2 Hstep _ IH]; [done|].
    destruct (async_step_stuck c c1 Hup Hpending Hstep) as [Hup1 Hpending1].
    by apply IH. }
  unfold fullScanDisabled, uploadDisabled. rewrite Hup'.
  by rewrite orb_true_r.
Qed.

Lemma upload_flag_stuck_witness :
  let idle := {| current := initialSession; pending := [] |} in
  let picked := after (begin sample_runtime (PickFile (Some empty_file)))
                  initialSession [] in
  let stuck := after (resume sample_runtime
                        (ReadPending empty_file "data:text/plain;base64,"))
                 (current picked) [] in
  let selected := after (begin sample_runtime (SelectRange 0 8))
                    (current stuck) (pending stuck) in
  let verifying := after (begin sample_runtime ClickVerifySelection)
                     (current selected) (pending selected) in
  let later := after (begin sample_runtime (Edit "Another text."))
                 (current verifying) (pending verifying) in
  rtc async_step idle stuck
  ∧ pending stuck = []
  ∧ length (pending later) = 1
  ∧ isUploading (current later) = true
  ∧ fullScanDisabled (current later) = true
  ∧ uploadDisabled (current later) = true.
Proof.
  split; [|split; [reflexivity|split; [reflexivity|]]].
  - eapply rtc_l;
      [apply (async_action _ sample_runtime (PickFile (Some empty_file)));
       reflexivity|].
    apply rtc_once.
    apply (async_settle _ sample_runtime []
             (ReadPending empty_file "data:text/plain;base64,") []).
    reflexivity.
  - apply (upload_flag_stuck
             (after (resume sample_runtime
                       (ReadPending empty_file "data:text/plain;base64,"))
                (current (after (begin sample_runtime (PickFile (Some empty_file)))
                            initialSession [])) []));
      [reflexivity|by constructor|].
    eapply rtc_l;
      [apply (async_action _ sample_runtime (SelectRange 0 8)); exact I|].
    eapply rtc_l;
      [apply (async_action _ sample_runtime ClickVerifySelection);
       split; reflexivity|].
    apply rtc_once. apply (async_action _ sample_runtime (Edit "Another text.")).
    exact I.
Defined.

(** ** What the sidebar shows *)

Lemma renderContent_error (analysisState : AnalysisState.t) (e : string) :
  AnalysisState.isAnalyzing analysisState = false →
  AnalysisState.error analysisState = Some e → e ≠ "" →
  ∀ tab, renderContent analysisState tab = ErrorBox e.
Proof.
  intros Hidle Herror He%truthy_spec tab. unfold renderContent.
  by rewrite Hidle, Herror, He.
Qed.

Lemma renderContent_no_error (analysisState : AnalysisState.t) (tab : AnalysisType) :
  AnalysisState.isAnalyzing analysisState = false →
  AnalysisState.error analysisState = None →
  renderContent analysisState tab = renderTab analysisState tab.
Proof. intros Hidle Herror. unfold renderContent. by rewrite Hidle, Herror. Qed.

(** After a full scan that failed, after a verification of a selection
    that failed, and after a transcription that failed while no analysis
    was running, the sidebar shows the message of the failure on every
    tab: the results that were kept are not shown. *)
Theorem failure_hides_results (rt : Runtime) (s : Session) (file : File.t)
    (result base64String : string) :
  let text := DocumentState.text (doc s) in
  (JS.trim text ≠ "" →
   isRejected (checkGrammarAndStyle rt text) ∨ isRejected (verifySources rt text)
     ∨ isRejected (generateSummary rt text) ∨ isRejected (detectAIContent rt text) →
   ∀ tab, renderContent (analysis (session (run (runAnalysis rt) s))) tab
          = ErrorBox analysis_failed)
  ∧ (selectedText s ≠ "" →
     isRejected (verifyTextClaims rt (selectedText s)) →
     ∀ tab, renderContent (analysis (session (run (verifySelection rt) s))) tab
            = ErrorBox selection_failed)
  ∧ (File.readAsDataURL file = ReadLoads result →
     base64_of_dataURL result = Some base64String →
     isRejected (extractTextFromFile rt base64String (File.type file)) →
     AnalysisState.isAnalyzing (analysis s) = false →
     ∀ tab, renderContent
              (analysis (session (run (handleFileUpload rt (Some file)) s))) tab
            = ErrorBox read_failed).
Proof.
  intros text. split; [|split].
  - intros Hdoc%not_blank Hfail tab. rewrite runAnalysis_session. cbv zeta.
    fold text. rewrite Hdoc. unfold scan_outcome.
    destruct (Promise_all4_rejected _ _ _ _ Hfail) as [reason ->].
    by apply renderContent_error.
  - intros Hsel%truthy_spec Hfail tab. rewrite verifySelection_session, Hsel.
    destruct (verifyTextClaims rt (selectedText s)); [done|].
    by apply renderContent_error.
  - intros Hread Hdata Hfail Hidle tab.
    destruct (handleFileUpload_world rt (Some file) s) as (events & _ & Hcases).
    rewrite Hread, Hdata in Hcases. destruct Hcases as (-> & _).
    destruct (extractTextFromFile rt base64String (File.type file)); [done|].
    by apply renderContent_error.
Qed.

Lemma failure_hides_results_witness :
  AnalysisState.suggestions
    (analysis (session (run (runAnalysis flaky_runtime) busy_session)))
    = AnalysisState.suggestions (analysis busy_session)
  ∧ renderContent (analysis (session (run (runAnalysis flaky_runtime) busy_session)))
      GRAMMAR = ErrorBox analysis_failed
  ∧ renderContent (analysis (session (run (verifySelection keyless_runtime) busy_session)))
      SOURCES = ErrorBox selection_failed
  ∧ renderContent
      (analysis (session (run (handleFileUpload keyless_runtime (Some sample_file))
                            busy_session)))
      SUMMARY = ErrorBox read_failed.
Proof.
  destruct (failure_hides_results flaky_runtime busy_session sample_file "" "")
    as (Hscan & _ & _).
  destruct (failure_hides_results keyless_runtime busy_session sample_file
              "data:text/plain;base64,SGVsbG8=" "SGVsbG8=")
    as (_ & Hverify & Hupload).
  split; [reflexivity|].
  split; [apply Hscan; [vm_compute; discriminate|right; right; left; exact I]|].
  split; [apply Hverify; [vm_compute; discriminate|exact I]|].
  apply Hupload; [reflexivity|reflexivity|exact I|reflexivity].
Defined.

Lemma sidebar_ErrorBox (s : Session) (e : string) :
  sidebar s = ErrorBox e →
  AnalysisState.isAnalyzing (analysis s) = false
  ∧ AnalysisState.error (analysis s) = Some e ∧ e ≠ "".
Proof.
  unfold sidebar, renderContent.
  destruct (AnalysisState.isAnalyzing (analysis s)); [done|].
  destruct (renderTab_cases (analysis s) (activeTab s)) as (Hnot & _ & _).
  destruct (AnalysisState.error (analysis s)) as [e'|]; [|by intros ?%Hnot].
  destruct (JS.truthy e') eqn:He; [|by intros ?%Hnot].
  intros [= ->]. by apply truthy_spec in He.
Qed.

(** While the sidebar shows an error no fix can be accepted, and the
    error stays through every action but Full Scan, Verify Selection and
    an upload: editing the text, moving the selection and pressing a tab
    leave the same message shown. *)
Theorem error_stays_shown (rt : Runtime) (s : Session) (e : string) (a : Action) :
  sidebar s = ErrorBox e →
  (∀ suggestion, ¬ enabled s (AcceptFix suggestion))
  ∧ (enabled s a → starts_request a = false →
     sidebar (session (run (handle rt a) s)) = ErrorBox e).
Proof.
  intros Hview. split.
  - intros suggestion (suggestions & Hcards & _). by rewrite Hview in Hcards.
  - apply sidebar_ErrorBox in Hview as (Hidle & Herror & He).
    intros Hen Hlocal. destruct a as [value|i j| | |suggestion|picked|tab]; try done.
    + rewrite handle_Edit. by apply renderContent_error.
    + rewrite handle_SelectRange. by apply renderContent_error.
    + cbn [handle]. rewrite applySuggestion_run. by apply renderContent_error.
    + rewrite handle_ClickTab. by apply renderContent_error.
Qed.

Lemma error_stays_shown_witness :
  let failed := session (run (runAnalysis flaky_runtime) busy_session) in
  sidebar failed = ErrorBox analysis_failed
  ∧ sidebar (session (run (handle sample_runtime (ClickTab GRAMMAR)) failed))
    = ErrorBox analysis_failed.
Proof.
  split; [reflexivity|].
  refine (proj2 (error_stays_shown sample_runtime
                   (session (run (runAnalysis flaky_runtime) busy_session))
                   analysis_failed (ClickTab GRAMMAR) eq_refl) _ eq_refl).
  discriminate.
Defined.



Lemma isHighAI_above_80 (aiDetection : AiDetectionResult.t) :
  (80 < AiDetectionResult.score aiDetection)%Q → isHighAI aiDetection = true.
Proof.
  intros Hhigh. apply Number_gt_spec.
  eapply Qlt_trans; [|exact Hhigh]. reflexivity.
Qed.

(** After a full scan that succeeded the sidebar shows what the scan
    routed to: with a score above 80 the AI panel, in red; otherwise the
    cards of the suggestions when there are some; otherwise the sources
    when there are some (never the claims, which the scan emptied). *)
Theorem runAnalysis_success_shows (rt : Runtime) (s : Session)
    (suggestions : list Suggestion.t) (sources : list SourceMatch.t)
    (summary : string) (aiDetection : AiDetectionResult.t) :
  let text := DocumentState.text (doc s) in
  let score := AiDetectionResult.score aiDetection in
  let after := session (run (runAnalysis rt) s) in
  JS.trim text ≠ "" →
  checkGrammarAndStyle rt text = Resolved suggestions →
  verifySources rt text = Resolved sources →
  generateSummary rt text = Resolved summary →
  detectAIContent rt text = Resolved aiDetection →
  ((80 < score)%Q → sidebar after = AiPanel aiDetection "text-red-600" "bg-red-500")
  ∧ ((score <= 80)%Q → suggestions ≠ [] → sidebar after = SuggestionCards suggestions)
  ∧ ((score <= 80)%Q → suggestions = [] → sources ≠ [] →
     sidebar after = SourceCards sources).
Proof.
  intros text score after Hdoc%not_blank Hgrammar Hsources Hsummary Hdetect.
  subst after. rewrite runAnalysis_session. cbv zeta. fold text. rewrite Hdoc.
  unfold scan_outcome.
  rewrite (Promise_all4_resolved _ _ _ _ _ _ _ _ Hgrammar Hsources Hsummary Hdetect).
  unfold sidebar. cbn [analysis activeTab]. rewrite renderContent_no_error by done.
  unfold routed_tab. fold score. split; [|split].
  - intros Hhigh. rewrite (proj2 (Number_gt_spec _ _) Hhigh). cbn.
    unfold scoreColor, barColor. by rewrite isHighAI_above_80.
  - intros Hlow%Number_gt_false Hsome. rewrite Hlow.
    rewrite bool_decide_eq_true_2 by by apply length_pos_nonempty.
    cbn. rewrite bool_decide_eq_false_2; [done|].
    apply length_pos_nonempty in Hsome. lia.
  - intros Hlow%Number_gt_false -> Hsome. rewrite Hlow. cbn [length].
    rewrite bool_decide_eq_false_2 by lia.
    rewrite bool_decide_eq_true_2 by by apply length_pos_nonempty.
    unfold renderTab.
    cbn [scan_succeeded AnalysisState.claimVerification AnalysisState.sources length].
    rewrite bool_decide_eq_false_2 by lia.
    rewrite bool_decide_eq_false_2; [done|].
    apply length_pos_nonempty in Hsome. lia.
Qed.

Lemma runAnalysis_success_shows_witness :
  sidebar (session (run (runAnalysis sample_runtime) busy_session))
    = AiPanel sample_detection "text-red-600" "bg-red-500".
Proof.
  refine (proj1 (runAnalysis_success_shows sample_runtime busy_session
                   _ _ _ sample_detection _ eq_refl eq_refl eq_refl eq_refl) _).
  - vm_compute. discriminate.
  - reflexivity.
Defined.

(** ** Replacement texts with dollar signs *)

Lemma GetSubstitution_pattern_free (matched before after template : string) :
  pattern_free template = true →
  JS.GetSubstitution matched before after template = template.
Proof.
  induction template as [|c rest IH]; [done|].
  cbn [pattern_free JS.GetSubstitution]. destruct rest as [|d rest'].
  - intros _. by destruct (Ascii.eqb c "$").
  - intros [Hc Hrest]%andb_true_iff. rewrite IH by done.
    destruct (Ascii.eqb c "$"); [|done]. cbn in Hc.
    apply negb_true_iff in Hc.
    destruct (Ascii.eqb d "$"); [done|].
    destruct (Ascii.eqb d "&"); [done|].
    destruct (Ascii.eqb d "`"); [done|].
    by destruct (Ascii.eqb d "'").
Qed.

(** A suggested text is put into the document as it is written whenever
    it holds none of [$$], [$&], [$`] and [$']: other dollar signs, those
    of a price among them, are kept.  The text of after is then the text
    of before with the first occurrence of [originalText] replaced, or
    the text of before when there is none. *)
Theorem applySuggestion_literal_without_patterns (suggestion : Suggestion.t)
    (s : Session) :
  pattern_free (Suggestion.suggestedText suggestion) = true →
  DocumentState.text (doc (session (run (applySuggestion suggestion) s)))
    = replaceFirstLiteral (DocumentState.text (doc s))
        (Suggestion.originalText suggestion) (Suggestion.suggestedText suggestion).
Proof.
  intros Hfree. rewrite applySuggestion_run. cbn [doc DocumentState.text].
  unfold JS.replace, replaceFirstLiteral.
  destruct (JS.indexOf _ _); [|done]. by rewrite GetSubstitution_pattern_free.
Qed.

Lemma applySuggestion_literal_without_patterns_witness :
  let suggestion :=
    Suggestion.mk "suggestion-0-1" "5 dollars" "$5 (US$)" "Use the symbol."
      Style Minor in
  let s :=
    {| doc := DocumentState.mk "The fee is 5 dollars." "Fees"; selectedText := "";
       activeTab := GRAMMAR; analysis := initialAnalysis; isUploading := false |} in
  DocumentState.text (doc (session (run (applySuggestion suggestion) s)))
    = "The fee is $5 (US$)."
  ∧ replaceFirstLiteral "The fee is 5 dollars." "5 dollars" "$5 (US$)"
    = "The fee is $5 (US$).".
Proof.
  split; [|reflexivity].
  exact (applySuggestion_literal_without_patterns
           (Suggestion.mk "suggestion-0-1" "5 dollars" "$5 (US$)" "Use the symbol."
              Style Minor)
           {| doc := DocumentState.mk "The fee is 5 dollars." "Fees"; selectedText := "";
              activeTab := GRAMMAR; analysis := initialAnalysis; isUploading := false |}
           eq_refl).
Defined.

(** ** The selection *)

Lemma substring_split (s : string) (lo n : nat) :
  (lo + n ≤ String.length s)%nat →
  ∃ before rest,
    s = before +:+ String.substring lo n s +:+ rest
    ∧ String.length before = lo
    ∧ String.length (String.substring lo n s) = n.
Proof.
  revert lo n. induction s as [|c s IH]; intros lo n Hle.
  - cbn in Hle. assert (lo = 0) as -> by lia. assert (n = 0) as -> by lia.
    by exists "", "".
  - destruct lo as [|lo].
    + destruct n as [|n]; [by exists "", (String c s)|].
      cbn in Hle. destruct (IH 0 n) as (before & rest & Hs & Hlen & Hsub); [lia|].
      destruct before; [|done]. rewrite append_empty in Hs.
      exists "", rest. cbn [String.substring String.length].
      rewrite append_empty, append_String, <- Hs, Hsub. done.
    + cbn in Hle. destruct (IH lo n) as (before & rest & Hs & Hlen & Hsub); [lia|].
      exists (String c before), rest. cbn [String.substring String.length].
      rewrite append_String, <- Hs, Hlen. done.
Qed.

(** Moving the selection records the code units of the text from
    [selectionStart] up to [selectionEnd], and shows Verify Selection; a
    selection that is collapsed records the empty text and leaves the
    button out.  Nothing else of the session changes. *)
Theorem handleSelect_records_range (rt : Runtime) (s : Session) (i j : nat) :
  let text := DocumentState.text (doc s) in
  let after := session (run (handle rt (SelectRange i j)) s) in
  (i = j → selectedText after = "" ∧ verifySelectionShown after = false)
  ∧ ((i < j)%nat → (j ≤ String.length text)%nat →
     ∃ before rest,
       text = before +:+ selectedText after +:+ rest
       ∧ String.length before = i
       ∧ String.length (selectedText after) = j - i
       ∧ verifySelectionShown after = true)
  ∧ doc after = doc s ∧ activeTab after = activeTab s
  ∧ analysis after = analysis s ∧ isUploading after = isUploading s.
Proof.
  intros text after. subst after. rewrite handle_SelectRange.
  cbn [selectedText doc activeTab analysis isUploading]. fold text.
  split; [|split; [|done]].
  - intros ->. by rewrite bool_decide_eq_false_2 by (intros Hne; by apply Hne).
  - intros Hlt Hle. rewrite bool_decide_eq_true_2 by lia.
    unfold JS.substring, verifySelectionShown.
    rewrite Nat.min_l, Nat.max_r by lia. cbn [selectedText].
    destruct (substring_split text i (j - i)) as (before & rest & Hs & Hlen & Hsub);
      [lia|].
    exists before, rest. split; [done|]. split; [done|]. split; [done|].
    apply truthy_spec. intros Hempty. rewrite Hempty in Hsub. cbn in Hsub. lia.
Qed.

Lemma handleSelect_records_range_witness :
  selectedText (session (run (handle sample_runtime (SelectRange 9 20)) initialSession))
    = "Methodology"
  ∧ ∃ before rest,
      DEFAULT_TEXT = before +:+ "Methodology" +:+ rest
      ∧ String.length before = 9.
Proof.
  split; [reflexivity|].
  destruct (proj1 (proj2 (handleSelect_records_range sample_runtime initialSession 9 20)))
    as (before & rest & Htext & Hlen & _); [lia|vm_compute; lia|].
  exists before, rest. split; [exact Htext|exact Hlen].
Defined.
